(** * History hydration and stream normalisation of copilotkit-langgraph-history

    A shallow embedding of the runner's [connect] / [joinAndProcessStream]
    methods, of [processStreamChunk] / [handleCustomEvent] and of the message
    transformer, followed by the properties of the specification that are
    settled on it.

    Conventions of the embedding.
    - Every [as T] cast of the TypeScript source is read at type [T]: a value
      received from LangGraph is taken to have the shape the cast asserts.
    - Payloads typed [unknown] are JSON values ([JValue]); a property read with
      optional chaining on such a payload is [jfield].
    - An awaited call on the LangGraph client returns or throws ([Outcome]),
      and a joined stream may throw after any number of chunks; on inputs of
      the declared types no other statement of the modelled code throws.
    - [Date.now()] stamps are left out of the events.
    - [JSON.stringify] is a JavaScript builtin: its result is kept symbolically
      as [JSON_stringify v].
    - The subscriber, the two [Set]s of a stream session and the runner's
      [activeRun] field are mutable objects shared between calls; they are
      threaded explicitly. *)

From stdpp Require Import gmap strings list.
From Stdlib Require Import ZArith Lia.

Local Open Scope string_scope.
Local Open Scope list_scope.
Local Set Warnings "-register-all".

(** ** JSON payloads *)

(** A parsed JSON value; an object lists its fields, each key once. *)
Inductive JValue : Type :=
| JNull
| JBool (b : bool)
| JNum (n : Z)
| JStr (s : string)
| JArr (items : list JValue)
| JObj (fields : list (string * JValue)).

(** A value that may be [undefined]. *)
Abbreviation JSValue := (option JValue).

(** The text produced by [JSON.stringify(v)]. *)
Inductive JsonText : Type :=
| JSON_stringify (v : JSValue).

(** JavaScript truthiness of a JSON value or [undefined]. *)
Definition truthy (v : JSValue) : bool :=
  match v with
  | None => false
  | Some JNull => false
  | Some (JBool b) => b
  | Some (JNum n) => negb (n =? 0)%Z
  | Some (JStr s) => negb (String.eqb s "")
  | Some (JArr _) => true
  | Some (JObj _) => true
  end.

(** [a || b] on values. *)
Definition js_or (a b : JSValue) : JSValue := if truthy a then a else b.

(** [s || d] on an optional string with a string default. *)
Definition str_or (s : option string) (d : string) : string :=
  match s with
  | Some x => if String.eqb x "" then d else x
  | None => d
  end.

Fixpoint assoc_lookup (k : string) (fs : list (string * JValue)) : JSValue :=
  match fs with
  | [] => None
  | (k', v) :: rest => if String.eqb k k' then Some v else assoc_lookup k rest
  end.

(** [v?.k] on a JSON payload: an object yields its field, every other value
    (and [undefined], [null]) yields [undefined]. *)
Definition jfield (k : string) (v : JSValue) : JSValue :=
  match v with
  | Some (JObj fs) => assoc_lookup k fs
  | _ => None
  end.

(** [v?.[0]]. *)
Definition jindex0 (v : JSValue) : JSValue :=
  match v with
  | Some (JArr (x :: _)) => Some x
  | Some (JObj fs) => assoc_lookup "0" fs
  | Some (JStr (String c _)) => Some (JStr (String c EmptyString))
  | _ => None
  end.

(** A field read at type [string | undefined]. *)
Definition str_field (k : string) (v : JSValue) : option string :=
  match jfield k v with
  | Some (JStr s) => Some s
  | _ => None
  end.

(** [k in metadata && metadata[k] === false]. *)
Definition flag_is_false (k : string) (metadata : gmap string JValue) : bool :=
  match metadata !! k with
  | Some (JBool false) => true
  | _ => false
  end.

(** ** runner/constants.ts *)

Definition DEFAULT_HISTORY_LIMIT : Z := 100.
Definition MAX_HISTORY_LIMIT : Z := 1000.

(** ** events/custom-events.ts and events/langgraph-events.ts *)

Module CustomEventNames.
Definition CopilotKitManuallyEmitMessage := "copilotkit_manually_emit_message".
Definition CopilotKitManuallyEmitToolCall := "copilotkit_manually_emit_tool_call".
Definition CopilotKitManuallyEmitIntermediateState :=
  "copilotkit_manually_emit_intermediate_state".
Definition CopilotKitExit := "copilotkit_exit".

End CustomEventNames.

Module LangGraphEventTypes.
Definition OnChatModelStart := "on_chat_model_start".
Definition OnChatModelStream := "on_chat_model_stream".
Definition OnChatModelEnd := "on_chat_model_end".
Definition OnToolStart := "on_tool_start".
Definition OnToolEnd := "on_tool_end".
Definition OnChainStart := "on_chain_start".
Definition OnChainEnd := "on_chain_end".

End LangGraphEventTypes.

(** ** runner/types.ts *)

Record ContentBlock := {
  block_type : string;
  block_text : option string;
}.

(** [string | Array<{type; text?}>]; [ContentOther] is any other shape, for
    which [extractContent] has a fall-through. *)
Inductive MessageContent :=
| ContentString (s : string)
| ContentBlocks (blocks : list ContentBlock)
| ContentOther.

Record ToolCall := {
  tc_id : string;
  tc_name : string;
  tc_args : JValue;
}.

Record LangGraphMessage := {
  msg_id : string;
  msg_type : string;
  msg_content : MessageContent;
  msg_tool_calls : option (list ToolCall);
  msg_tool_call_id : option string;
}.

Record StateValues := {
  messages : option (list LangGraphMessage);
  other_keys : list (string * JValue);
}.

Record Interrupt := {
  interrupt_value : JSValue;
}.

Record Task := {
  task_id : string;
  task_name : string;
  interrupts : option (list Interrupt);
}.

Record ThreadState := {
  values : option StateValues;
  next : option (list string);
  tasks : option (list Task);
}.

Record PredictStateTool := {
  tool : string;
  state_key : string;
  tool_argument : string;
}.

Record Run := {
  run_id : string;
  status : string;
}.

(** ** utils/message-transformer.ts *)

Inductive Role := user | assistant | system | tool_role.

Record FunctionCall := {
  fn_name : string;
  fn_arguments : JsonText;
}.

Record TransformedToolCall := {
  ttc_id : string;
  ttc_function : FunctionCall;
}.

Record TransformedMessage := {
  tm_id : string;
  tm_role : Role;
  tm_content : string;
  tm_toolCalls : option (list TransformedToolCall);
  tm_toolCallId : option string;
}.

Definition newline : string := String (Ascii.ascii_of_nat 10) EmptyString.

Definition block_to_text (block : ContentBlock) : string :=
  match block_text block with
  | Some t =>
      if String.eqb (block_type block) "text" && negb (String.eqb t "")
      then t else ""
  | None => ""
  end.

Definition extractContent (content : MessageContent) : string :=
  match content with
  | ContentString s => s
  | ContentBlocks blocks =>
      String.concat newline
        (List.filter (fun text => negb (String.length text =? 0)%nat)
           (List.map block_to_text blocks))
  | ContentOther => ""
  end.

Definition transformToolCall (toolCall : ToolCall) : TransformedToolCall :=
  {| ttc_id := tc_id toolCall;
     ttc_function := {| fn_name := tc_name toolCall;
                        fn_arguments := JSON_stringify (Some (tc_args toolCall)) |} |}.

(** The body of the [switch (msg.type)]: [None] is the [default] arm, which
    leaves [transformed] at [null]. *)
Definition transformMessage (msg : LangGraphMessage) : option TransformedMessage :=
  let content := extractContent (msg_content msg) in
  if String.eqb (msg_type msg) "human" then
    Some {| tm_id := msg_id msg; tm_role := user; tm_content := content;
            tm_toolCalls := None; tm_toolCallId := None |}
  else if String.eqb (msg_type msg) "ai" then
    Some {| tm_id := msg_id msg; tm_role := assistant; tm_content := content;
            tm_toolCalls := List.map transformToolCall <$> msg_tool_calls msg;
            tm_toolCallId := None |}
  else if String.eqb (msg_type msg) "system" then
    Some {| tm_id := msg_id msg; tm_role := system; tm_content := content;
            tm_toolCalls := None; tm_toolCallId := None |}
  else if String.eqb (msg_type msg) "tool" then
    Some {| tm_id := msg_id msg; tm_role := tool_role; tm_content := content;
            tm_toolCalls := None; tm_toolCallId := msg_tool_call_id msg |}
  else None.

(** The [for (const msg of messages)] loop pushing onto [result]. *)
Definition transformMessages (msgs : list LangGraphMessage) : list TransformedMessage :=
  foldl (fun result msg =>
           match transformMessage msg with
           | Some transformed => result ++ [transformed]
           | None => result
           end) [] msgs.

(** ** History reconstruction inside [connect] (lines 276-309) *)

(** The pair of [seenMessageIds] and [allMessages]. *)
Record Collected := {
  seenMessageIds : gset string;
  allMessages : list LangGraphMessage;
}.

(** One iteration of the inner loop over a checkpoint's messages. *)
Definition collect_message (acc : Collected) (msg : LangGraphMessage) : Collected :=
  if decide (msg_id msg ∈ seenMessageIds acc) then acc
  else {| seenMessageIds := {[ msg_id msg ]} ∪ seenMessageIds acc;
          allMessages := allMessages acc ++ [msg] |}.

(** [state.values?.messages]. *)
Definition checkpoint_messages (state : ThreadState) : option (list LangGraphMessage) :=
  values state ≫= messages.

(** One iteration of the outer loop over the (already reversed) history. *)
Definition collect_checkpoint (acc : Collected) (state : ThreadState) : Collected :=
  match checkpoint_messages state with
  | Some msgs => foldl collect_message acc msgs
  | None => acc
  end.

(** The outer loop, over the array it is given: [connect] runs it on
    [history.reverse()]. *)
Definition collect_checkpoints (checkpoints : list ThreadState) : Collected :=
  foldl collect_checkpoint
    {| seenMessageIds := ∅; allMessages := [] |} checkpoints.

(** [arr.slice(start)] for an integer [start]. *)
Definition Array_slice {A} (start : Z) (arr : list A) : list A :=
  let len := Z.of_nat (length arr) in
  let k := if (start <? 0)%Z then Z.max (len + start) 0 else Z.min start len in
  drop (Z.to_nat k) arr.

Definition limitMessages (historyLimit : Z) (all : list LangGraphMessage)
  : list LangGraphMessage :=
  if (historyLimit >? 0)%Z then Array_slice (- historyLimit) all else all.

(** ** Events sent to the subscriber *)

Inductive EventType :=
| RUN_STARTED | RUN_FINISHED | MESSAGES_SNAPSHOT | STATE_SNAPSHOT
| TEXT_MESSAGE_START | TEXT_MESSAGE_CONTENT | TEXT_MESSAGE_END
| TOOL_CALL_START | TOOL_CALL_ARGS | TOOL_CALL_END
| CUSTOM.

Global Instance EventType_eq_dec : EqDecision EventType.
Proof. solve_decision. Defined.

Inductive RawEvent :=
| RawLangGraph (id event name : string) (data : JSValue) (run_id : option string)
    (metadata : option (gmap string JValue))
| RawStream (id event : string) (data : JSValue)
| RawState (id event : string) (data : StateValues)
| RawCustom (id : string) (data : JSValue)
| RawError (id error message : string)
| RawInterrupt (id : string) (value : JSValue).

Inductive Snapshot :=
| SnapshotState (v : StateValues)
| SnapshotJson (v : JSValue).

Inductive CustomValue :=
| ValRaw (v : JSValue)
| ValText (t : JsonText).

(** One constructor per [type]; the last two arguments are [threadId] and
    [runId]. *)
Inductive BaseEvent :=
| RunStarted (tid rid : string)
| RunFinished (tid rid : string)
| MessagesSnapshot (msgs : list TransformedMessage) (tid rid : string)
| StateSnapshot (snapshot : Snapshot) (raw : RawEvent) (tid rid : string)
| TextMessageStart (role : Role) (messageId : string) (raw : RawEvent) (tid rid : string)
| TextMessageContent (messageId delta : string) (raw : RawEvent) (tid rid : string)
| TextMessageEnd (messageId : string) (raw : RawEvent) (tid rid : string)
| ToolCallStart (toolCallId toolCallName parentMessageId : string) (raw : RawEvent)
    (tid rid : string)
| ToolCallArgs (toolCallId : string) (delta : JsonText) (raw : RawEvent) (tid rid : string)
| ToolCallEnd (toolCallId : string) (raw : RawEvent) (tid rid : string)
| Custom (name : string) (value : CustomValue) (raw : RawEvent) (tid rid : string).

Definition event_type (e : BaseEvent) : EventType :=
  match e with
  | RunStarted _ _ => RUN_STARTED
  | RunFinished _ _ => RUN_FINISHED
  | MessagesSnapshot _ _ _ => MESSAGES_SNAPSHOT
  | StateSnapshot _ _ _ _ => STATE_SNAPSHOT
  | TextMessageStart _ _ _ _ _ => TEXT_MESSAGE_START
  | TextMessageContent _ _ _ _ _ => TEXT_MESSAGE_CONTENT
  | TextMessageEnd _ _ _ _ => TEXT_MESSAGE_END
  | ToolCallStart _ _ _ _ _ _ => TOOL_CALL_START
  | ToolCallArgs _ _ _ _ _ => TOOL_CALL_ARGS
  | ToolCallEnd _ _ _ _ => TOOL_CALL_END
  | Custom _ _ _ _ _ => CUSTOM
  end.

Definition is_text_message_event (e : BaseEvent) : bool :=
  match event_type e with
  | TEXT_MESSAGE_START | TEXT_MESSAGE_CONTENT | TEXT_MESSAGE_END => true
  | _ => false
  end.

Definition is_tool_call_event (e : BaseEvent) : bool :=
  match event_type e with
  | TOOL_CALL_START | TOOL_CALL_ARGS | TOOL_CALL_END => true
  | _ => false
  end.

(** ** utils/stream-processor.ts *)

Record MetadataData := {
  md_run_id : string;
}.

Record EventsData := {
  ed_event : string;
  ed_name : string;
  ed_data : JSValue;
  ed_run_id : option string;
}.

Record ErrorData := {
  err_error : string;
  err_message : string;
}.

(** The stream chunk, a union discriminated by [event]; [data] has the type
    the matching [case] casts it to. *)
Inductive StreamChunk :=
| MetadataChunk (data : MetadataData) (metadata : option (gmap string JValue))
| EventsChunk (data : EventsData) (metadata : option (gmap string JValue))
| UpdatesChunk (data : JSValue) (metadata : option (gmap string JValue))
| ValuesChunk (data : JSValue) (metadata : option (gmap string JValue))
| CustomChunk (data : JSValue) (metadata : option (gmap string JValue))
| ErrorChunk (data : ErrorData) (metadata : option (gmap string JValue))
| OtherChunk (event : string) (data : JSValue) (metadata : option (gmap string JValue)).

Definition chunk_event (chunk : StreamChunk) : string :=
  match chunk with
  | MetadataChunk _ _ => "metadata"
  | EventsChunk _ _ => "events"
  | UpdatesChunk _ _ => "updates"
  | ValuesChunk _ _ => "values"
  | CustomChunk _ _ => "custom"
  | ErrorChunk _ _ => "error"
  | OtherChunk event _ _ => event
  end.

Definition chunk_metadata (chunk : StreamChunk) : option (gmap string JValue) :=
  match chunk with
  | MetadataChunk _ m | EventsChunk _ m | UpdatesChunk _ m | ValuesChunk _ m
  | CustomChunk _ m | ErrorChunk _ m | OtherChunk _ _ m => m
  end.

(** The context of one call. [startedMessages] and [startedToolCalls] hold the
    current contents of the two optional [Set]s. *)
Record StreamProcessorContext := {
  threadId : string;
  runId : string;
  startedMessages : option (gset string);
  startedToolCalls : option (gset string);
  debug : bool;
  manuallyEmittedState : JSValue;
}.

(** What a call mutates while it runs: the events handed to
    [subscriber.next], in order, and the two sets. *)
Record Shared := {
  emitted : list BaseEvent;
  startedMsgs : option (gset string);
  startedTools : option (gset string);
}.

Definition subscriber_next (e : BaseEvent) (s : Shared) : Shared :=
  {| emitted := emitted s ++ [e];
     startedMsgs := startedMsgs s;
     startedTools := startedTools s |}.

(** [startedMessages.add(id)], guarded by [if (startedMessages)] where the
    source has the guard and reached only with the set present elsewhere. *)
Definition startedMessages_add (id : string) (s : Shared) : Shared :=
  {| emitted := emitted s;
     startedMsgs := (fun set => {[ id ]} ∪ set) <$> startedMsgs s;
     startedTools := startedTools s |}.

Definition startedToolCalls_add (id : string) (s : Shared) : Shared :=
  {| emitted := emitted s;
     startedMsgs := startedMsgs s;
     startedTools := (fun set => {[ id ]} ∪ set) <$> startedTools s |}.

(** [set && !set.has(id)] *)
Definition present_and_lacks (set : option (gset string)) (id : string) : bool :=
  match set with
  | Some ids => bool_decide (id ∉ ids)
  | None => false
  end.

(** [!set || !set.has(id)] *)
Definition absent_or_lacks (set : option (gset string)) (id : string) : bool :=
  match set with
  | Some ids => bool_decide (id ∉ ids)
  | None => true
  end.

(** Control flow inside a [case]: [Next] falls through to the following
    statement, [Broke] is a [break] out of the [switch]. *)
Inductive Flow :=
| Next (s : Shared)
| Broke (s : Shared).

Definition and_then (f : Flow) (k : Shared -> Flow) : Flow :=
  match f with
  | Next s => k s
  | Broke s => Broke s
  end.

Definition flow_end (f : Flow) : Shared :=
  match f with
  | Next s => s
  | Broke s => s
  end.

Notation "f >>> k" := (and_then f k) (at level 61, left associativity).

Definition emit_messages_key := "copilotkit:emit-messages".
Definition emit_tool_calls_key := "copilotkit:emit-tool-calls".
Definition emit_intermediate_state_key := "copilotkit:emit-intermediate-state".

(** [emitIntermediateState?.some(t => t.tool === toolCallData?.name)],
    with [toolCallData = data?.chunk?.tool_call_chunks?.[0]]. *)
Definition toolCallUsedToPredictState
    (data : JSValue) (metadata : gmap string JValue) : bool :=
  let toolCallData := jindex0 (jfield "tool_call_chunks" (jfield "chunk" data)) in
  match metadata !! emit_intermediate_state_key with
  | Some (JArr emitIntermediateState) =>
      existsb (fun predictStateTool =>
                 bool_decide (str_field "tool" (Some predictStateTool)
                              = str_field "name" toolCallData))
        emitIntermediateState
  | _ => false
  end.

Section events_case.
Import LangGraphEventTypes.

Variable eventsData : EventsData.
Variable chunk_meta : option (gmap string JValue).
Variable threadId0 runId0 : string.

Definition rawEvent : RawEvent :=
  RawLangGraph runId0 (ed_event eventsData) (ed_name eventsData)
    (ed_data eventsData) (ed_run_id eventsData) chunk_meta.

Definition eventType : string := ed_event eventsData.
Definition metadata_or_empty : gmap string JValue := default ∅ chunk_meta.

(** Lines 104-119. *)
Definition predict_state_block (s : Shared) : Flow :=
  if String.eqb eventType OnChatModelStream
     && toolCallUsedToPredictState (ed_data eventsData) metadata_or_empty
  then
    Broke (subscriber_next
             (Custom "PredictState"
                (ValRaw (metadata_or_empty !! emit_intermediate_state_key))
                rawEvent threadId0 runId0) s)
  else Next s.

(** Lines 121-166. *)
Definition chat_model_stream_block (s : Shared) : Flow :=
  if String.eqb eventType OnChatModelStream then
    let messageChunk := jfield "chunk" (ed_data eventsData) in
    let content := jfield "content" messageChunk in
    if truthy content then
      if flag_is_false emit_messages_key metadata_or_empty then Broke s
      else
        let messageId := str_or (ed_run_id eventsData) runId0 in
        let delta := match content with Some (JStr c) => c | _ => "" end in
        let s1 :=
          if present_and_lacks (startedMsgs s) messageId then
            startedMessages_add messageId
              (subscriber_next
                 (TextMessageStart assistant messageId rawEvent threadId0 runId0) s)
          else s in
        Next (subscriber_next
                (TextMessageContent messageId delta rawEvent threadId0 runId0) s1)
    else Next s
  else Next s.

(** Lines 168-198. *)
Definition chat_model_start_block (s : Shared) : Flow :=
  if String.eqb eventType OnChatModelStart then
    if flag_is_false emit_messages_key metadata_or_empty then Broke s
    else
      let messageId := str_or (ed_run_id eventsData) runId0 in
      if absent_or_lacks (startedMsgs s) messageId then
        Next (startedMessages_add messageId
                (subscriber_next
                   (TextMessageStart assistant messageId rawEvent threadId0 runId0) s))
      else Next s
  else Next s.

(** Lines 200-235. *)
Definition chat_model_end_block (s : Shared) : Flow :=
  if String.eqb eventType OnChatModelEnd then
    if flag_is_false emit_messages_key metadata_or_empty then Broke s
    else
      let messageId := str_or (ed_run_id eventsData) runId0 in
      let s1 :=
        if present_and_lacks (startedMsgs s) messageId then
          startedMessages_add messageId
            (subscriber_next
               (TextMessageStart assistant messageId rawEvent threadId0 runId0) s)
        else s in
      Next (subscriber_next (TextMessageEnd messageId rawEvent threadId0 runId0) s1)
  else Next s.

(** Lines 237-283. *)
Definition tool_start_block (s : Shared) : Flow :=
  if String.eqb eventType OnToolStart then
    if flag_is_false emit_tool_calls_key metadata_or_empty then Broke s
    else
      let toolData := jfield "input" (ed_data eventsData) in
      let toolName := ed_name eventsData in
      let toolCallId := str_or (ed_run_id eventsData) runId0 in
      let s1 :=
        if absent_or_lacks (startedTools s) toolCallId then
          startedToolCalls_add toolCallId
            (subscriber_next
               (ToolCallStart toolCallId toolName runId0 rawEvent threadId0 runId0) s)
        else s in
      if truthy toolData then
        Next (subscriber_next
                (ToolCallArgs toolCallId (JSON_stringify toolData)
                   rawEvent threadId0 runId0) s1)
      else Next s1
  else Next s.

(** Lines 285-322. *)
Definition tool_end_block (s : Shared) : Flow :=
  if String.eqb eventType OnToolEnd then
    if flag_is_false emit_tool_calls_key metadata_or_empty then Broke s
    else
      let toolCallId := str_or (ed_run_id eventsData) runId0 in
      let toolName := ed_name eventsData in
      let s1 :=
        if present_and_lacks (startedTools s) toolCallId then
          startedToolCalls_add toolCallId
            (subscriber_next
               (ToolCallStart toolCallId toolName runId0 rawEvent threadId0 runId0) s)
        else s in
      Next (subscriber_next (ToolCallEnd toolCallId rawEvent threadId0 runId0) s1)
  else Next s.

(** Lines 324-334. *)
Definition pass_through_event : BaseEvent :=
  Custom (ed_event eventsData)
    (ValText (JSON_stringify (ed_data eventsData))) rawEvent threadId0 runId0.

Definition pass_through_block (s : Shared) : Flow :=
  Broke (subscriber_next pass_through_event s).

(** The whole [case "events"]. *)
Definition events_case (s : Shared) : Shared :=
  flow_end
    (predict_state_block s
     >>> chat_model_stream_block
     >>> chat_model_start_block
     >>> chat_model_end_block
     >>> tool_start_block
     >>> tool_end_block
     >>> pass_through_block).

End events_case.

(** [a || b] on two optional strings. *)
Definition opt_str_or (a b : option string) : option string :=
  match a with
  | Some x => if String.eqb x "" then b else Some x
  | None => b
  end.

(** [handleCustomEvent]: the events it hands to the subscriber, in order, and
    the [manuallyEmittedState] it returns. It receives the subscriber but
    neither of the two sets. *)
Definition handleCustomEvent
    (customData : JSValue) (threadId0 runId0 : string)
    (manuallyEmittedState0 : JSValue) : list BaseEvent * JSValue :=
  let rawEvent := RawCustom runId0 customData in
  let typedData := customData in
  let eventName := opt_str_or (str_field "name" typedData) (str_field "event" typedData) in
  if bool_decide (eventName = Some CustomEventNames.CopilotKitManuallyEmitMessage) then
    let value := jfield "value" typedData in
    let messageId := str_or (str_field "message_id" value) runId0 in
    let message := str_or (str_field "message" value) "" in
    ([ TextMessageStart assistant messageId rawEvent threadId0 runId0;
       TextMessageContent messageId message rawEvent threadId0 runId0;
       TextMessageEnd messageId rawEvent threadId0 runId0 ],
     manuallyEmittedState0)
  else if bool_decide (eventName = Some CustomEventNames.CopilotKitManuallyEmitToolCall) then
    let value := jfield "value" typedData in
    let toolCallId := str_or (str_field "id" value) runId0 in
    let toolCallName := str_or (str_field "name" value) "" in
    let args := js_or (jfield "args" value) (Some (JObj [])) in
    ([ ToolCallStart toolCallId toolCallName toolCallId rawEvent threadId0 runId0;
       ToolCallArgs toolCallId (JSON_stringify args) rawEvent threadId0 runId0;
       ToolCallEnd toolCallId rawEvent threadId0 runId0 ],
     manuallyEmittedState0)
  else if bool_decide
            (eventName = Some CustomEventNames.CopilotKitManuallyEmitIntermediateState) then
    let manuallyEmittedState1 := jfield "value" typedData in
    ([ StateSnapshot (SnapshotJson manuallyEmittedState1) rawEvent threadId0 runId0 ],
     manuallyEmittedState1)
  else if bool_decide (eventName = Some CustomEventNames.CopilotKitExit) then
    ([ Custom "Exit" (ValRaw (Some (JBool true))) rawEvent threadId0 runId0 ],
     manuallyEmittedState0)
  else
    ([ Custom (str_or eventName "on_custom_event")
         (ValText (JSON_stringify customData)) rawEvent threadId0 runId0 ],
     manuallyEmittedState0).

Definition ErrorData_json (e : ErrorData) : JValue :=
  JObj [("error", JStr (err_error e)); ("message", JStr (err_message e))].

(** [processStreamChunk chunk context]: the events handed to the subscriber
    during the call, and the context the caller holds afterwards, that is the
    returned [runId] and [manuallyEmittedState] together with the two sets as
    the call left them. *)
Definition processStreamChunk (chunk : StreamChunk) (context : StreamProcessorContext)
  : list BaseEvent * StreamProcessorContext :=
  let tid := threadId context in
  let rid := runId context in
  match chunk with
  | MetadataChunk metadataData _ =>
      let rid' := if String.eqb (md_run_id metadataData) "" then rid
                  else md_run_id metadataData in
      ([], {| threadId := tid; runId := rid';
              startedMessages := startedMessages context;
              startedToolCalls := startedToolCalls context;
              debug := debug context;
              manuallyEmittedState := manuallyEmittedState context |})
  | EventsChunk eventsData chunk_meta =>
      let s := events_case eventsData chunk_meta tid rid
                 {| emitted := [];
                    startedMsgs := startedMessages context;
                    startedTools := startedToolCalls context |} in
      (emitted s,
       {| threadId := tid; runId := rid;
          startedMessages := startedMsgs s;
          startedToolCalls := startedTools s;
          debug := debug context;
          manuallyEmittedState := manuallyEmittedState context |})
  | UpdatesChunk updatesData _ =>
      ([ StateSnapshot (SnapshotJson updatesData)
           (RawStream rid "updates" updatesData) tid rid ], context)
  | ValuesChunk valuesData _ =>
      ([ StateSnapshot (SnapshotJson valuesData)
           (RawStream rid "values" valuesData) tid rid ], context)
  | CustomChunk customData _ =>
      let result := handleCustomEvent customData tid rid (manuallyEmittedState context) in
      (result.1,
       {| threadId := tid; runId := rid;
          startedMessages := startedMessages context;
          startedToolCalls := startedToolCalls context;
          debug := debug context;
          manuallyEmittedState := result.2 |})
  | ErrorChunk errorData _ =>
      ([ Custom "on_error" (ValText (JSON_stringify (Some (ErrorData_json errorData))))
           (RawError rid (err_error errorData) (err_message errorData)) tid rid ],
       context)
  | OtherChunk _ _ _ => ([], context)
  end.

(** The [for await (const chunk of stream)] loop of [joinAndProcessStream]:
    each chunk is processed with the context left by the previous one. On
    chunks of the declared types [processStreamChunk] does not throw, so the
    [catch] around each call is not entered. *)
Definition process_chunks (chunks : list StreamChunk) (context : StreamProcessorContext)
  : list BaseEvent * StreamProcessorContext :=
  foldl (fun acc chunk =>
           let result := processStreamChunk chunk acc.2 in
           (acc.1 ++ result.1, result.2))
    ([], context) chunks.

(** ** The LangGraph client and the runner *)

(** The result of an awaited call: a value, or a thrown exception. *)
Inductive Outcome (A : Type) :=
| Returns (a : A)
| Throws.
Arguments Returns {A} a.
Arguments Throws {A}.

(** A joined stream yields [stream_chunks] and then ends, or throws when
    [stream_throws]. *)
Record JoinedStream := {
  stream_chunks : list StreamChunk;
  stream_throws : bool;
}.

(** What a client answers. [runs_list n] is the answer to the call made after
    [n] earlier calls of [runs.list]. [Math_random_suffix] is the text of
    [Math.random().toString(36).slice(2)], which every path of [connect] draws
    at most once. *)
Record Client := {
  threads_getHistory : string -> Z -> Outcome (option (list ThreadState));
  runs_list : nat -> string -> Outcome (option (list Run));
  runs_joinStream : string -> string -> JoinedStream;
  threads_getState : string -> Outcome ThreadState;
  Math_random_suffix : string;
}.

Inductive ClientCall :=
| CallGetHistory (threadId0 : string) (limit : Z)
| CallRunsList (threadId0 : string)
| CallJoinStream (threadId0 runId0 : string)
| CallGetState (threadId0 : string).

Global Instance ClientCall_eq_dec : EqDecision ClientCall.
Proof. solve_decision. Defined.

Definition is_runs_list (c : ClientCall) : bool :=
  match c with CallRunsList _ => true | _ => false end.

Definition is_join_stream (c : ClientCall) : bool :=
  match c with CallJoinStream _ _ => true | _ => false end.

(** Everything a [connect] call acts on. *)
Record World := {
  sub_events : list BaseEvent;
  sub_completed : bool;
  client_calls : list ClientCall;
  activeRun_manuallyEmittedState : JSValue;
}.

Record RunnerConfig := {
  cfg_historyLimit : option Z;
  cfg_debug : option bool;
}.

Record Runner := {
  historyLimit : Z;
  runner_debug : bool;
}.

(** The constructor. *)
Definition new_runner (config : RunnerConfig) : Runner :=
  {| historyLimit := Z.min (default DEFAULT_HISTORY_LIMIT (cfg_historyLimit config))
                       MAX_HISTORY_LIMIT;
     runner_debug := default false (cfg_debug config) |}.

(** A computation over the world that returns or throws. *)
Definition M (A : Type) : Type := World -> World * Outcome A.

Definition ret {A} (a : A) : M A := fun w => (w, Returns a).
Definition throw {A} : M A := fun w => (w, Throws).
Definition bind {A B} (m : M A) (k : A -> M B) : M B :=
  fun w => match m w with
           | (w', Returns a) => k a w'
           | (w', Throws) => (w', Throws)
           end.
Definition try_catch {A} (m : M A) (handler : M A) : M A :=
  fun w => match m w with
           | (w', Returns a) => (w', Returns a)
           | (w', Throws) => handler w'
           end.

Notation "'await' x := m 'in' k" := (bind m (fun x => k))
  (at level 10, x name, m at level 100, k at level 200, only parsing).
Notation "'run' m 'in' k" := (bind m (fun _ => k))
  (at level 10, m at level 100, k at level 200, only parsing).

Definition next_event (e : BaseEvent) : M unit :=
  fun w => ({| sub_events := sub_events w ++ [e];
               sub_completed := sub_completed w;
               client_calls := client_calls w;
               activeRun_manuallyEmittedState := activeRun_manuallyEmittedState w |},
            Returns tt).

Definition next_events (es : list BaseEvent) : M unit :=
  fun w => ({| sub_events := sub_events w ++ es;
               sub_completed := sub_completed w;
               client_calls := client_calls w;
               activeRun_manuallyEmittedState := activeRun_manuallyEmittedState w |},
            Returns tt).

Definition complete : M unit :=
  fun w => ({| sub_events := sub_events w;
               sub_completed := true;
               client_calls := client_calls w;
               activeRun_manuallyEmittedState := activeRun_manuallyEmittedState w |},
            Returns tt).

Definition log_call (c : ClientCall) (w : World) : World :=
  {| sub_events := sub_events w;
     sub_completed := sub_completed w;
     client_calls := client_calls w ++ [c];
     activeRun_manuallyEmittedState := activeRun_manuallyEmittedState w |}.

Definition get_activeRun_state : M JSValue :=
  fun w => (w, Returns (activeRun_manuallyEmittedState w)).

Definition set_activeRun_state (v : JSValue) : M unit :=
  fun w => ({| sub_events := sub_events w;
               sub_completed := sub_completed w;
               client_calls := client_calls w;
               activeRun_manuallyEmittedState := v |},
            Returns tt).

Section with_client.
Variable client : Client.

Definition getHistory (tid : string) (limit : Z) : M (option (list ThreadState)) :=
  fun w => (log_call (CallGetHistory tid limit) w, threads_getHistory client tid limit).

Definition list_runs (tid : string) : M (option (list Run)) :=
  fun w => (log_call (CallRunsList tid) w,
            runs_list client (length (List.filter is_runs_list (client_calls w))) tid).

Definition joinStream (tid rid : string) : M JoinedStream :=
  fun w => (log_call (CallJoinStream tid rid) w, Returns (runs_joinStream client tid rid)).

Definition getState (tid : string) : M ThreadState :=
  fun w => (log_call (CallGetState tid) w, threads_getState client tid).

End with_client.

(** The interrupt looked for on a checkpoint: the task found by
    [tasks?.find(task => task.interrupts && task.interrupts.length > 0)], and
    the [value] of its first interrupt. [None] when no event is to be sent. *)
Definition has_interrupts (task : Task) : bool :=
  match interrupts task with
  | Some (_ :: _) => true
  | _ => false
  end.

Definition pending_interrupt (state : ThreadState) : option JSValue :=
  match tasks state ≫= List.find has_interrupts with
  | Some interruptedTask =>
      match interrupts interruptedTask with
      | Some (interrupt :: _) => Some (interrupt_value interrupt)
      | _ => None
      end
  | None => None
  end.

Definition interrupt_event (interruptValue : JSValue) (tid rid : string) : BaseEvent :=
  Custom "on_interrupt" (ValText (JSON_stringify interruptValue))
    (RawInterrupt rid interruptValue) tid rid.

Definition emit_interrupt_if_any (state : ThreadState) (tid rid : string) : M unit :=
  match pending_interrupt state with
  | Some interruptValue => next_event (interrupt_event interruptValue tid rid)
  | None => ret tt
  end.

(** [latestState.next && latestState.next.length > 0] *)
Definition isThreadBusy (latestState : ThreadState) : bool :=
  match next latestState with
  | Some (_ :: _) => true
  | _ => false
  end.

Definition is_active (r : Run) : bool :=
  String.eqb (status r) "running" || String.eqb (status r) "pending".

Section runner.
Variable this : Runner.
Variable client : Client.

Definition hydration_id : string := "hydration_" +:+ Math_random_suffix client.
Definition hydration_error_id : string :=
  "hydration_error_" +:+ Math_random_suffix client.

(** [joinAndProcessStream client threadId runId subscriber]. *)
Definition joinAndProcessStream (tid rid : string) : M unit :=
  try_catch
    (await stream := joinStream client tid rid in
     await manuallyEmittedState0 := get_activeRun_state in
     let result :=
       process_chunks (stream_chunks stream)
         {| threadId := tid; runId := rid;
            startedMessages := Some ∅; startedToolCalls := Some ∅;
            debug := runner_debug this;
            manuallyEmittedState := manuallyEmittedState0 |} in
     run next_events result.1 in
     if stream_throws stream then throw
     else
       let currentRunId := runId result.2 in
       run set_activeRun_state (manuallyEmittedState result.2) in
       run try_catch
             (await state := getState client tid in
              emit_interrupt_if_any state tid currentRunId)
             (ret tt) in
       next_event (RunFinished tid currentRunId))
    (run next_event (RunFinished tid rid) in throw).

(** The three events sent when there is nothing to hydrate. *)
Definition minimal_sequence (tid fallbackRunId : string) : M unit :=
  run next_event (RunStarted tid fallbackRunId) in
  run next_event (MessagesSnapshot [] tid fallbackRunId) in
  run next_event (RunFinished tid fallbackRunId) in
  complete.

(** The [try] block of [hydrate], from the non-empty history on. [fetched]
    is the array as returned, newest first; [history] is that array after
    [history.reverse()] has reversed it in place. *)
Definition hydrate_history (tid : string) (fetched : list ThreadState) : M unit :=
  let history := reverse fetched in
  let allMessages0 := allMessages (collect_checkpoints history) in
  let limitedMessages := limitMessages (historyLimit this) allMessages0 in
  let transformedMessages := transformMessages limitedMessages in
  await rid :=
    try_catch
      (await runs := list_runs client tid in
       ret (match runs with
            | Some (r :: _) => run_id r
            | _ => hydration_id
            end))
      (ret hydration_id) in
  run next_event (RunStarted tid rid) in
  run next_event (MessagesSnapshot transformedMessages tid rid) in
  await latestState :=
    match history !! (length history - 1)%nat with
    | Some st => ret st
    | None => throw
    end in
  run match values latestState with
      | Some v =>
          next_event (StateSnapshot (SnapshotState v) (RawState rid "values" v) tid rid)
      | None => ret tt
      end in
  run emit_interrupt_if_any latestState tid rid in
  await activeRun :=
    (if isThreadBusy latestState then
       try_catch
         (await runs := list_runs client tid in
          ret (runs ≫= List.find is_active))
         (ret None)
     else ret None) in
  run match activeRun with
      | Some r => try_catch (joinAndProcessStream tid (run_id r)) (ret tt)
      | None => next_event (RunFinished tid rid)
      end in
  complete.

(** The body of [hydrate], started by [connect]. *)
Definition hydrate (tid : string) : M unit :=
  try_catch
    (await history :=
       getHistory client tid
         (if (historyLimit this >? 0)%Z then historyLimit this
          else DEFAULT_HISTORY_LIMIT) in
     match history with
     | None | Some [] => minimal_sequence tid hydration_id
     | Some fetched => hydrate_history tid fetched
     end)
    (minimal_sequence tid hydration_error_id).

Definition initial_world (state0 : JSValue) : World :=
  {| sub_events := []; sub_completed := false; client_calls := [];
     activeRun_manuallyEmittedState := state0 |}.

(** [connect request]: the world once [hydrate] has run, from a world in
    which nothing has been sent to the subscriber. [state0] is the runner's
    [activeRun.manuallyEmittedState] at the time of the call. *)
Definition connect (tid : string) (state0 : JSValue) : World :=
  (hydrate tid (initial_world state0)).1.

End runner.

(** ** [connect] on a checkpoint that is not of its declared type *)

(** The checkpoints reach [connect] as untyped data: the cast
    [as unknown as ThreadState] of lines 339-341 checks nothing.
    [hydrate_history] reads every field at its declared type. The definitions
    below read one field as it may be at run time, the [tasks] of the newest
    checkpoint, which [latestState.tasks?.find(...)] (lines 365-367) reads
    after RUN_STARTED has been sent and outside of any inner [try]. When the
    field holds a JSON value that is neither absent, [null] nor an array, it
    has no callable [find] and the call throws a TypeError. *)
Inductive TasksField :=
| TasksAsDeclared
| TasksBoolean (b : bool)
| TasksNumber (n : Z)
| TasksString (s : string)
| TasksObject (fields : list (string * JValue)).

Section unchecked_cast.
Variable this : Runner.
Variable client : Client.

(** Lines 364-391: the search for an interrupted task and the event sent for
    it. *)
Definition find_interrupt (field : TasksField) (latestState : ThreadState)
    (tid rid : string) : M unit :=
  match field with
  | TasksAsDeclared => emit_interrupt_if_any latestState tid rid
  | _ => throw
  end.

(** [hydrate_history] with the [tasks] of the newest checkpoint read as
    [field] says. *)
Definition hydrate_history_unchecked (tid : string) (fetched : list ThreadState)
    (field : TasksField) : M unit :=
  let history := reverse fetched in
  let allMessages0 := allMessages (collect_checkpoints history) in
  let limitedMessages := limitMessages (historyLimit this) allMessages0 in
  let transformedMessages := transformMessages limitedMessages in
  await rid :=
    try_catch
      (await runs := list_runs client tid in
       ret (match runs with
            | Some (r :: _) => run_id r
            | _ => hydration_id client
            end))
      (ret (hydration_id client)) in
  run next_event (RunStarted tid rid) in
  run next_event (MessagesSnapshot transformedMessages tid rid) in
  await latestState :=
    match history !! (length history - 1)%nat with
    | Some st => ret st
    | None => throw
    end in
  run match values latestState with
      | Some v =>
          next_event (StateSnapshot (SnapshotState v) (RawState rid "values" v) tid rid)
      | None => ret tt
      end in
  run find_interrupt field latestState tid rid in
  await activeRun :=
    (if isThreadBusy latestState then
       try_catch
         (await runs := list_runs client tid in
          ret (runs ≫= List.find is_active))
         (ret None)
     else ret None) in
  run match activeRun with
      | Some r => try_catch (joinAndProcessStream this client tid (run_id r)) (ret tt)
      | None => next_event (RunFinished tid rid)
      end in
  complete.

(** The body of [hydrate] with its outer [try] and [catch] (lines 241-460). *)
Definition hydrate_unchecked (tid : string) (field : TasksField) : M unit :=
  try_catch
    (await history :=
       getHistory client tid
         (if (historyLimit this >? 0)%Z then historyLimit this
          else DEFAULT_HISTORY_LIMIT) in
     match history with
     | None | Some [] => minimal_sequence tid (hydration_id client)
     | Some fetched => hydrate_history_unchecked tid fetched field
     end)
    (minimal_sequence tid (hydration_error_id client)).

Definition connect_unchecked (tid : string) (state0 : JSValue) (field : TasksField)
  : World :=
  (hydrate_unchecked tid field (initial_world state0)).1.

End unchecked_cast.

(** * Definitions used to state the properties *)

(** ** The deduplicated history *)

(** The messages of the fetched checkpoints in chronological order: the
    checkpoints oldest first, each with its messages in their own order. *)
Definition chronological (fetched : list ThreadState) : list LangGraphMessage :=
  mjoin ((fun st => default [] (checkpoint_messages st)) <$> reverse fetched).

(** The specification's wording of the result: each message stays where it
    first occurs and every later message with the same id is dropped. *)
Definition keep_first (l : list LangGraphMessage) : list LangGraphMessage :=
  foldr (fun m rest => m :: filter (fun m' => msg_id m' ≠ msg_id m) rest) [] l.

(** How many messages of [l] have the id [id]. *)
Definition count_id (id : string) (l : list LangGraphMessage) : nat :=
  length (filter (fun m => msg_id m = id) l).

Definition plain_message (id type content : string) : LangGraphMessage :=
  {| msg_id := id; msg_type := type; msg_content := ContentString content;
     msg_tool_calls := None; msg_tool_call_id := None |}.

Definition checkpoint_of (msgs : list LangGraphMessage) (nxt : list string) : ThreadState :=
  {| values := Some {| messages := Some msgs; other_keys := [] |};
     next := Some nxt; tasks := None |}.

(** The scenario of the specification: two checkpoints, newest first, the
    older one holding messages 1 and 2 and the newer one message 2 only. *)
Definition scenario_history : list ThreadState :=
  [ checkpoint_of [plain_message "2" "ai" "hi"] [];
    checkpoint_of [plain_message "1" "human" "hey"; plain_message "2" "ai" "hi"] [] ].

(** ** The event sequence of [connect], in closed form *)

Section trace_definitions.
Variable this : Runner.
Variable client : Client.
Variable tid : string.

(** The context with which [joinAndProcessStream] starts its loop. *)
Definition join_context (rid : string) (state0 : JSValue) : StreamProcessorContext :=
  {| threadId := tid; runId := rid;
     startedMessages := Some ∅; startedToolCalls := Some ∅;
     debug := runner_debug this; manuallyEmittedState := state0 |}.

Definition interrupt_events (answer : Outcome ThreadState) (rid : string)
  : list BaseEvent :=
  match answer with
  | Returns state =>
      match pending_interrupt state with
      | Some interruptValue => [interrupt_event interruptValue tid rid]
      | None => []
      end
  | Throws => []
  end.

(** What [joinAndProcessStream] sends to the subscriber. *)
Definition join_events (rid : string) (state0 : JSValue) : list BaseEvent :=
  let stream := runs_joinStream client tid rid in
  let result := process_chunks (stream_chunks stream) (join_context rid state0) in
  result.1 ++
    (if stream_throws stream then [RunFinished tid rid]
     else interrupt_events (threads_getState client tid) (runId result.2)
          ++ [RunFinished tid (runId result.2)]).

(** The run id used for the hydration events. *)
Definition resolved_run_id : string :=
  match runs_list client 0 tid with
  | Returns (Some (r :: _)) => run_id r
  | _ => hydration_id client
  end.

(** The run that [connect] joins, if any: looked up only when the latest
    checkpoint is busy. *)
Definition active_run (latestState : ThreadState) : option Run :=
  if isThreadBusy latestState then
    match runs_list client 1 tid with
    | Returns runs => runs ≫= List.find is_active
    | Throws => None
    end
  else None.

Definition snapshot_messages (fetched : list ThreadState) : list TransformedMessage :=
  transformMessages
    (limitMessages (historyLimit this)
       (allMessages (collect_checkpoints (reverse fetched)))).

Definition state_snapshot_events (latestState : ThreadState) (rid : string)
  : list BaseEvent :=
  match values latestState with
  | Some v => [StateSnapshot (SnapshotState v) (RawState rid "values" v) tid rid]
  | None => []
  end.

(** What [connect] sends after the two opening events when the newest
    checkpoint is [latestState]. *)
Definition after_snapshot (latestState : ThreadState) (state0 : JSValue)
  : list BaseEvent :=
  let rid := resolved_run_id in
  state_snapshot_events latestState rid
  ++ interrupt_events (Returns latestState) rid
  ++ match active_run latestState with
     | Some r => join_events (run_id r) state0
     | None => [RunFinished tid rid]
     end.

Definition fetch_limit : Z :=
  if (historyLimit this >? 0)%Z then historyLimit this else DEFAULT_HISTORY_LIMIT.

(** The calls made to the client after the history fetch. *)
Definition calls_after_fetch (latestState : ThreadState) : list ClientCall :=
  CallRunsList tid
  :: (if isThreadBusy latestState then [CallRunsList tid] else [])
  ++ match active_run latestState with
     | Some r =>
         CallJoinStream tid (run_id r)
         :: (if stream_throws (runs_joinStream client tid (run_id r)) then []
             else [CallGetState tid])
     | None => []
     end.

Definition minimal_events (rid : string) : list BaseEvent :=
  [RunStarted tid rid; MessagesSnapshot [] tid rid; RunFinished tid rid].

End trace_definitions.

(** ** Predicates on events, flows and client calls *)

Definition is_run_boundary (e : BaseEvent) : bool :=
  match event_type e with
  | RUN_STARTED | RUN_FINISHED => true
  | _ => false
  end.

Definition no_boundary (es : list BaseEvent) : Prop :=
  Forall (fun e => is_run_boundary e = false) es.

(** The state in which a flow ends satisfies [P]. *)
Definition flow_keeps (P : Shared → Prop) (f : Flow) : Prop := P (flow_end f).

Definition calls_runs_list_twice (calls : list ClientCall) : bool :=
  (length (List.filter is_runs_list calls) =? 2)%nat.

Definition joins_stream (calls : list ClientCall) : bool :=
  List.existsb is_join_stream calls.

(** ** Concrete clients and runners *)

(** A client that answers every call with a fixed value. *)
Definition scripted_client
    (history : Outcome (option (list ThreadState)))
    (runs : Outcome (option (list Run)))
    (stream : JoinedStream) (state : Outcome ThreadState) : Client :=
  {| threads_getHistory := fun _ _ => history;
     runs_list := fun _ _ => runs;
     runs_joinStream := fun _ _ => stream;
     threads_getState := fun _ => state;
     Math_random_suffix := "k3x9q" |}.

Definition no_stream : JoinedStream := {| stream_chunks := []; stream_throws := false |}.

Definition default_runner : Runner :=
  new_runner {| cfg_historyLimit := None; cfg_debug := None |}.

Definition runner_with_limit (L : Z) : Runner :=
  new_runner {| cfg_historyLimit := Some L; cfg_debug := None |}.

Definition empty_thread_client : Client :=
  scripted_client (Returns (Some [])) (Returns (Some [])) no_stream Throws.

Definition three_messages : ThreadState :=
  checkpoint_of
    [plain_message "1" "human" "a"; plain_message "2" "ai" "b";
     plain_message "3" "human" "c"] [].

Definition three_message_client : Client :=
  scripted_client (Returns (Some [three_messages]))
    (Returns (Some [{| run_id := "run-7"; status := "success" |}])) no_stream Throws.

(** A thread whose newest checkpoint still has a node to run, while no run of
    the thread is running or pending. *)
Definition busy_checkpoint : ThreadState :=
  checkpoint_of [plain_message "1" "human" "a"] ["agent"].

Definition busy_without_run_client : Client :=
  scripted_client (Returns (Some [busy_checkpoint]))
    (Returns (Some [{| run_id := "run-7"; status := "success" |}])) no_stream Throws.

(** ** Stream chunks of the [events] category *)

(** The chunk is turned into a PredictState signal (lines 104-119). *)
Definition diverted_to_predict_state
    (d : EventsData) (md : option (gmap string JValue)) : bool :=
  String.eqb (ed_event d) LangGraphEventTypes.OnChatModelStream
  && toolCallUsedToPredictState (ed_data d) (default ∅ md).

(** [messageChunk?.content] is truthy. *)
Definition has_content (d : EventsData) : bool :=
  truthy (jfield "content" (jfield "chunk" (ed_data d))).

(** The chunk reaches one of the five flag tests with the flag at [false]. *)
Definition suppressed_by_flag
    (d : EventsData) (md : option (gmap string JValue)) : bool :=
  let metadata := default ∅ md in
  (String.eqb (ed_event d) LangGraphEventTypes.OnChatModelStream
   && has_content d && flag_is_false emit_messages_key metadata)
  || (String.eqb (ed_event d) LangGraphEventTypes.OnChatModelStart
      && flag_is_false emit_messages_key metadata)
  || (String.eqb (ed_event d) LangGraphEventTypes.OnChatModelEnd
      && flag_is_false emit_messages_key metadata)
  || (String.eqb (ed_event d) LangGraphEventTypes.OnToolStart
      && flag_is_false emit_tool_calls_key metadata)
  || (String.eqb (ed_event d) LangGraphEventTypes.OnToolEnd
      && flag_is_false emit_tool_calls_key metadata).

Definition predict_state_event
    (d : EventsData) (md : option (gmap string JValue)) (tid rid : string) : BaseEvent :=
  Custom "PredictState" (ValRaw (default ∅ md !! emit_intermediate_state_key))
    (rawEvent d md rid) tid rid.

Definition is_custom_event (e : BaseEvent) : bool :=
  match event_type e with
  | CUSTOM => true
  | _ => false
  end.

(** The events of a call on an [events] chunk. *)
Definition events_of (d : EventsData) (md : option (gmap string JValue))
    (context : StreamProcessorContext) : list BaseEvent :=
  (processStreamChunk (EventsChunk d md) context).1.

(** A flow that falls through after adding events that are not CUSTOM. *)
Definition falls_through (s : Shared) (f : Flow) : Prop :=
  ∃ s', f = Next s'
        ∧ ∃ evs, emitted s' = emitted s ++ evs
                 ∧ Forall (fun e => is_custom_event e = false) evs.

(** ** Flags and event classes *)

(** The event belongs to a class that the metadata switches off. *)
Definition suppressed_event (metadata : gmap string JValue) (e : BaseEvent) : bool :=
  (flag_is_false emit_messages_key metadata && is_text_message_event e)
  || (flag_is_false emit_tool_calls_key metadata && is_tool_call_event e).

Definition is_custom_chunk (chunk : StreamChunk) : bool :=
  match chunk with
  | CustomChunk _ _ => true
  | _ => false
  end.

Definition set_chunk_metadata (md : option (gmap string JValue)) (chunk : StreamChunk)
  : StreamChunk :=
  match chunk with
  | MetadataChunk data _ => MetadataChunk data md
  | EventsChunk data _ => EventsChunk data md
  | UpdatesChunk data _ => UpdatesChunk data md
  | ValuesChunk data _ => ValuesChunk data md
  | CustomChunk data _ => CustomChunk data md
  | ErrorChunk data _ => ErrorChunk data md
  | OtherChunk event data _ => OtherChunk event data md
  end.

(** No event sent so far belongs to a class that [md] switches off. *)
Definition unsuppressed (md : option (gmap string JValue)) (s : Shared) : Prop :=
  Forall (fun e => suppressed_event (default ∅ md) e = false) (emitted s).

(** ** The started-sets of a session *)

(** The message or tool-call id of an [events] chunk: [eventsData.run_id ||
    runId]. *)
Definition lifecycle_id (d : EventsData) (context : StreamProcessorContext) : string :=
  str_or (ed_run_id d) (runId context).

Definition is_text_start (e : BaseEvent) : bool :=
  match event_type e with
  | TEXT_MESSAGE_START => true
  | _ => false
  end.

(** The set of started messages is present and contains [S]. *)
Definition includes_started (S : gset string) (s : Shared) : Prop :=
  ∃ S', startedMsgs s = Some S' ∧ S ⊆ S'.

(** The four lifecycle events whose handling consults a started-set either
    before a start event or before a content or end event. *)
Inductive LifecycleEvent :=
| ChatModelStream
| ChatModelStart
| ToolStart
| ToolEnd.

Definition lifecycle_name (k : LifecycleEvent) : string :=
  match k with
  | ChatModelStream => LangGraphEventTypes.OnChatModelStream
  | ChatModelStart => LangGraphEventTypes.OnChatModelStart
  | ToolStart => LangGraphEventTypes.OnToolStart
  | ToolEnd => LangGraphEventTypes.OnToolEnd
  end.

(** The set the handling of the event consults. *)
Definition consulted_set (k : LifecycleEvent) (context : StreamProcessorContext)
  : option (gset string) :=
  match k with
  | ChatModelStream | ChatModelStart => startedMessages context
  | ToolStart | ToolEnd => startedToolCalls context
  end.

(** The chunk has what the handling of the event needs: a truthy content for
    a stream event. *)
Definition has_payload (k : LifecycleEvent) (d : EventsData) : bool :=
  match k with
  | ChatModelStream => has_content d
  | _ => true
  end.

(** The specialised events when the consulted set is undefined. *)
Definition events_without_set (k : LifecycleEvent) (d : EventsData)
    (md : option (gmap string JValue)) (context : StreamProcessorContext)
  : list BaseEvent :=
  let tid := threadId context in
  let rid := runId context in
  let id := lifecycle_id d context in
  let raw := rawEvent d md rid in
  match k with
  | ChatModelStream =>
      [TextMessageContent id
         (match jfield "content" (jfield "chunk" (ed_data d)) with
          | Some (JStr c) => c
          | _ => ""
          end) raw tid rid]
  | ChatModelStart => [TextMessageStart assistant id raw tid rid]
  | ToolStart =>
      ToolCallStart id (ed_name d) rid raw tid rid
      :: (if truthy (jfield "input" (ed_data d))
          then [ToolCallArgs id (JSON_stringify (jfield "input" (ed_data d))) raw tid rid]
          else [])
  | ToolEnd => [ToolCallEnd id raw tid rid]
  end.

(** [typedData?.name || typedData?.event] *)
Definition custom_event_name (customData : JSValue) : option string :=
  opt_str_or (str_field "name" customData) (str_field "event" customData).

(** The three events of a manual message emission. *)
Definition manual_message_events (customData : JSValue) (tid rid : string)
  : list BaseEvent :=
  let value := jfield "value" customData in
  let messageId := str_or (str_field "message_id" value) rid in
  let raw := RawCustom rid customData in
  [ TextMessageStart assistant messageId raw tid rid;
    TextMessageContent messageId (str_or (str_field "message" value) "") raw tid rid;
    TextMessageEnd messageId raw tid rid ].

(** The three events of a manual tool-call emission. *)
Definition manual_tool_call_events (customData : JSValue) (tid rid : string)
  : list BaseEvent :=
  let value := jfield "value" customData in
  let toolCallId := str_or (str_field "id" value) rid in
  let raw := RawCustom rid customData in
  [ ToolCallStart toolCallId (str_or (str_field "name" value) "") toolCallId raw tid rid;
    ToolCallArgs toolCallId
      (JSON_stringify (js_or (jfield "args" value) (Some (JObj [])))) raw tid rid;
    ToolCallEnd toolCallId raw tid rid ].

(** The same context with other contents of the two sets. *)
Definition with_sets (sm st : option (gset string)) (context : StreamProcessorContext)
  : StreamProcessorContext :=
  {| threadId := threadId context; runId := runId context;
     startedMessages := sm; startedToolCalls := st;
     debug := debug context; manuallyEmittedState := manuallyEmittedState context |}.

(** ** Concrete stream sessions *)

(** The context with which a joined stream starts. *)
Definition session : StreamProcessorContext :=
  join_context default_runner "thread-1" "run-7" None.

Definition session_without_sets : StreamProcessorContext :=
  with_sets None None session.

(** A token of the message streamed by the model run ["llm-1"]. *)
Definition text_chunk : EventsData :=
  {| ed_event := "on_chat_model_stream"; ed_name := "ChatOpenAI";
     ed_data := Some (JObj [("chunk", JObj [("content", JStr "Hel")])]);
     ed_run_id := Some "llm-1" |}.

Definition start_chunk : EventsData :=
  {| ed_event := "on_chat_model_start"; ed_name := "ChatOpenAI";
     ed_data := Some (JObj [("input", JObj [])]);
     ed_run_id := Some "llm-1" |}.

(** A tool-call token of a tool that is configured to predict state. *)
Definition predicted_tool_chunk : EventsData :=
  {| ed_event := "on_chat_model_stream"; ed_name := "ChatOpenAI";
     ed_data :=
       Some (JObj [("chunk",
                    JObj [("content", JStr "");
                          ("tool_call_chunks",
                           JArr [JObj [("name", JStr "write_report");
                                       ("args", JStr "{")]])])]);
     ed_run_id := Some "llm-1" |}.

Definition predict_metadata : gmap string JValue :=
  {[ emit_intermediate_state_key :=
       JArr [JObj [("tool", JStr "write_report"); ("state_key", JStr "report");
                   ("tool_argument", JStr "text")]] ]}.

Definition messages_off : gmap string JValue :=
  {[ emit_messages_key := JBool false ]}.

Definition manual_message : JSValue :=
  Some (JObj [("name", JStr "copilotkit_manually_emit_message");
              ("value", JObj [("message_id", JStr "llm-1"); ("message", JStr "Hi")])]).

(** The context of [session] after the text chunk and a [values] chunk. *)
Definition context_after_text : StreamProcessorContext :=
  (process_chunks [ValuesChunk None None]
     (processStreamChunk (EventsChunk text_chunk None) session).2).2.

(** ** Exceptions that reach the outer [catch] of [hydrate] *)

(** Whether a [connect] call ends in the outer [catch] after it has sent
    events: the history is not empty, so that RUN_STARTED and the
    MESSAGES_SNAPSHOT are sent, and the read of [tasks] throws. The other
    statements between RUN_STARTED and the end of the outer [try] either
    cannot throw or are inside an inner [try]. *)
Definition exception_escapes_after_events (this : Runner) (client : Client)
    (tid : string) (field : TasksField) : bool :=
  match threads_getHistory client tid
          (if (historyLimit this >? 0)%Z then historyLimit this
           else DEFAULT_HISTORY_LIMIT), field with
  | Returns (Some (_ :: _)), TasksAsDeclared => false
  | Returns (Some (_ :: _)), _ => true
  | _, _ => false
  end.


(** * Definitions used to state further properties *)

(** ** The dispatch table of the [events] case *)

(** The specification's START-if-new over a set that is provided: the start
    event is sent when the id is not in the set. *)
Definition start_message_if_new
    (d : EventsData) (md : option (gmap string JValue)) (tid rid : string)
    (needed : bool) : list BaseEvent :=
  if needed then
    [TextMessageStart assistant (str_or (ed_run_id d) rid) (rawEvent d md rid) tid rid]
  else [].

Definition start_tool_call_if_new
    (d : EventsData) (md : option (gmap string JValue)) (tid rid : string)
    (needed : bool) : list BaseEvent :=
  if needed then
    [ToolCallStart (str_or (ed_run_id d) rid) (ed_name d) rid (rawEvent d md rid) tid rid]
  else [].

(** The events of the row of the dispatch table that applies to the chunk:
    the rows are tried by inner event name, and one row at most applies. *)
Definition table_events
    (d : EventsData) (md : option (gmap string JValue)) (tid rid : string)
    (sm st : option (gset string)) : list BaseEvent :=
  let raw := rawEvent d md rid in
  let id := str_or (ed_run_id d) rid in
  let meta := default ∅ md in
  let pass := pass_through_event d md tid rid in
  if String.eqb (ed_event d) LangGraphEventTypes.OnChatModelStream then
    if toolCallUsedToPredictState (ed_data d) meta then
      [predict_state_event d md tid rid]
    else if has_content d then
      if flag_is_false emit_messages_key meta then []
      else
        start_message_if_new d md tid rid (present_and_lacks sm id)
        ++ [TextMessageContent id
              (match jfield "content" (jfield "chunk" (ed_data d)) with
               | Some (JStr c) => c
               | _ => ""
               end) raw tid rid;
            pass]
    else [pass]
  else if String.eqb (ed_event d) LangGraphEventTypes.OnChatModelStart then
    if flag_is_false emit_messages_key meta then []
    else start_message_if_new d md tid rid (absent_or_lacks sm id) ++ [pass]
  else if String.eqb (ed_event d) LangGraphEventTypes.OnChatModelEnd then
    if flag_is_false emit_messages_key meta then []
    else
      start_message_if_new d md tid rid (present_and_lacks sm id)
      ++ [TextMessageEnd id raw tid rid; pass]
  else if String.eqb (ed_event d) LangGraphEventTypes.OnToolStart then
    if flag_is_false emit_tool_calls_key meta then []
    else
      start_tool_call_if_new d md tid rid (absent_or_lacks st id)
      ++ (if truthy (jfield "input" (ed_data d))
          then [ToolCallArgs id (JSON_stringify (jfield "input" (ed_data d))) raw tid rid]
          else [])
      ++ [pass]
  else if String.eqb (ed_event d) LangGraphEventTypes.OnToolEnd then
    if flag_is_false emit_tool_calls_key meta then []
    else
      start_tool_call_if_new d md tid rid (present_and_lacks st id)
      ++ [ToolCallEnd id raw tid rid; pass]
  else [pass].

(** The chunk is a message event whose handling is reached and not
    suppressed: its id is then recorded in a provided [startedMessages]. *)
Definition records_message (d : EventsData) (md : option (gmap string JValue)) : bool :=
  let meta := default ∅ md in
  negb (diverted_to_predict_state d md)
  && negb (flag_is_false emit_messages_key meta)
  && ((String.eqb (ed_event d) LangGraphEventTypes.OnChatModelStream && has_content d)
      || String.eqb (ed_event d) LangGraphEventTypes.OnChatModelStart
      || String.eqb (ed_event d) LangGraphEventTypes.OnChatModelEnd).

Definition records_tool_call (d : EventsData) (md : option (gmap string JValue)) : bool :=
  negb (flag_is_false emit_tool_calls_key (default ∅ md))
  && (String.eqb (ed_event d) LangGraphEventTypes.OnToolStart
      || String.eqb (ed_event d) LangGraphEventTypes.OnToolEnd).

(** The set after the chunk: the id is added when the chunk records it. *)
Definition table_set (records : bool) (id : string) (set : option (gset string))
  : option (gset string) :=
  if records then (fun ids => {[ id ]} ∪ ids) <$> set else set.

(** The context after an [events] chunk according to the table. *)
Definition table_context
    (d : EventsData) (md : option (gmap string JValue))
    (context : StreamProcessorContext) : StreamProcessorContext :=
  with_sets
    (table_set (records_message d md) (lifecycle_id d context) (startedMessages context))
    (table_set (records_tool_call d md) (lifecycle_id d context) (startedToolCalls context))
    context.

(** ** Stamps, run ids and manual states of a session *)

Definition event_threadId (e : BaseEvent) : string :=
  match e with
  | RunStarted tid _ | RunFinished tid _ | MessagesSnapshot _ tid _
  | StateSnapshot _ _ tid _ | TextMessageStart _ _ _ tid _
  | TextMessageContent _ _ _ tid _ | TextMessageEnd _ _ tid _
  | ToolCallStart _ _ _ _ tid _ | ToolCallArgs _ _ _ tid _
  | ToolCallEnd _ _ tid _ | Custom _ _ _ tid _ => tid
  end.

Definition event_runId (e : BaseEvent) : string :=
  match e with
  | RunStarted _ rid | RunFinished _ rid | MessagesSnapshot _ _ rid
  | StateSnapshot _ _ _ rid | TextMessageStart _ _ _ _ rid
  | TextMessageContent _ _ _ _ rid | TextMessageEnd _ _ _ rid
  | ToolCallStart _ _ _ _ _ rid | ToolCallArgs _ _ _ _ rid
  | ToolCallEnd _ _ _ rid | Custom _ _ _ _ rid => rid
  end.

(** The run id a chunk announces: the non-empty [run_id] of a [metadata]
    chunk. *)
Definition announced_run_id (chunk : StreamChunk) : option string :=
  match chunk with
  | MetadataChunk data _ =>
      if String.eqb (md_run_id data) "" then None else Some (md_run_id data)
  | _ => None
  end.

(** The state a chunk stores: the [value] of a manual intermediate-state
    [custom] chunk. *)
Definition stored_manual_state (chunk : StreamChunk) : option JSValue :=
  match chunk with
  | CustomChunk data _ =>
      if bool_decide (custom_event_name data
                      = Some CustomEventNames.CopilotKitManuallyEmitIntermediateState)
      then Some (jfield "value" data)
      else None
  | _ => None
  end.

(** ** Well-formed start, content and end events *)

(** How an event takes part in the life of a message or of a tool call:
    it starts the unit with the given id, or it continues it (content,
    arguments, end). *)
Inductive LifecycleRole :=
| Starts (id : string)
| Continues (id : string).

Definition text_role (e : BaseEvent) : option LifecycleRole :=
  match e with
  | TextMessageStart _ id _ _ _ => Some (Starts id)
  | TextMessageContent id _ _ _ _ => Some (Continues id)
  | TextMessageEnd id _ _ _ => Some (Continues id)
  | _ => None
  end.

Definition tool_role_of (e : BaseEvent) : option LifecycleRole :=
  match e with
  | ToolCallStart id _ _ _ _ _ => Some (Starts id)
  | ToolCallArgs id _ _ _ _ => Some (Continues id)
  | ToolCallEnd id _ _ _ => Some (Continues id)
  | _ => None
  end.

(** Reads the events in order from the set [started] of the ids started so
    far: a start of an id already started, or a continuation of an id not yet
    started, is refused ([None]); otherwise the set of started ids at the end
    is returned. *)
Fixpoint lifecycle_scan (role : BaseEvent -> option LifecycleRole)
    (started : gset string) (evs : list BaseEvent) : option (gset string) :=
  match evs with
  | [] => Some started
  | e :: rest =>
      match role e with
      | Some (Starts id) =>
          if decide (id ∈ started) then None
          else lifecycle_scan role ({[ id ]} ∪ started) rest
      | Some (Continues id) =>
          if decide (id ∈ started) then lifecycle_scan role started rest else None
      | None => lifecycle_scan role started rest
      end
  end.

(** A set that is provided grows from [before] to [after]; a set that is not
    provided stays so. *)
Definition set_grows (before after : option (gset string)) : Prop :=
  match before with
  | Some ids => ∃ ids', after = Some ids' ∧ ids ⊆ ids'
  | None => after = None
  end.

(** A stream of two tokens, the end of a model run joined midway and a tool
    call seen from its end. *)
Definition end_chunk : EventsData :=
  {| ed_event := "on_chat_model_end"; ed_name := "ChatOpenAI";
     ed_data := Some (JObj [("output", JStr "Hello")]);
     ed_run_id := Some "llm-1" |}.

Definition tool_end_chunk : EventsData :=
  {| ed_event := "on_tool_end"; ed_name := "search";
     ed_data := Some (JObj [("output", JStr "3 results")]);
     ed_run_id := Some "tool-1" |}.

Definition tool_start_chunk : EventsData :=
  {| ed_event := "on_tool_start"; ed_name := "search";
     ed_data := Some (JObj [("input", JObj [("q", JStr "rocq")])]);
     ed_run_id := Some "tool-1" |}.

Definition sample_stream : list StreamChunk :=
  [ EventsChunk text_chunk None;
    MetadataChunk {| md_run_id := "run-8" |} None;
    EventsChunk start_chunk None;
    EventsChunk tool_end_chunk None;
    EventsChunk tool_start_chunk None;
    ValuesChunk (Some (JObj [("plan", JStr "search")])) None;
    EventsChunk text_chunk None;
    EventsChunk end_chunk None ].

(** ** Further predicates on [connect] *)

Definition is_messages_snapshot (e : BaseEvent) : bool :=
  match event_type e with
  | MESSAGES_SNAPSHOT => true
  | _ => false
  end.

Definition is_get_history (c : ClientCall) : bool :=
  match c with
  | CallGetHistory _ _ => true
  | _ => false
  end.

(** The [activeRun.manuallyEmittedState] of the runner after [connect] on a
    non-empty history whose newest checkpoint is [latestState]. *)
Definition state_after_connect (this : Runner) (client : Client) (tid : string)
    (latestState : ThreadState) (state0 : JSValue) : JSValue :=
  match active_run client tid latestState with
  | Some r =>
      let stream := runs_joinStream client tid (run_id r) in
      if stream_throws stream then state0
      else manuallyEmittedState
             (process_chunks (stream_chunks stream)
                (join_context this tid (run_id r) state0)).2
  | None => state0
  end.

(** A client whose history fetch throws. *)
Definition failing_client : Client :=
  scripted_client Throws (Returns (Some [])) no_stream Throws.

(** A thread with a run in progress: the newest checkpoint has a node to run,
    an interrupt is pending on its second task, and the run ["run-7"] is
    running. *)
Definition interrupted_checkpoint : ThreadState :=
  {| values := Some {| messages := Some [plain_message "1" "human" "a"];
                       other_keys := [("plan", JStr "draft")] |};
     next := Some ["agent"];
     tasks := Some [ {| task_id := "t1"; task_name := "plan"; interrupts := Some [] |};
                     {| task_id := "t2"; task_name := "ask";
                        interrupts := Some [ {| interrupt_value := Some (JStr "confirm?") |};
                                             {| interrupt_value := Some (JStr "later") |} ] |} ] |}.

Definition manual_state_chunk : StreamChunk :=
  CustomChunk
    (Some (JObj [("name", JStr "copilotkit_manually_emit_intermediate_state");
                 ("value", JObj [("plan", JStr "final")])])) None.

Definition live_stream (throws : bool) : JoinedStream :=
  {| stream_chunks := [ MetadataChunk {| md_run_id := "run-8" |} None;
                        EventsChunk text_chunk None;
                        manual_state_chunk ];
     stream_throws := throws |}.

Definition live_client (throws : bool) : Client :=
  scripted_client (Returns (Some [interrupted_checkpoint; busy_checkpoint]))
    (Returns (Some [ {| run_id := "run-6"; status := "success" |};
                     {| run_id := "run-7"; status := "running" |} ]))
    (live_stream throws) (Returns interrupted_checkpoint).

(** ** The parts of a [connect] sequence *)

(** The events that [connect] sends from the fetched history alone, before it
    looks for a run to join: [fetched] is the checkpoint list as returned,
    newest first. *)
Definition hydration_events (this : Runner) (client : Client) (tid : string)
    (fetched : list ThreadState) : list BaseEvent :=
  let rid := resolved_run_id client tid in
  RunStarted tid rid
  :: MessagesSnapshot (snapshot_messages this fetched) tid rid
  :: match head fetched with
     | Some latestState =>
         state_snapshot_events tid latestState rid
         ++ interrupt_events tid (Returns latestState) rid
     | None => []
     end.

(** The chunks of the stream of the run [r], and the events sent for them. *)
Definition joined_chunks (client : Client) (tid : string) (r : Run) : list StreamChunk :=
  stream_chunks (runs_joinStream client tid (run_id r)).

Definition streamed_events (this : Runner) (client : Client) (tid : string)
    (r : Run) (state0 : JSValue) : list BaseEvent :=
  (process_chunks (joined_chunks client tid r)
     (join_context this tid (run_id r) state0)).1.

(** The number of deduplicated messages that the limit [L] leaves out. *)
Definition trimmed_count (L : Z) (all : list LangGraphMessage) : nat :=
  if (0 <? L)%Z then (length all - Z.to_nat L)%nat else 0%nat.

(** ** Reading the transformer's output *)

(** The role given to a message type by the [switch] of
    [transformMessages]; [None] for the [default] arm. *)
Definition role_of_type (type : string) : option Role :=
  if String.eqb type "human" then Some user
  else if String.eqb type "ai" then Some assistant
  else if String.eqb type "system" then Some system
  else if String.eqb type "tool" then Some tool_role
  else None.

(** The texts that [extractContent] joins: those of the blocks, the empty
    ones filtered out. *)
Definition block_texts (blocks : list ContentBlock) : list string :=
  List.filter (fun text => negb (String.length text =? 0)%nat)
    (List.map block_to_text blocks).

(** Two texts joined as [Array.prototype.join] joins their lines when the
    empty ones have been filtered out. *)
Definition join_lines (a b : string) : string :=
  if String.eqb a "" then b
  else if String.eqb b "" then a
  else a +:+ newline +:+ b.

(** A message whose content is an array of blocks. *)
Definition block_message : LangGraphMessage :=
  {| msg_id := "m1"; msg_type := "ai";
     msg_content :=
       ContentBlocks [ {| block_type := "text"; block_text := Some "first" |};
                       {| block_type := "image"; block_text := Some "ignored" |};
                       {| block_type := "text"; block_text := None |};
                       {| block_type := "text"; block_text := Some "" |};
                       {| block_type := "text"; block_text := Some "second" |} ];
     msg_tool_calls := Some [ {| tc_id := "call-1"; tc_name := "search";
                                 tc_args := JObj [("q", JStr "x")] |} ];
     msg_tool_call_id := None |}.

(** ** Definitions for the interrupts, the text blocks and the custom units *)

(** A thread at rest: the newest checkpoint has tasks, none of them with an
    interrupt, and nothing next to run. *)
Definition quiet_checkpoint : ThreadState :=
  {| values := Some {| messages := Some [plain_message "1" "human" "a"];
                       other_keys := [("plan", JStr "done")] |};
     next := Some [];
     tasks := Some [ {| task_id := "t1"; task_name := "plan"; interrupts := None |};
                     {| task_id := "t2"; task_name := "ask"; interrupts := Some [] |} ] |}.

Definition quiet_client : Client :=
  scripted_client (Returns (Some [quiet_checkpoint; interrupted_checkpoint]))
    (Returns (Some [ {| run_id := "run-6"; status := "success" |} ]))
    no_stream Throws.

(** Whether an event is the interrupt notification. *)
Definition is_interrupt_event (e : BaseEvent) : bool :=
  match e with
  | Custom name _ _ _ _ => String.eqb name "on_interrupt"
  | _ => false
  end.

(** A block that contributes a line: its type is ["text"] and it has a text
    that is not empty. *)
Definition has_text (block : ContentBlock) : bool :=
  String.eqb (block_type block) "text"
  && match block_text block with
     | Some t => negb (String.eqb t "")
     | None => false
     end.

(** The part an event plays in a message or in a tool call, with the id of
    that message or tool call. *)
Inductive UnitPart := UnitStart | UnitBody | UnitEnd.

Definition text_part (e : BaseEvent) : option (UnitPart * string) :=
  match e with
  | TextMessageStart _ id _ _ _ => Some (UnitStart, id)
  | TextMessageContent id _ _ _ _ => Some (UnitBody, id)
  | TextMessageEnd id _ _ _ => Some (UnitEnd, id)
  | _ => None
  end.

Definition tool_part (e : BaseEvent) : option (UnitPart * string) :=
  match e with
  | ToolCallStart id _ _ _ _ _ => Some (UnitStart, id)
  | ToolCallArgs id _ _ _ _ => Some (UnitBody, id)
  | ToolCallEnd id _ _ _ => Some (UnitEnd, id)
  | _ => None
  end.

(** The three events of one complete unit with the id [id]: its start, its
    content or arguments, and its end. *)
Definition complete_unit (id : string) : list (option (UnitPart * string)) :=
  [Some (UnitStart, id); Some (UnitBody, id); Some (UnitEnd, id)].

(** * Properties *)

(** ** Deduplication of the history (C1) *)

Ltac break_ifs :=
  repeat match goal with
         | |- context [if ?b then _ else _] => destruct b
         end.

Lemma transformMessages_omap (msgs : list LangGraphMessage) :
  transformMessages msgs = omap transformMessage msgs.
Proof.
  unfold transformMessages.
  enough (∀ acc, foldl (fun result msg =>
                          match transformMessage msg with
                          | Some transformed => result ++ [transformed]
                          | None => result
                          end) acc msgs
                 = acc ++ omap transformMessage msgs) as H by apply (H []).
  induction msgs as [|m msgs IH]; intros acc; simpl.
  - by rewrite app_nil_r.
  - rewrite IH. destruct (transformMessage m); [|done]. by rewrite <- app_assoc.
Qed.

Lemma collect_checkpoints_flat (acc : Collected) (cps : list ThreadState) :
  foldl collect_checkpoint acc cps
  = foldl collect_message acc
      (mjoin ((fun st => default [] (checkpoint_messages st)) <$> cps)).
Proof.
  revert acc. induction cps as [|cp cps IH]; intros acc; [done|].
  rewrite fmap_cons. simpl. rewrite foldl_app, <- IH. f_equal.
  unfold collect_checkpoint. by destruct (checkpoint_messages cp).
Qed.

Section keep_first_facts.
Implicit Types (l : list LangGraphMessage) (m : LangGraphMessage).

Lemma keep_first_cons m l :
  keep_first (m :: l) = m :: filter (fun m' => msg_id m' ≠ msg_id m) (keep_first l).
Proof. done. Qed.

(** Filtering on a property of the id commutes with [keep_first]. *)
Lemma keep_first_filter (P : LangGraphMessage → Prop) `{!∀ m, Decision (P m)} l :
  (∀ m m', msg_id m = msg_id m' → P m → P m') →
  filter P (keep_first l) = keep_first (filter P l).
Proof.
  intros Hid. induction l as [|x l IH]; [done|].
  rewrite keep_first_cons. destruct (decide (P x)) as [HP|HP].
  - rewrite !filter_cons_True by done. rewrite keep_first_cons. f_equal.
    rewrite <- IH, !list_filter_filter. apply list_filter_iff. tauto.
  - rewrite !filter_cons_False by done. rewrite <- IH, list_filter_filter.
    apply list_filter_iff. intros m. split; [tauto|].
    intros Hm. split; [done|]. intros Heq. apply HP. by apply (Hid m).
Qed.

Lemma keep_first_ids id l : id ∈ msg_id <$> keep_first l ↔ id ∈ msg_id <$> l.
Proof.
  induction l as [|x l IH]; [done|].
  rewrite keep_first_cons, !fmap_cons, !elem_of_cons. split.
  - intros [->|Hin]; [by left|]. right. apply IH.
    apply list_elem_of_fmap in Hin as (m & -> & Hm).
    apply list_elem_of_filter in Hm as [_ Hm]. by apply list_elem_of_fmap_2.
  - intros [->|Hin]; [by left|].
    destruct (decide (id = msg_id x)) as [->|Hne]; [by left|]. right.
    apply IH, list_elem_of_fmap in Hin as (m & -> & Hm).
    apply list_elem_of_fmap_2, list_elem_of_filter. done.
Qed.

Lemma keep_first_NoDup l : NoDup (msg_id <$> keep_first l).
Proof.
  induction l as [|x l IH]; [constructor|].
  rewrite keep_first_cons, fmap_cons. constructor.
  - intros (m & Heq & Hm)%list_elem_of_fmap.
    apply list_elem_of_filter in Hm as [Hne _]. by apply Hne.
  - revert IH. generalize (keep_first l). intros k.
    induction k as [|y k IHk]; [done|]. rewrite fmap_cons. intros Hnd.
    apply NoDup_cons in Hnd as [Hy Hk].
    destruct (decide (msg_id y ≠ msg_id x)).
    + rewrite filter_cons_True by done. rewrite fmap_cons. constructor; [|auto].
      intros (m & Heq & Hm)%list_elem_of_fmap.
      apply list_elem_of_filter in Hm as [_ Hm].
      apply Hy. rewrite Heq. by apply list_elem_of_fmap_2.
    + rewrite filter_cons_False by done. auto.
Qed.

Lemma keep_first_sublist l : keep_first l `sublist_of` l.
Proof.
  induction l as [|x l IH]; [done|].
  rewrite keep_first_cons. apply sublist_skip.
  etrans; [apply sublist_filter|done].
Qed.

Lemma count_id_absent id l : id ∉ msg_id <$> l → count_id id l = 0.
Proof.
  unfold count_id. induction l as [|x l IH]; [done|].
  rewrite fmap_cons, not_elem_of_cons. intros [Hne Hl].
  rewrite filter_cons_False by congruence. auto.
Qed.

Lemma count_id_NoDup id l :
  NoDup (msg_id <$> l) → id ∈ msg_id <$> l → count_id id l = 1.
Proof.
  unfold count_id. induction l as [|x l IH]; [by intros _ ?%elem_of_nil|].
  rewrite fmap_cons. intros [Hx Hl]%NoDup_cons Hin.
  destruct (decide (msg_id x = id)) as [Heq|Hne].
  - rewrite filter_cons_True by done. simpl. f_equal.
    apply (count_id_absent id l). by rewrite <- Heq.
  - rewrite filter_cons_False by done. apply IH; [done|].
    apply elem_of_cons in Hin as [?|?]; [congruence|done].
Qed.

End keep_first_facts.

(** The loop over messages, from any accumulator whose seen-set is [seen]. *)
Lemma collect_messages_spec (acc : Collected) (l : list LangGraphMessage) :
  allMessages (foldl collect_message acc l)
  = allMessages acc
    ++ keep_first (filter (fun m => msg_id m ∉ seenMessageIds acc) l).
Proof.
  revert acc. induction l as [|x l IH]; intros acc.
  - simpl. by rewrite app_nil_r.
  - simpl. unfold collect_message at 2.
    destruct (decide (msg_id x ∈ seenMessageIds acc)) as [Hin|Hnin].
    + rewrite filter_cons_False by (intros ?; done). apply IH.
    + rewrite filter_cons_True by done. rewrite IH, keep_first_cons.
      cbn [allMessages seenMessageIds]. rewrite <- app_assoc. simpl. do 2 f_equal.
      rewrite keep_first_filter by (intros ?? Heq; by rewrite Heq).
      f_equal. rewrite list_filter_filter.
      apply list_filter_iff. intros m.
      rewrite not_elem_of_union, not_elem_of_singleton. tauto.
Qed.

Lemma collect_checkpoints_keep_first (cps : list ThreadState) :
  allMessages (collect_checkpoints cps)
  = keep_first (mjoin ((fun st => default [] (checkpoint_messages st)) <$> cps)).
Proof.
  unfold collect_checkpoints. rewrite collect_checkpoints_flat, collect_messages_spec.
  simpl. f_equal. induction (mjoin _) as [|x l IH]; [done|].
  rewrite filter_cons_True by set_solver. by f_equal.
Qed.

Lemma chronological_elem (fetched : list ThreadState) (m : LangGraphMessage) :
  m ∈ chronological fetched
  ↔ ∃ cp msgs, cp ∈ fetched ∧ checkpoint_messages cp = Some msgs ∧ m ∈ msgs.
Proof.
  unfold chronological. rewrite list_elem_of_join. split.
  - intros (l & Hm & Hl). apply list_elem_of_fmap in Hl as (cp & -> & Hcp).
    rewrite elem_of_reverse in Hcp.
    destruct (checkpoint_messages cp) as [msgs|] eqn:E; simpl in Hm;
      [|inversion Hm].
    by exists cp, msgs.
  - intros (cp & msgs & Hcp & E & Hm). exists msgs. split; [done|].
    apply list_elem_of_fmap. exists cp. rewrite E. split; [done|].
    by rewrite elem_of_reverse.
Qed.

(** Projection keeps the id, and neither the limit nor the projection
    reorders or duplicates messages. *)
Lemma transformMessage_id (m : LangGraphMessage) (t : TransformedMessage) :
  transformMessage m = Some t → tm_id t = msg_id m.
Proof.
  unfold transformMessage. break_ifs; intros [= <-]; done.
Qed.

Lemma projected_ids_sublist (l : list LangGraphMessage) :
  tm_id <$> omap transformMessage l `sublist_of` msg_id <$> l.
Proof.
  induction l as [|m l IH]; [done|]. simpl.
  destruct (transformMessage m) as [t|] eqn:Ht.
  - rewrite fmap_cons, (transformMessage_id m t Ht). by apply sublist_skip.
  - by apply sublist_cons.
Qed.

Lemma limitMessages_sublist (L : Z) (l : list LangGraphMessage) :
  limitMessages L l `sublist_of` l.
Proof.
  unfold limitMessages, Array_slice. destruct (L >? 0)%Z; [|done].
  apply sublist_drop.
Qed.

(** C1. For every newest-first list of checkpoints, the deduplication loop of
    [connect] (run on the reversed list) yields the chronological message
    sequence in which each message is kept at its first occurrence and every
    later message with the same id is skipped: the result has no two messages
    with the same id, it is a subsequence of the chronological sequence, and
    the id of every message of every checkpoint occurs in it exactly once.
    Whatever the limit, the projected snapshot built from it has no two
    messages with the same id either. *)
Theorem connect_deduplicates_by_id (fetched : list ThreadState) :
  let out := allMessages (collect_checkpoints (reverse fetched)) in
  out = keep_first (chronological fetched)
  ∧ NoDup (msg_id <$> out)
  ∧ out `sublist_of` chronological fetched
  ∧ Forall (fun m => count_id (msg_id m) out = 1) (chronological fetched)
  ∧ ∀ L, NoDup (tm_id <$> transformMessages (limitMessages L out)).
Proof.
  intros out.
  assert (out = keep_first (chronological fetched)) as Hout
    by apply collect_checkpoints_keep_first.
  rewrite Hout.
  split_and!; [done|apply keep_first_NoDup|apply keep_first_sublist| |].
  - apply Forall_forall. intros m Hm.
    apply count_id_NoDup; [apply keep_first_NoDup|].
    by apply keep_first_ids, list_elem_of_fmap_2.
  - intros L. rewrite transformMessages_omap.
    eapply sublist_NoDup; [apply keep_first_NoDup|].
    etrans; [apply projected_ids_sublist|].
    apply fmap_sublist, limitMessages_sublist.
Qed.

Example scenario_reconstruction :
  transformMessages
    (limitMessages 100 (allMessages (collect_checkpoints (reverse scenario_history))))
  = [ {| tm_id := "1"; tm_role := user; tm_content := "hey";
         tm_toolCalls := None; tm_toolCallId := None |};
      {| tm_id := "2"; tm_role := assistant; tm_content := "hi";
         tm_toolCalls := None; tm_toolCallId := None |} ].
Proof. vm_compute. reflexivity. Qed.

(** ** The event sequence of [connect], in closed form *)

Ltac monad_simpl :=
  cbv beta iota zeta delta
    [bind try_catch ret throw next_event next_events complete list_runs getState
       joinStream getHistory log_call emit_interrupt_if_any get_activeRun_state
       set_activeRun_state initial_world minimal_sequence];
  cbn [fst snd sub_events sub_completed client_calls
         activeRun_manuallyEmittedState app List.filter is_runs_list length].

Section connect_trace.
Variable this : Runner.
Variable client : Client.
Variable tid : string.

Lemma joinAndProcessStream_events (rid : string) (w : World) :
  let r := joinAndProcessStream this client tid rid w in
  sub_events r.1
  = sub_events w ++ join_events this client tid rid (activeRun_manuallyEmittedState w)
  ∧ sub_completed r.1 = sub_completed w
  ∧ client_calls r.1
    = client_calls w ++ CallJoinStream tid rid
        :: (if stream_throws (runs_joinStream client tid rid) then []
            else [CallGetState tid]).
Proof.
  unfold joinAndProcessStream, join_events, try_catch, bind, joinStream,
    get_activeRun_state, next_events, next_event, set_activeRun_state, throw,
    getState, emit_interrupt_if_any, ret, interrupt_events, log_call, join_context.
  cbn [fst snd sub_events sub_completed client_calls activeRun_manuallyEmittedState].
  destruct (stream_throws _).
  - cbn. rewrite <- !app_assoc. done.
  - cbn. destruct (threads_getState client tid) as [state|]; cbn.
    + destruct (pending_interrupt state); cbn; rewrite <- !app_assoc; done.
    + rewrite <- !app_assoc. done.
Qed.

Lemma try_catch_ignore (m : M unit) (w : World) :
  try_catch m (ret tt) w = ((m w).1, Returns tt).
Proof. unfold try_catch, ret. by destruct (m w) as [w' [[]|]]. Qed.

Lemma latest_after_reverse (cp : ThreadState) (cps : list ThreadState) :
  reverse (cp :: cps) !! (length (reverse (cp :: cps)) - 1)%nat = Some cp.
Proof.
  rewrite Nat.sub_1_r, <- last_lookup, last_reverse. done.
Qed.

(** [connect] on a non-empty history whose newest checkpoint is [cp]. *)
Lemma connect_hydrated (cp : ThreadState) (cps : list ThreadState) (state0 : JSValue) :
  threads_getHistory client tid (fetch_limit this) = Returns (Some (cp :: cps)) →
  let w := connect this client tid state0 in
  sub_events w
  = RunStarted tid (resolved_run_id client tid)
    :: MessagesSnapshot (snapshot_messages this (cp :: cps)) tid
       (resolved_run_id client tid)
    :: after_snapshot this client tid cp state0
  ∧ sub_completed w = true
  ∧ client_calls w = CallGetHistory tid (fetch_limit this) :: calls_after_fetch client tid cp.
Proof.
  intros Hfetch. unfold connect, hydrate, try_catch, bind, getHistory.
  fold (fetch_limit this). rewrite Hfetch. unfold hydrate_history.
  rewrite latest_after_reverse. fold (snapshot_messages this (cp :: cps)).
  unfold after_snapshot, calls_after_fetch, active_run, resolved_run_id,
    state_snapshot_events, interrupt_events.
  monad_simpl.
  destruct (runs_list client 0 tid) as [[[|r0 runs0]|]|]; monad_simpl.
  all: destruct (values cp) as [v|]; monad_simpl.
  all: destruct (pending_interrupt cp) as [iv|]; monad_simpl.
  all: destruct (isThreadBusy cp); monad_simpl.
  all: try (destruct (runs_list client 1 tid) as [runs1|]; monad_simpl).
  all: try (destruct (runs1 ≫= List.find is_active) as [r1|]; monad_simpl).
  all: try (match goal with
            | |- context [joinAndProcessStream this client tid ?rid ?w] =>
                pose proof (joinAndProcessStream_events rid w) as Hjoin;
                destruct (joinAndProcessStream this client tid rid w) as [w' [[]|]];
                cbn [fst snd] in Hjoin; destruct Hjoin as (Hev & Hco & Hca);
                monad_simpl; rewrite ?Hev, ?Hca; monad_simpl
            end).
  all: done.
Qed.

End connect_trace.

(** ** No event of a stream chunk opens or closes the run *)

Section boundary.
Variables (d : EventsData) (md : option (gmap string JValue)) (tid rid : string).

Lemma and_then_keeps (P : Shared → Prop) (f : Flow) (k : Shared → Flow) :
  flow_keeps P f → (∀ s, P s → flow_keeps P (k s)) → flow_keeps P (f >>> k).
Proof. destruct f; simpl; auto. Qed.




End boundary.



Lemma process_chunks_snoc (chunks : list StreamChunk) (chunk : StreamChunk)
    (context : StreamProcessorContext) :
  process_chunks (chunks ++ [chunk]) context
  = let acc := process_chunks chunks context in
    let result := processStreamChunk chunk acc.2 in
    (acc.1 ++ result.1, result.2).
Proof. unfold process_chunks. by rewrite foldl_app. Qed.


(** ** The shape of every [connect] sequence (C5, C6) *)

Section connect_shape.
Variable this : Runner.
Variable client : Client.
Variable tid : string.
Variable state0 : JSValue.

Lemma connect_fetch_failed :
  threads_getHistory client tid (fetch_limit this) = Throws →
  let w := connect this client tid state0 in
  sub_events w = minimal_events tid (hydration_error_id client)
∧ sub_completed w = true.
Proof.
  intros Hfetch. unfold connect, hydrate, try_catch, bind, getHistory.
  fold (fetch_limit this). rewrite Hfetch. monad_simpl. done.
Qed.

Lemma connect_nothing_fetched (history : option (list ThreadState)) :
  threads_getHistory client tid (fetch_limit this) = Returns history →
  history = None ∨ history = Some [] →
  let w := connect this client tid state0 in
  sub_events w = minimal_events tid (hydration_id client) ∧ sub_completed w = true.
Proof.
  intros Hfetch Hempty. unfold connect, hydrate, try_catch, bind, getHistory.
  fold (fetch_limit this). rewrite Hfetch.
  destruct Hempty as [-> | ->]; monad_simpl; done.
Qed.


End connect_shape.


(** *** Exceptions after the first events *)

Lemma connect_unchecked_as_declared
    (this : Runner) (client : Client) (tid : string) (state0 : JSValue) :
  connect_unchecked this client tid state0 TasksAsDeclared
  = connect this client tid state0.
Proof. reflexivity. Qed.


(** What the subscriber receives when the read of [tasks] throws: the events
    sent so far, and then the three events of the outer [catch]. *)
Lemma connect_unchecked_escaped
    (this : Runner) (client : Client) (tid : string) (state0 : JSValue)
    (field : TasksField) (cp : ThreadState) (cps : list ThreadState) :
  threads_getHistory client tid (fetch_limit this) = Returns (Some (cp :: cps)) →
  field ≠ TasksAsDeclared →
  let w := connect_unchecked this client tid state0 field in
  let rid := resolved_run_id client tid in
  sub_events w
  = RunStarted tid rid
    :: MessagesSnapshot (snapshot_messages this (cp :: cps)) tid rid
    :: state_snapshot_events tid cp rid
    ++ minimal_events tid (hydration_error_id client)
  ∧ sub_completed w = true.
Proof.
  intros Hfetch Hfield.
  unfold connect_unchecked, hydrate_unchecked, try_catch, bind, getHistory.
  fold (fetch_limit this). rewrite Hfetch. unfold hydrate_history_unchecked.
  rewrite latest_after_reverse. fold (snapshot_messages this (cp :: cps)).
  unfold resolved_run_id, state_snapshot_events, minimal_events.
  assert (∀ rid w, find_interrupt field cp tid rid w = (w, Throws)) as Hthrow
    by (by destruct field).
  monad_simpl.
  destruct (runs_list client 0 tid) as [[[|r0 runs0]|]|]; monad_simpl.
  all: destruct (values cp) as [v|]; monad_simpl.
  all: rewrite Hthrow; monad_simpl; done.
Qed.

Lemma second_start_not_bracketed (es : list BaseEvent) (tid rid0 : string) (i : nat) :
  es !! S i = Some (RunStarted tid rid0) →
  ¬ ∃ rid rid' middle,
      es = RunStarted tid rid :: middle ++ [RunFinished tid rid']
      ∧ no_boundary middle.
Proof.
  intros Hi (rid & rid' & middle & -> & Hmiddle). cbn in Hi.
  apply lookup_app_Some in Hi as [Hi|[_ Hi]].
  - apply list_elem_of_lookup_2 in Hi.
    unfold no_boundary in Hmiddle. rewrite Forall_forall in Hmiddle.
    by apply Hmiddle in Hi.
  - destruct (S i - length middle - 1)%nat; [|by destruct (i - length middle)%nat].
    by destruct (i - length middle)%nat.
Qed.



(** When an exception escapes after events were sent, the sequence is never
    of that shape: the outer [catch] sends a RUN_STARTED of its own. *)
Lemma escape_breaks_bracket
    (this : Runner) (client : Client) (tid : string) (state0 : JSValue)
    (field : TasksField) :
  exception_escapes_after_events this client tid field = true →
  ¬ ∃ rid rid' middle,
      sub_events (connect_unchecked this client tid state0 field)
      = RunStarted tid rid :: middle ++ [RunFinished tid rid']
      ∧ no_boundary middle.
Proof.
  unfold exception_escapes_after_events. fold (fetch_limit this).
  destruct (threads_getHistory client tid (fetch_limit this))
    as [[[|cp cps]|]|] eqn:Hfetch; try done.
  intros Hfield.
  assert (field ≠ TasksAsDeclared) as Hne by (by destruct field).
  destruct (connect_unchecked_escaped this client tid state0 field cp cps Hfetch Hne)
    as [-> _].
  unfold state_snapshot_events, minimal_events.
  destruct (values cp) as [v|].
  - by apply (second_start_not_bracketed _ tid (hydration_error_id client) 2).
  - by apply (second_start_not_bracketed _ tid (hydration_error_id client) 1).
Qed.


(** C6. If the history fetch returns an absent or an empty checkpoint list,
    [connect] sends exactly three events, RUN_STARTED, a MESSAGES_SNAPSHOT with
    no message and RUN_FINISHED, all three with the same synthesized run id,
    and then completes; in particular it has sent something. *)
Theorem connect_empty_history
    (this : Runner) (client : Client) (tid : string) (state0 : JSValue)
    (history : option (list ThreadState)) :
  threads_getHistory client tid (fetch_limit this) = Returns history →
  history = None ∨ history = Some [] →
  let w := connect this client tid state0 in
  let rid := "hydration_" +:+ Math_random_suffix client in
  sub_events w
  = [RunStarted tid rid; MessagesSnapshot [] tid rid; RunFinished tid rid]
  ∧ sub_completed w = true
  ∧ sub_events w ≠ [].
Proof.
  intros Hfetch Hempty w rid.
  destruct (connect_nothing_fetched this client tid state0 _ Hfetch Hempty) as [Hev Hc].
  subst w. rewrite Hev. done.
Qed.

(** ** The history limit (C7) *)

Lemma omap_length_le {A B} (f : A → option B) (l : list A) :
  (length (omap f l) ≤ length l)%nat.
Proof.
  unfold omap. induction l as [|x l IH]; simpl; [done|].
  destruct (f x); simpl; lia.
Qed.

Lemma limitMessages_tail (L : Z) (all : list LangGraphMessage) :
  (0 < L)%Z → (L < Z.of_nat (length all))%Z →
  limitMessages L all = drop (length all - Z.to_nat L) all
  ∧ length (limitMessages L all) = Z.to_nat L.
Proof.
  intros Hpos Hlt. unfold limitMessages, Array_slice.
  destruct (Z.gtb_spec L 0) as [_|]; [|lia].
  destruct (Z.ltb_spec (- L) 0) as [_|]; [|lia].
  replace (Z.to_nat (Z.max (Z.of_nat (length all) + - L) 0))
    with (length all - Z.to_nat L)%nat by lia.
  split; [done|]. rewrite length_drop. lia.
Qed.

(** C7. For a runner whose limit [L] is positive: if the deduplicated history
    has more than [L] messages, the messages taken into the snapshot are
    exactly its last [L] elements, the trim being made on the deduplicated list
    and before the projection; the MESSAGES_SNAPSHOT event carries the
    projection of those [L] messages, from which the messages that do not
    project are left out without any further message being taken in. *)
Theorem limit_keeps_last_messages
    (this : Runner) (client : Client) (tid : string) (state0 : JSValue)
    (cp : ThreadState) (cps : list ThreadState) :
  threads_getHistory client tid (fetch_limit this) = Returns (Some (cp :: cps)) →
  let L := historyLimit this in
  let deduplicated := allMessages (collect_checkpoints (reverse (cp :: cps))) in
  let kept := drop (length deduplicated - Z.to_nat L) deduplicated in
  (0 < L)%Z →
  (L < Z.of_nat (length deduplicated))%Z →
  limitMessages L deduplicated = kept
  ∧ length kept = Z.to_nat L
  ∧ sub_events (connect this client tid state0) !! 1
    = Some (MessagesSnapshot (omap transformMessage kept) tid
              (resolved_run_id client tid))
  ∧ (length (omap transformMessage kept) ≤ Z.to_nat L)%nat.
Proof.
  intros Hfetch L deduplicated kept Hpos Hlt.
  destruct (limitMessages_tail L deduplicated Hpos Hlt) as [Hkept Hlen].
  destruct (connect_hydrated this client tid cp cps state0 Hfetch) as (Hev & _ & _).
  fold kept in Hkept. split_and!; [done|by rewrite <- Hkept| |].
  - rewrite Hev. simpl. unfold snapshot_messages.
    fold deduplicated. fold L. by rewrite Hkept, transformMessages_omap.
  - etrans; [apply omap_length_le|]. rewrite <- Hkept, Hlen. done.
Qed.

(** ** The newest checkpoint (C8) *)

(** C8, amended. For every non-empty newest-first checkpoint list, the
    hydration part of the sequence is RUN_STARTED, MESSAGES_SNAPSHOT and then
    the STATE_SNAPSHOT carrying the [values] of the first element of the list
    as fetched (when it has values), although the array is reversed in place
    before the latest element is indexed. The second lookup of the runs is
    made iff that checkpoint's [next] list is non-empty, and the live stream is
    joined iff moreover that lookup returns a run that is running or
    pending. *)
Theorem latest_checkpoint_is_first_fetched
    (this : Runner) (client : Client) (tid : string) (state0 : JSValue)
    (cp : ThreadState) (cps : list ThreadState) :
  threads_getHistory client tid (fetch_limit this) = Returns (Some (cp :: cps)) →
  let w := connect this client tid state0 in
  let rid := resolved_run_id client tid in
  (∃ rest,
      sub_events w
      = RunStarted tid rid
        :: MessagesSnapshot (snapshot_messages this (cp :: cps)) tid rid
        :: match values cp with
           | Some v => [StateSnapshot (SnapshotState v) (RawState rid "values" v) tid rid]
           | None => []
           end
        ++ rest)
  ∧ (calls_runs_list_twice (client_calls w) = true
     ↔ ∃ n ns, next cp = Some (n :: ns))
  ∧ (joins_stream (client_calls w) = true
     ↔ (∃ n ns, next cp = Some (n :: ns))
       ∧ ∃ runs r, runs_list client 1 tid = Returns (Some runs)
                   ∧ List.find is_active runs = Some r).
Proof.
  intros Hfetch w rid. subst w rid.
  destruct (connect_hydrated this client tid cp cps state0 Hfetch) as (-> & _ & ->).
  split_and!.
  - unfold after_snapshot, state_snapshot_events. eauto.
  - unfold calls_after_fetch, active_run, isThreadBusy, calls_runs_list_twice.
    destruct (next cp) as [[|n ns]|]; cbn.
    1,3: split; [done|intros (? & ? & ?); done].
    split; [eauto|intros _].
    destruct (runs_list client 1 tid) as [[runs|]|]; cbn; try done.
    destruct (List.find is_active runs); cbn; [|done].
    by destruct (stream_throws _).
  - unfold calls_after_fetch, active_run, isThreadBusy, joins_stream.
    destruct (next cp) as [[|n ns]|]; cbn.
    1,3: split; [done|intros [(? & ? & ?) _]; done].
    destruct (runs_list client 1 tid) as [[runs|]|]; cbn.
    + destruct (List.find is_active runs) as [r|] eqn:Hfind; cbn.
      * split; [intros _|done]. split; [eauto|]. by exists runs, r.
      * split; [done|]. intros [_ (runs' & r' & [= <-] & Hr')]. congruence.
    + split; [done|]. intros [_ (? & ? & ? & _)]. done.
    + split; [done|]. intros [_ (? & ? & ? & _)]. done.
Qed.

(** ** Concrete runs of [connect] *)

Lemma connect_empty_history_witness :
  threads_getHistory empty_thread_client "thread-1" (fetch_limit default_runner)
  = Returns (Some [])
  ∧ (Some [] = (None : option (list ThreadState))
     ∨ Some [] = Some ([] : list ThreadState))
  ∧ (let w := connect default_runner empty_thread_client "thread-1" None in
     let rid := "hydration_" +:+ Math_random_suffix empty_thread_client in
     sub_events w
     = [RunStarted "thread-1" rid; MessagesSnapshot [] "thread-1" rid;
        RunFinished "thread-1" rid]
     ∧ sub_completed w = true
     ∧ sub_events w ≠ []).
Proof.
  split; [reflexivity|]. split; [right; reflexivity|].
  apply (connect_empty_history default_runner empty_thread_client "thread-1" None
           (Some [])); [reflexivity|right; reflexivity].
Defined.

Lemma limit_keeps_last_messages_witness :
  threads_getHistory three_message_client "thread-1" (fetch_limit (runner_with_limit 2))
  = Returns (Some [three_messages])
  ∧ (0 < historyLimit (runner_with_limit 2))%Z
  ∧ (historyLimit (runner_with_limit 2)
     < Z.of_nat (length (allMessages (collect_checkpoints (reverse [three_messages])))))%Z
  ∧ (let L := historyLimit (runner_with_limit 2) in
     let deduplicated := allMessages (collect_checkpoints (reverse [three_messages])) in
     let kept := drop (length deduplicated - Z.to_nat L) deduplicated in
     limitMessages L deduplicated = kept
     ∧ length kept = Z.to_nat L
     ∧ sub_events (connect (runner_with_limit 2) three_message_client "thread-1" None) !! 1
       = Some (MessagesSnapshot (omap transformMessage kept) "thread-1"
                 (resolved_run_id three_message_client "thread-1"))
     ∧ (length (omap transformMessage kept) ≤ Z.to_nat L)%nat).
Proof.
  split; [reflexivity|]. split; [reflexivity|]. split; [vm_compute; reflexivity|].
  apply (limit_keeps_last_messages (runner_with_limit 2) three_message_client
           "thread-1" None three_messages []);
    [reflexivity|reflexivity|vm_compute; reflexivity].
Defined.

Example limit_two_of_three :
  sub_events (connect (runner_with_limit 2) three_message_client "thread-1" None)
  = [ RunStarted "thread-1" "run-7";
      MessagesSnapshot
        [ {| tm_id := "2"; tm_role := assistant; tm_content := "b";
             tm_toolCalls := None; tm_toolCallId := None |};
          {| tm_id := "3"; tm_role := user; tm_content := "c";
             tm_toolCalls := None; tm_toolCallId := None |} ] "thread-1" "run-7";
      StateSnapshot (SnapshotState (default {| messages := None; other_keys := [] |}
                                      (values three_messages)))
        (RawState "run-7" "values"
           (default {| messages := None; other_keys := [] |} (values three_messages)))
        "thread-1" "run-7";
      RunFinished "thread-1" "run-7" ].
Proof. vm_compute. reflexivity. Qed.

(** C8 as stated fails: the newest checkpoint has a non-empty [next] list and
    the stream is not joined, because no run is running or pending. *)
Lemma busy_checkpoint_without_join :
  threads_getHistory busy_without_run_client "thread-1" (fetch_limit default_runner)
  = Returns (Some [busy_checkpoint])
  ∧ ¬ (joins_stream
         (client_calls (connect default_runner busy_without_run_client "thread-1" None))
       = true
       ↔ ∃ n ns, next busy_checkpoint = Some (n :: ns)).
Proof.
  split; [reflexivity|]. intros [_ Hjoin].
  assert (joins_stream
            (client_calls (connect default_runner busy_without_run_client "thread-1" None))
          = false) as Hno by (vm_compute; reflexivity).
  rewrite Hjoin in Hno; [discriminate|]. by exists "agent", [].
Qed.

Lemma latest_checkpoint_is_first_fetched_witness :
  threads_getHistory busy_without_run_client "thread-1" (fetch_limit default_runner)
  = Returns (Some [busy_checkpoint])
  ∧ (let w := connect default_runner busy_without_run_client "thread-1" None in
     let rid := resolved_run_id busy_without_run_client "thread-1" in
     (∃ rest,
         sub_events w
         = RunStarted "thread-1" rid
           :: MessagesSnapshot (snapshot_messages default_runner [busy_checkpoint])
                "thread-1" rid
           :: match values busy_checkpoint with
              | Some v =>
                  [StateSnapshot (SnapshotState v) (RawState rid "values" v)
                     "thread-1" rid]
              | None => []
              end
           ++ rest)
     ∧ (calls_runs_list_twice (client_calls w) = true
        ↔ ∃ n ns, next busy_checkpoint = Some (n :: ns))
     ∧ (joins_stream (client_calls w) = true
        ↔ (∃ n ns, next busy_checkpoint = Some (n :: ns))
          ∧ ∃ runs r, runs_list busy_without_run_client 1 "thread-1" = Returns (Some runs)
                      ∧ List.find is_active runs = Some r)).
Proof.
  split; [reflexivity|].
  apply (latest_checkpoint_is_first_fetched default_runner busy_without_run_client
           "thread-1" None busy_checkpoint []).
  reflexivity.
Defined.

(** ** Stream chunks of the [events] category *)

Ltac unfold_blocks :=
  unfold events_case, predict_state_block, chat_model_stream_block,
    chat_model_start_block, chat_model_end_block, tool_start_block, tool_end_block,
    pass_through_block, eventType, metadata_or_empty.

(** Evaluate the comparisons of two literal event names. *)
Ltac eval_name_tests :=
  repeat match goal with
         | |- context [String.eqb ?a ?b] =>
             let v := eval vm_compute in (String.eqb a b) in
             match v with
             | true => change (String.eqb a b) with true
             | false => change (String.eqb a b) with false
             end
         end.

Section pass_through.
Variables (d : EventsData) (md : option (gmap string JValue)) (tid rid : string).

Lemma falls_through_and_then (s : Shared) (f : Flow) (k : Shared → Flow) :
  falls_through s f → (∀ s', falls_through s' (k s')) → falls_through s (f >>> k).
Proof.
  intros (s1 & -> & evs1 & Hev1 & Hno1) Hk. simpl.
  destruct (Hk s1) as (s2 & Hs2 & evs2 & Hev2 & Hno2).
  exists s2. split; [done|]. exists (evs1 ++ evs2).
  rewrite Hev2, Hev1, <- app_assoc. split; [done|]. by apply Forall_app.
Qed.

Local Ltac fall s :=
  eexists; split; [reflexivity|];
  cbn [emitted subscriber_next startedMessages_add startedToolCalls_add];
  first [ exists []; split; [by rewrite app_nil_r|constructor]
        | eexists [_]; split; [reflexivity|repeat constructor]
        | eexists [_; _]; split; [by rewrite <- app_assoc|repeat constructor] ].

Hypothesis not_diverted : diverted_to_predict_state d md = false.
Hypothesis not_suppressed : suppressed_by_flag d md = false.

Lemma not_suppressed_cases :
  (String.eqb (ed_event d) LangGraphEventTypes.OnChatModelStream
   && has_content d && flag_is_false emit_messages_key (default ∅ md) = false)
  ∧ (String.eqb (ed_event d) LangGraphEventTypes.OnChatModelStart
     && flag_is_false emit_messages_key (default ∅ md) = false)
  ∧ (String.eqb (ed_event d) LangGraphEventTypes.OnChatModelEnd
     && flag_is_false emit_messages_key (default ∅ md) = false)
  ∧ (String.eqb (ed_event d) LangGraphEventTypes.OnToolStart
     && flag_is_false emit_tool_calls_key (default ∅ md) = false)
  ∧ (String.eqb (ed_event d) LangGraphEventTypes.OnToolEnd
     && flag_is_false emit_tool_calls_key (default ∅ md) = false).
Proof.
  pose proof not_suppressed as H. unfold suppressed_by_flag in H.
  repeat (apply orb_false_elim in H as [H ?]). done.
Qed.

Lemma blocks_fall_through (s : Shared) :
  falls_through s
    (predict_state_block d md tid rid s
     >>> chat_model_stream_block d md tid rid
     >>> chat_model_start_block d md tid rid
     >>> chat_model_end_block d md tid rid
     >>> tool_start_block d md tid rid
     >>> tool_end_block d md tid rid).
Proof.
  destruct not_suppressed_cases as (H1 & H2 & H3 & H4 & H5).
  pose proof not_diverted as H0. unfold diverted_to_predict_state in H0.
  unfold has_content in H1.
  repeat apply falls_through_and_then.
  - unfold predict_state_block, eventType, metadata_or_empty. rewrite H0. fall s.
  - intros s1. unfold chat_model_stream_block, eventType, metadata_or_empty.
    destruct (String.eqb (ed_event d) LangGraphEventTypes.OnChatModelStream);
      [|fall s1].
    destruct (truthy (jfield "content" (jfield "chunk" (ed_data d)))); [|fall s1].
    simpl in H1. rewrite H1. destruct (present_and_lacks _ _); fall s1.
  - intros s1. unfold chat_model_start_block, eventType, metadata_or_empty.
    destruct (String.eqb (ed_event d) LangGraphEventTypes.OnChatModelStart);
      [|fall s1].
    simpl in H2. rewrite H2. destruct (absent_or_lacks _ _); fall s1.
  - intros s1. unfold chat_model_end_block, eventType, metadata_or_empty.
    destruct (String.eqb (ed_event d) LangGraphEventTypes.OnChatModelEnd);
      [|fall s1].
    simpl in H3. rewrite H3. destruct (present_and_lacks _ _); fall s1.
  - intros s1. unfold tool_start_block, eventType, metadata_or_empty.
    destruct (String.eqb (ed_event d) LangGraphEventTypes.OnToolStart); [|fall s1].
    simpl in H4. rewrite H4.
    destruct (absent_or_lacks _ _);
      destruct (truthy (jfield "input" (ed_data d))); fall s1.
  - intros s1. unfold tool_end_block, eventType, metadata_or_empty.
    destruct (String.eqb (ed_event d) LangGraphEventTypes.OnToolEnd); [|fall s1].
    simpl in H5. rewrite H5. destruct (present_and_lacks _ _); fall s1.
Qed.

End pass_through.

(** C2, amended. For every [events] chunk that is diverted into a
    PredictState signal or whose handling is not suppressed by a flag: when it
    is diverted, the PredictState signal is the only event of the call and no
    pass-through signal follows; otherwise the call ends with the generic
    pass-through CUSTOM signal carrying the inner event name and payload, after
    the specialised events, none of which is a CUSTOM. *)
Theorem pass_through_after_specialised
    (d : EventsData) (md : option (gmap string JValue))
    (context : StreamProcessorContext) :
  diverted_to_predict_state d md = true ∨ suppressed_by_flag d md = false →
  let evs := events_of d md context in
  if diverted_to_predict_state d md then
    evs = [predict_state_event d md (threadId context) (runId context)]
  else
    ∃ specialised,
      evs = specialised
            ++ [pass_through_event d md (threadId context) (runId context)]
      ∧ Forall (fun e => is_custom_event e = false) specialised.
Proof.
  intros Hcase evs. subst evs. unfold events_of. cbn [processStreamChunk fst].
  destruct (diverted_to_predict_state d md) eqn:Hdiv.
  - unfold diverted_to_predict_state in Hdiv.
    unfold events_case, predict_state_block, eventType, metadata_or_empty.
    rewrite Hdiv. reflexivity.
  - destruct Hcase as [|Hsup]; [done|].
    unfold events_case.
    destruct (blocks_fall_through d md (threadId context) (runId context) Hdiv Hsup
                {| emitted := []; startedMsgs := startedMessages context;
                   startedTools := startedToolCalls context |})
      as (s' & -> & evs & Hev & Hno).
    exists evs. cbn in *. by rewrite Hev.
Qed.

(** ** Flags and event classes (C4) *)

Section flags.
Variables (d : EventsData) (md : option (gmap string JValue)) (tid rid : string).

Lemma unsuppressed_snoc (s : Shared) (e : BaseEvent) :
  unsuppressed md s → suppressed_event (default ∅ md) e = false →
  unsuppressed md (subscriber_next e s).
Proof. intros. apply Forall_app. split; [done|]. by constructor. Qed.

Local Ltac block_keeps_flags :=
  let s' := fresh "s" in
  let H := fresh "Hs" in
  intros s' H; unfold flow_keeps, eventType, metadata_or_empty;
  destruct (flag_is_false emit_messages_key (default ∅ md)) eqn:Fm;
  destruct (flag_is_false emit_tool_calls_key (default ∅ md)) eqn:Ft;
  break_ifs; cbn [flow_end];
  unfold startedMessages_add, startedToolCalls_add, unsuppressed;
  cbn [emitted subscriber_next];
  repeat (apply Forall_app; split;
          [|constructor; [unfold suppressed_event; rewrite Fm, Ft; reflexivity
                         |constructor]]);
  exact H.

Lemma events_case_unsuppressed (s : Shared) :
  unsuppressed md s → unsuppressed md (events_case d md tid rid s).
Proof.
  intros Hs. unfold events_case.
  change (flow_keeps (unsuppressed md)
            (predict_state_block d md tid rid s
             >>> chat_model_stream_block d md tid rid
             >>> chat_model_start_block d md tid rid
             >>> chat_model_end_block d md tid rid
             >>> tool_start_block d md tid rid
             >>> tool_end_block d md tid rid
             >>> pass_through_block d md tid rid)).
  repeat apply and_then_keeps.
  - revert s Hs. unfold predict_state_block. block_keeps_flags.
  - unfold chat_model_stream_block. block_keeps_flags.
  - unfold chat_model_start_block. block_keeps_flags.
  - unfold chat_model_end_block. block_keeps_flags.
  - unfold tool_start_block. block_keeps_flags.
  - unfold tool_end_block. block_keeps_flags.
  - unfold pass_through_block. block_keeps_flags.
Qed.

End flags.

(** C4, amended. A chunk that is not a [custom] chunk and carries
    [emit-messages: false] yields no TEXT_MESSAGE_START, TEXT_MESSAGE_CONTENT
    or TEXT_MESSAGE_END event, and one that carries [emit-tool-calls: false]
    yields no TOOL_CALL_START, TOOL_CALL_ARGS or TOOL_CALL_END event. The
    events of a [custom] chunk do not depend on the chunk's metadata: they are
    those of the same chunk with any other metadata. *)
Theorem flags_suppress_outside_custom
    (chunk : StreamChunk) (context : StreamProcessorContext) :
  let evs := (processStreamChunk chunk context).1 in
  if is_custom_chunk chunk then
    ∀ md', (processStreamChunk (set_chunk_metadata md' chunk) context).1 = evs
  else
    Forall (fun e => suppressed_event (default ∅ (chunk_metadata chunk)) e = false) evs.
Proof.
  destruct chunk as [data md|data md|data md|data md|data md|data md|ev data md];
    cbn [is_custom_chunk processStreamChunk fst chunk_metadata set_chunk_metadata].
  - constructor.
  - apply (events_case_unsuppressed data md). constructor.
  - constructor; [|constructor]. unfold suppressed_event. cbn.
    by rewrite !andb_false_r.
  - constructor; [|constructor]. unfold suppressed_event. cbn.
    by rewrite !andb_false_r.
  - done.
  - constructor; [|constructor]. unfold suppressed_event. cbn.
    by rewrite !andb_false_r.
  - constructor.
Qed.

(** ** The started-sets of a session (C3, C9, C10) *)

Section started_sets.
Variables (d : EventsData) (md : option (gmap string JValue)) (tid rid : string).

Local Ltac block_keeps_started :=
  let s' := fresh "s" in
  let H := fresh "Hs" in
  intros s' H; destruct H as (S' & HS' & Hsub); unfold flow_keeps, includes_started;
  break_ifs; cbn [flow_end startedMsgs subscriber_next startedMessages_add
                    startedToolCalls_add];
  rewrite HS'; cbn [fmap option_fmap option_map];
  eexists; (split; [reflexivity|]); set_solver.

Lemma events_case_includes_started (S : gset string) (s : Shared) :
  includes_started S s → includes_started S (events_case d md tid rid s).
Proof.
  intros Hs. unfold events_case.
  change (flow_keeps (includes_started S)
            (predict_state_block d md tid rid s
             >>> chat_model_stream_block d md tid rid
             >>> chat_model_start_block d md tid rid
             >>> chat_model_end_block d md tid rid
             >>> tool_start_block d md tid rid
             >>> tool_end_block d md tid rid
             >>> pass_through_block d md tid rid)).
  repeat apply and_then_keeps.
  - revert s Hs. unfold predict_state_block. block_keeps_started.
  - unfold chat_model_stream_block. block_keeps_started.
  - unfold chat_model_start_block. block_keeps_started.
  - unfold chat_model_end_block. block_keeps_started.
  - unfold tool_start_block. block_keeps_started.
  - unfold tool_end_block. block_keeps_started.
  - unfold pass_through_block. block_keeps_started.
Qed.

End started_sets.

Lemma processStreamChunk_started_grows (chunk : StreamChunk)
    (context : StreamProcessorContext) (S : gset string) :
  startedMessages context = Some S →
  ∃ S', startedMessages (processStreamChunk chunk context).2 = Some S' ∧ S ⊆ S'.
Proof.
  intros HS.
  destruct chunk; cbn [processStreamChunk snd startedMessages]; eauto.
  apply (events_case_includes_started data metadata (threadId context) (runId context) S).
  by exists S.
Qed.

Lemma process_chunks_started_grows (chunks : list StreamChunk)
    (context : StreamProcessorContext) (S : gset string) :
  startedMessages context = Some S →
  ∃ S', startedMessages (process_chunks chunks context).2 = Some S' ∧ S ⊆ S'.
Proof.
  intros HS. induction chunks as [|chunk chunks IH] using rev_ind; [by exists S|].
  rewrite process_chunks_snoc. cbn [snd]. destruct IH as (S1 & HS1 & Hsub1).
  destruct (processStreamChunk_started_grows chunk _ S1 HS1) as (S2 & HS2 & Hsub2).
  exists S2. split; [done|]. set_solver.
Qed.

(** An OnChatModelStart chunk for a message that is already started sends no
    TEXT_MESSAGE_START. *)
Lemma started_message_not_restarted
    (d : EventsData) (md : option (gmap string JValue))
    (context : StreamProcessorContext) (S : gset string) :
  ed_event d = LangGraphEventTypes.OnChatModelStart →
  startedMessages context = Some S →
  lifecycle_id d context ∈ S →
  Forall (fun e => is_text_start e = false) (events_of d md context).
Proof.
  intros Hev HS Hin. unfold events_of, lifecycle_id in *.
  cbn [processStreamChunk fst]. unfold_blocks. rewrite Hev. eval_name_tests.
  cbn [andb and_then]. destruct (flag_is_false _ _); cbn [and_then flow_end emitted].
  - constructor.
  - cbn [startedMsgs]. rewrite HS. unfold absent_or_lacks.
    rewrite bool_decide_eq_false_2 by (intros Hn; by apply Hn).
    cbn. repeat constructor.
Qed.

(** C3. In a session whose [startedMessages] set is provided and does not
    contain the id of the message yet, an OnChatModelStream chunk with text
    content (neither diverted to PredictState nor suppressed) sends exactly
    TEXT_MESSAGE_START, TEXT_MESSAGE_CONTENT for that id and the pass-through
    signal, in this order; and whatever chunks the session processes next, a
    later OnChatModelStart chunk with the same id sends no
    TEXT_MESSAGE_START. *)
Theorem start_synthesized_once
    (d : EventsData) (md : option (gmap string JValue))
    (context : StreamProcessorContext) (S : gset string) (text : string)
    (chunks : list StreamChunk)
    (d' : EventsData) (md' : option (gmap string JValue)) :
  startedMessages context = Some S →
  ed_event d = LangGraphEventTypes.OnChatModelStream →
  jfield "content" (jfield "chunk" (ed_data d)) = Some (JStr text) →
  text ≠ "" →
  toolCallUsedToPredictState (ed_data d) (default ∅ md) = false →
  flag_is_false emit_messages_key (default ∅ md) = false →
  lifecycle_id d context ∉ S →
  let m := lifecycle_id d context in
  let tid := threadId context in
  let rid := runId context in
  let first := processStreamChunk (EventsChunk d md) context in
  let later := (process_chunks chunks first.2).2 in
  ed_event d' = LangGraphEventTypes.OnChatModelStart →
  lifecycle_id d' later = m →
  first.1 = [ TextMessageStart assistant m (rawEvent d md rid) tid rid;
              TextMessageContent m text (rawEvent d md rid) tid rid;
              pass_through_event d md tid rid ]
  ∧ Forall (fun e => is_text_start e = false) (events_of d' md' later).
Proof.
  intros HS Hev Hcontent Htext Hpredict Hflag Hnew m tid rid first later Hev' Hid'.
  assert (String.eqb text "" = false) as Htext' by by apply String.eqb_neq.
  assert (first.1
          = [ TextMessageStart assistant m (rawEvent d md rid) tid rid;
              TextMessageContent m text (rawEvent d md rid) tid rid;
              pass_through_event d md tid rid ]
          ∧ startedMessages first.2 = Some ({[ m ]} ∪ S)) as [Hfirst Hset].
  { subst first. cbn [processStreamChunk fst snd startedMessages]. unfold_blocks.
    rewrite Hev, Hpredict, Hcontent, Hflag. eval_name_tests.
    cbn [andb and_then truthy negb]. rewrite Htext'.
    cbn [negb startedMsgs and_then]. rewrite HS. unfold present_and_lacks.
    rewrite bool_decide_eq_true_2 by done.
    cbn. done. }
  split; [done|].
  destruct (process_chunks_started_grows chunks first.2 _ Hset) as (S' & HS' & Hsub).
  apply (started_message_not_restarted d' md' later S'); [done|done|].
  rewrite Hid'. set_solver.
Qed.

(** ** A session without started-sets (C9) *)

(** C9. When the set consulted for a lifecycle event is undefined in the
    context, and the chunk is neither diverted nor suppressed: an
    OnChatModelStream chunk with content sends TEXT_MESSAGE_CONTENT and no
    TEXT_MESSAGE_START before it, an OnChatModelStart chunk sends
    TEXT_MESSAGE_START, an OnToolEnd chunk sends TOOL_CALL_END and no
    TOOL_CALL_START before it, an OnToolStart chunk sends TOOL_CALL_START (and
    its arguments); each is followed by the pass-through signal only, and the
    context is left as it was, so that every occurrence of a start chunk sends
    its start event again. *)
Theorem undefined_sets_asymmetry
    (k : LifecycleEvent) (d : EventsData) (md : option (gmap string JValue))
    (context : StreamProcessorContext) :
  ed_event d = lifecycle_name k →
  consulted_set k context = None →
  has_payload k d = true →
  diverted_to_predict_state d md = false →
  suppressed_by_flag d md = false →
  let result := processStreamChunk (EventsChunk d md) context in
  result.1 = events_without_set k d md context
             ++ [pass_through_event d md (threadId context) (runId context)]
  ∧ startedMessages result.2 = startedMessages context
  ∧ startedToolCalls result.2 = startedToolCalls context
  ∧ runId result.2 = runId context.
Proof.
  intros Hev Hset Hpay Hdiv Hsup result. subst result.
  unfold diverted_to_predict_state, suppressed_by_flag, has_content in *.
  cbn [processStreamChunk fst snd startedMessages startedToolCalls runId].
  unfold events_without_set, lifecycle_id. unfold_blocks.
  destruct k; cbn [lifecycle_name consulted_set has_payload] in *;
    rewrite Hev in *; revert Hdiv Hsup; eval_name_tests;
    cbn [andb orb and_then]; intros Hdiv Hsup.
  all: try (unfold has_content in Hpay; rewrite Hpay in Hsup |- *);
    cbn [andb orb] in Hsup; rewrite ?orb_false_r in Hsup;
    rewrite ?Hdiv, Hsup; cbn [and_then startedMsgs startedTools]; rewrite Hset.
  - cbn. done.
  - cbn. done.
  - cbn [absent_or_lacks]. destruct (truthy _); cbn; done.
  - cbn. done.
Qed.

(** ** Custom chunks leave the started-sets alone (C10) *)

(** C10. Processing a [custom] chunk, whatever its event name, leaves
    [startedMessages], [startedToolCalls] and the run id as they were, and the
    events it sends are the same whatever the two sets contain; for the
    manual-emit-message and manual-emit-tool-call names these events are the
    START, CONTENT or ARGS, END triple. Hence an OnChatModelStart chunk that
    comes next for an id not in [startedMessages] sends TEXT_MESSAGE_START for
    it, even when the custom chunk has just sent one for the same id. *)
Theorem custom_chunk_ignores_started_sets
    (customData : JSValue) (md : option (gmap string JValue))
    (context : StreamProcessorContext)
    (d' : EventsData) (md' : option (gmap string JValue)) :
  ed_event d' = LangGraphEventTypes.OnChatModelStart →
  flag_is_false emit_messages_key (default ∅ md') = false →
  absent_or_lacks (startedMessages context) (lifecycle_id d' context) = true →
  let tid := threadId context in
  let rid := runId context in
  let result := processStreamChunk (CustomChunk customData md) context in
  startedMessages result.2 = startedMessages context
  ∧ startedToolCalls result.2 = startedToolCalls context
  ∧ runId result.2 = runId context
  ∧ (∀ sm st,
        (processStreamChunk (CustomChunk customData md) (with_sets sm st context)).1
        = result.1)
  ∧ (if bool_decide (custom_event_name customData
                     = Some CustomEventNames.CopilotKitManuallyEmitMessage)
     then result.1 = manual_message_events customData tid rid
     else if bool_decide (custom_event_name customData
                          = Some CustomEventNames.CopilotKitManuallyEmitToolCall)
          then result.1 = manual_tool_call_events customData tid rid
          else Forall (fun e => (is_text_message_event e || is_tool_call_event e) = false)
                 result.1)
  ∧ events_of d' md' result.2
    = [ TextMessageStart assistant (lifecycle_id d' context) (rawEvent d' md' rid) tid rid;
        pass_through_event d' md' tid rid ].
Proof.
  intros Hev Hflag Hnew tid rid result. subst result tid rid.
  cbn [processStreamChunk fst snd startedMessages startedToolCalls runId with_sets
         threadId manuallyEmittedState].
  split_and!; try done.
  - unfold handleCustomEvent, custom_event_name, manual_message_events,
      manual_tool_call_events.
    repeat case_bool_decide; cbn [fst]; try done; repeat constructor.
  - unfold events_of, lifecycle_id in *.
    cbn [processStreamChunk fst snd startedMessages startedToolCalls runId threadId].
    unfold_blocks. rewrite Hev, Hflag. eval_name_tests.
    cbn [andb and_then startedMsgs]. rewrite Hnew. cbn. done.
Qed.

(** ** Runs of concrete stream sessions *)

(** C2 as stated fails on a chunk diverted into PredictState: the call sends
    the PredictState signal and no pass-through signal. It also fails on an
    OnChatModelStart chunk carrying [emit-messages: false], which sends no
    event at all. *)
Lemma predict_state_chunk_without_pass_through :
  events_of predicted_tool_chunk (Some predict_metadata) session
  = [predict_state_event predicted_tool_chunk (Some predict_metadata)
       "thread-1" "run-7"]
  ∧ (pass_through_event predicted_tool_chunk (Some predict_metadata) "thread-1" "run-7"
     ∉ events_of predicted_tool_chunk (Some predict_metadata) session)
  ∧ events_of start_chunk (Some messages_off) session = [].
Proof.
  assert (events_of predicted_tool_chunk (Some predict_metadata) session
          = [predict_state_event predicted_tool_chunk (Some predict_metadata)
               "thread-1" "run-7"]) as Hevs by (vm_compute; reflexivity).
  rewrite Hevs. split_and!; [done| |vm_compute; reflexivity].
  rewrite list_elem_of_singleton. discriminate.
Qed.

Lemma pass_through_after_specialised_witness :
  (diverted_to_predict_state text_chunk None = true
   ∨ suppressed_by_flag text_chunk None = false)
  ∧ (let evs := events_of text_chunk None session in
     if diverted_to_predict_state text_chunk None then
       evs = [predict_state_event text_chunk None (threadId session) (runId session)]
     else
       ∃ specialised,
         evs = specialised
               ++ [pass_through_event text_chunk None (threadId session) (runId session)]
         ∧ Forall (fun e => is_custom_event e = false) specialised).
Proof.
  split; [right; reflexivity|].
  apply (pass_through_after_specialised text_chunk None session).
  right. reflexivity.
Defined.

(** C4 as stated fails on a [custom] chunk: the manual message emission sends
    its three TEXT_MESSAGE events although the chunk carries
    [emit-messages: false]. *)
Lemma manual_message_ignores_flag :
  flag_is_false emit_messages_key
    (default ∅ (chunk_metadata (CustomChunk manual_message (Some messages_off))))
  = true
  ∧ event_type <$>
      (processStreamChunk (CustomChunk manual_message (Some messages_off)) session).1
    = [TEXT_MESSAGE_START; TEXT_MESSAGE_CONTENT; TEXT_MESSAGE_END].
Proof. split; vm_compute; reflexivity. Qed.

Lemma start_synthesized_once_witness :
  startedMessages session = Some ∅
  ∧ ed_event text_chunk = LangGraphEventTypes.OnChatModelStream
  ∧ jfield "content" (jfield "chunk" (ed_data text_chunk)) = Some (JStr "Hel")
  ∧ "Hel" ≠ ""
  ∧ toolCallUsedToPredictState (ed_data text_chunk) (default ∅ None) = false
  ∧ flag_is_false emit_messages_key (default ∅ None) = false
  ∧ (lifecycle_id text_chunk session ∉@{gset string} ∅)
  ∧ ed_event start_chunk = LangGraphEventTypes.OnChatModelStart
  ∧ lifecycle_id start_chunk context_after_text = lifecycle_id text_chunk session
  ∧ (processStreamChunk (EventsChunk text_chunk None) session).1
    = [ TextMessageStart assistant (lifecycle_id text_chunk session)
          (rawEvent text_chunk None (runId session)) (threadId session) (runId session);
        TextMessageContent (lifecycle_id text_chunk session) "Hel"
          (rawEvent text_chunk None (runId session)) (threadId session) (runId session);
        pass_through_event text_chunk None (threadId session) (runId session) ]
  ∧ Forall (fun e => is_text_start e = false)
      (events_of start_chunk None context_after_text).
Proof.
  do 3 (split; [reflexivity|]). split; [discriminate|].
  do 2 (split; [reflexivity|]). split; [apply not_elem_of_empty|].
  do 2 (split; [reflexivity|]).
  apply (start_synthesized_once text_chunk None session ∅ "Hel"
           [ValuesChunk None None] start_chunk None);
    [reflexivity|reflexivity|reflexivity|discriminate|reflexivity|reflexivity
    |apply not_elem_of_empty|reflexivity|reflexivity].
Defined.

Example content_then_start_sends_one_start :
  event_type <$>
    (process_chunks [EventsChunk text_chunk None; EventsChunk start_chunk None] session).1
  = [TEXT_MESSAGE_START; TEXT_MESSAGE_CONTENT; CUSTOM; CUSTOM].
Proof. vm_compute. reflexivity. Qed.

Lemma undefined_sets_asymmetry_witness :
  ed_event start_chunk = lifecycle_name ChatModelStart
  ∧ consulted_set ChatModelStart session_without_sets = None
  ∧ has_payload ChatModelStart start_chunk = true
  ∧ diverted_to_predict_state start_chunk None = false
  ∧ suppressed_by_flag start_chunk None = false
  ∧ (let result := processStreamChunk (EventsChunk start_chunk None) session_without_sets in
     result.1 = events_without_set ChatModelStart start_chunk None session_without_sets
                ++ [pass_through_event start_chunk None (threadId session_without_sets)
                      (runId session_without_sets)]
     ∧ startedMessages result.2 = startedMessages session_without_sets
     ∧ startedToolCalls result.2 = startedToolCalls session_without_sets
     ∧ runId result.2 = runId session_without_sets).
Proof.
  do 5 (split; [reflexivity|]).
  apply (undefined_sets_asymmetry ChatModelStart start_chunk None
           session_without_sets); reflexivity.
Defined.

Example without_sets_every_start_is_sent :
  event_type <$>
    (process_chunks
       [EventsChunk text_chunk None; EventsChunk start_chunk None;
        EventsChunk start_chunk None] session_without_sets).1
  = [TEXT_MESSAGE_CONTENT; CUSTOM; TEXT_MESSAGE_START; CUSTOM;
     TEXT_MESSAGE_START; CUSTOM].
Proof. vm_compute. reflexivity. Qed.

Lemma custom_chunk_ignores_started_sets_witness :
  ed_event start_chunk = LangGraphEventTypes.OnChatModelStart
  ∧ flag_is_false emit_messages_key (default ∅ None) = false
  ∧ absent_or_lacks (startedMessages session) (lifecycle_id start_chunk session) = true
  ∧ (let tid := threadId session in
     let rid := runId session in
     let result := processStreamChunk (CustomChunk manual_message None) session in
     startedMessages result.2 = startedMessages session
     ∧ startedToolCalls result.2 = startedToolCalls session
     ∧ runId result.2 = runId session
     ∧ (∀ sm st,
           (processStreamChunk (CustomChunk manual_message None)
              (with_sets sm st session)).1
           = result.1)
     ∧ (if bool_decide (custom_event_name manual_message
                        = Some CustomEventNames.CopilotKitManuallyEmitMessage)
        then result.1 = manual_message_events manual_message tid rid
        else if bool_decide (custom_event_name manual_message
                             = Some CustomEventNames.CopilotKitManuallyEmitToolCall)
             then result.1 = manual_tool_call_events manual_message tid rid
             else Forall (fun e => (is_text_message_event e || is_tool_call_event e) = false)
                    result.1)
     ∧ events_of start_chunk None result.2
       = [ TextMessageStart assistant (lifecycle_id start_chunk session)
             (rawEvent start_chunk None rid) tid rid;
           pass_through_event start_chunk None tid rid ]).
Proof.
  split; [reflexivity|]. split; [reflexivity|]. split; [vm_compute; reflexivity|].
  apply (custom_chunk_ignores_started_sets manual_message None session start_chunk None);
    [reflexivity|reflexivity|vm_compute; reflexivity].
Defined.

(** The manually emitted message ["llm-1"] is started a second time by the
    streamed start event of the same id. *)
Example manual_then_streamed_start_twice :
  (fun e => match e with
            | TextMessageStart _ id _ _ _ => Some id
            | _ => None
            end) <$>
    (process_chunks
       [CustomChunk manual_message None; EventsChunk start_chunk None] session).1
  = [Some "llm-1"; None; None; Some "llm-1"; None].
Proof. vm_compute. reflexivity. Qed.

(** * Further properties *)

(** ** The [events] case as a dispatch table *)

Lemma add_started_again (id : string) (ids : gset string) :
  id ∈ ids → {[ id ]} ∪ ids = ids.
Proof. intros. apply subseteq_union_1_L. set_solver. Qed.

Lemma present_and_lacks_add (set : option (gset string)) (id : string) :
  present_and_lacks set id = false →
  (fun ids => {[ id ]} ∪ ids) <$> set = set.
Proof.
  destruct set as [ids|]; [|done]. unfold present_and_lacks.
  intros Hd%bool_decide_eq_false. apply dec_stable in Hd.
  cbn. f_equal. by apply add_started_again.
Qed.

Lemma absent_or_lacks_add (set : option (gset string)) (id : string) :
  absent_or_lacks set id = false →
  (fun ids => {[ id ]} ∪ ids) <$> set = set.
Proof.
  destruct set as [ids|]; [|done]. unfold absent_or_lacks.
  intros Hd%bool_decide_eq_false. apply dec_stable in Hd.
  cbn. f_equal. by apply add_started_again.
Qed.

Lemma present_and_lacks_absent (id : string) : present_and_lacks None id = false.
Proof. done. Qed.

(** Split on the inner event name: one of the five names, or none of them. *)
Ltac case_event d :=
  destruct (String.eqb (ed_event d) LangGraphEventTypes.OnChatModelStream) eqn:Estream;
  [apply String.eqb_eq in Estream
  |destruct (String.eqb (ed_event d) LangGraphEventTypes.OnChatModelStart) eqn:Estart;
   [apply String.eqb_eq in Estart
   |destruct (String.eqb (ed_event d) LangGraphEventTypes.OnChatModelEnd) eqn:Eend;
    [apply String.eqb_eq in Eend
    |destruct (String.eqb (ed_event d) LangGraphEventTypes.OnToolStart) eqn:Etstart;
     [apply String.eqb_eq in Etstart
     |destruct (String.eqb (ed_event d) LangGraphEventTypes.OnToolEnd) eqn:Etend;
      [apply String.eqb_eq in Etend|]]]]].

Lemma events_case_table
    (d : EventsData) (md : option (gmap string JValue)) (tid rid : string)
    (sm st : option (gset string)) :
  events_case d md tid rid {| emitted := []; startedMsgs := sm; startedTools := st |}
  = {| emitted := table_events d md tid rid sm st;
       startedMsgs := table_set (records_message d md) (str_or (ed_run_id d) rid) sm;
       startedTools := table_set (records_tool_call d md) (str_or (ed_run_id d) rid) st |}.
Proof.
  unfold table_events, records_message, records_tool_call, diverted_to_predict_state,
    has_content, table_set, start_message_if_new, start_tool_call_if_new.
  unfold_blocks. unfold predict_state_event.
  destruct (flag_is_false emit_messages_key (default ∅ md));
    destruct (flag_is_false emit_tool_calls_key (default ∅ md));
    case_event d;
    repeat match goal with
           | H : ed_event d = _ |- _ => rewrite H; clear H
           end;
    eval_name_tests; cbn [andb orb negb and_then flow_end].
  all: try destruct (toolCallUsedToPredictState (ed_data d) (default ∅ md));
    try destruct (truthy (jfield "content" (jfield "chunk" (ed_data d))));
    cbn [andb orb negb and_then flow_end startedMsgs startedTools].
  all: try destruct (present_and_lacks sm _) eqn:Hsm;
    try destruct (absent_or_lacks sm _) eqn:Hsm';
    try destruct (present_and_lacks st _) eqn:Hst;
    try destruct (absent_or_lacks st _) eqn:Hst';
    try destruct (truthy (jfield "input" (ed_data d))).
  all: cbn; rewrite ?andb_false_r; cbn;
    rewrite ?(present_and_lacks_add _ _ Hsm), ?(absent_or_lacks_add _ _ Hsm'),
      ?(present_and_lacks_add _ _ Hst), ?(absent_or_lacks_add _ _ Hst');
    reflexivity.
Qed.

Lemma with_sets_same (context : StreamProcessorContext) :
  with_sets (startedMessages context) (startedToolCalls context) context = context.
Proof. by destruct context. Qed.

(** X1. On an [events] chunk [processStreamChunk] behaves as the dispatch table
    read by inner event name: since the five event names are distinct, the
    sequence of independent tests of the source sends the events of one row at
    most, followed by the pass-through signal unless the row ends in a [break],
    and it records the id in the set of the row when that set is provided. *)
Theorem events_chunk_follows_dispatch_table
    (d : EventsData) (md : option (gmap string JValue))
    (context : StreamProcessorContext) :
  processStreamChunk (EventsChunk d md) context
  = (table_events d md (threadId context) (runId context)
       (startedMessages context) (startedToolCalls context),
     table_context d md context).
Proof.
  cbn [processStreamChunk]. rewrite events_case_table.
  unfold table_context, with_sets, lifecycle_id. done.
Qed.

Lemma processStreamChunk_events
    (d : EventsData) (md : option (gmap string JValue))
    (context : StreamProcessorContext) :
  processStreamChunk (EventsChunk d md) context
  = (table_events d md (threadId context) (runId context)
       (startedMessages context) (startedToolCalls context),
     table_context d md context).
Proof.
  cbn [processStreamChunk]. rewrite events_case_table.
  unfold table_context, with_sets, lifecycle_id. done.
Qed.

Ltac table_cases :=
  unfold table_events, start_message_if_new, start_tool_call_if_new,
    predict_state_event, pass_through_event;
  break_ifs; cbn [app].

Ltac custom_cases :=
  unfold handleCustomEvent; break_ifs; cbn [fst snd].

(** ** Stamps of the streamed events *)

Lemma processStreamChunk_stamps
    (chunk : StreamChunk) (context : StreamProcessorContext) :
  Forall (fun e => event_threadId e = threadId context
                   ∧ event_runId e = runId context)
    (processStreamChunk chunk context).1.
Proof.
  destruct chunk as [data md|data md|data md|data md|data md|data md|ev data md].
  - constructor.
  - rewrite processStreamChunk_events. cbn [fst]. table_cases; repeat constructor.
  - repeat constructor.
  - repeat constructor.
  - cbn [processStreamChunk fst]. custom_cases; repeat constructor.
  - repeat constructor.
  - constructor.
Qed.

(** X2. Every event that [processStreamChunk] sends for a chunk carries the
    thread id and the run id of the context it was called with. *)
Theorem chunk_events_are_stamped
    (chunk : StreamChunk) (context : StreamProcessorContext) :
  Forall (fun e => event_threadId e = threadId context
                   ∧ event_runId e = runId context)
    (processStreamChunk chunk context).1.
Proof. apply processStreamChunk_stamps. Qed.

(** What one chunk does to the fields of the context other than the sets. *)
Lemma processStreamChunk_fields
    (chunk : StreamChunk) (context : StreamProcessorContext) :
  let context' := (processStreamChunk chunk context).2 in
  threadId context' = threadId context
  ∧ debug context' = debug context
  ∧ runId context' = default (runId context) (announced_run_id chunk)
  ∧ manuallyEmittedState context'
    = default (manuallyEmittedState context) (stored_manual_state chunk).
Proof.
  destruct chunk as [data md|data md|data md|data md|data md|data md|ev data md];
    rewrite ?processStreamChunk_events;
    cbn [processStreamChunk snd threadId debug runId manuallyEmittedState
           announced_run_id stored_manual_state default table_context with_sets];
    try done.
  - by destruct (String.eqb (md_run_id data) "").
  - split_and!; try done. unfold handleCustomEvent, custom_event_name.
    repeat case_bool_decide; cbn [snd default]; try done.
    all: unfold CustomEventNames.CopilotKitManuallyEmitMessage,
           CustomEventNames.CopilotKitManuallyEmitToolCall,
           CustomEventNames.CopilotKitManuallyEmitIntermediateState,
           CustomEventNames.CopilotKitExit in *; congruence.
Qed.

Lemma last_snoc_default {A} (x : A) (l : list A) (o : option A) :
  default x (last (l ++ from_option (fun y => [y]) [] o))
  = default (default x (last l)) o.
Proof. destruct o as [y|]; cbn; [by rewrite last_snoc|by rewrite app_nil_r]. Qed.

Lemma omap_snoc {A B} (f : A → option B) (l : list A) (x : A) :
  omap f (l ++ [x]) = omap f l ++ from_option (fun y => [y]) [] (f x).
Proof. rewrite omap_app. cbn. by destruct (f x). Qed.

Lemma process_chunks_fields
    (chunks : list StreamChunk) (context : StreamProcessorContext) :
  let context' := (process_chunks chunks context).2 in
  threadId context' = threadId context
  ∧ debug context' = debug context
  ∧ runId context' = default (runId context) (last (omap announced_run_id chunks))
  ∧ manuallyEmittedState context'
    = default (manuallyEmittedState context) (last (omap stored_manual_state chunks)).
Proof.
  induction chunks as [|chunk chunks IH] using rev_ind; [done|].
  rewrite process_chunks_snoc. cbn [snd].
  destruct IH as (IH1 & IH2 & IH3 & IH4).
  destruct (processStreamChunk_fields chunk (process_chunks chunks context).2)
    as (H1 & H2 & H3 & H4).
  rewrite !omap_snoc, !last_snoc_default.
  rewrite H1, H2, H3, H4, IH1, IH2, IH3, IH4. done.
Qed.

(** X3. Over a whole stream, the thread id and the debug flag of the session
    never change; the run id of the session after the stream is the last
    non-empty run id announced by a [metadata] chunk (the joined run id when
    there is none), and the manual state is the value of the last manual
    intermediate-state chunk (the initial one when there is none). No other
    chunk changes either. *)
Theorem session_fields_after_stream
    (chunks : list StreamChunk) (context : StreamProcessorContext) :
  let context' := (process_chunks chunks context).2 in
  threadId context' = threadId context
  ∧ debug context' = debug context
  ∧ runId context' = default (runId context) (last (omap announced_run_id chunks))
  ∧ manuallyEmittedState context'
    = default (manuallyEmittedState context) (last (omap stored_manual_state chunks)).
Proof. apply process_chunks_fields. Qed.

(** X4. Every event of a streamed session carries the thread id of the
    session, and its run id is the joined run id or a non-empty run id
    announced by a [metadata] chunk of the stream. *)
Theorem session_events_are_stamped
    (chunks : list StreamChunk) (context : StreamProcessorContext) :
  Forall (fun e => event_threadId e = threadId context
                   ∧ event_runId e ∈ runId context :: omap announced_run_id chunks)
    (process_chunks chunks context).1.
Proof.
  induction chunks as [|chunk chunks IH] using rev_ind; [constructor|].
  rewrite process_chunks_snoc. cbn [fst]. apply Forall_app. split.
  - eapply Forall_impl; [exact IH|]. intros e [Ht Hr]. split; [done|].
    rewrite omap_app, app_comm_cons. apply elem_of_app. by left.
  - pose proof (process_chunks_fields chunks context) as (Ht & _ & Hr & _).
    eapply Forall_impl; [apply processStreamChunk_stamps|].
    intros e [Het Her]. rewrite Het, Her, Ht, Hr. split; [done|].
    rewrite omap_app, app_comm_cons. apply elem_of_app. left.
    destruct (last (omap announced_run_id chunks)) as [rid|] eqn:Hlast; cbn.
    + apply last_Some_elem_of in Hlast. apply elem_of_cons. by right.
    + apply elem_of_cons. by left.
Qed.

(** ** Well-formed message and tool-call events of a session *)

Lemma lifecycle_scan_app (role : BaseEvent → option LifecycleRole)
    (started : gset string) (evs1 evs2 : list BaseEvent) :
  lifecycle_scan role started (evs1 ++ evs2)
  = lifecycle_scan role started evs1 ≫= fun ids => lifecycle_scan role ids evs2.
Proof.
  revert started. induction evs1 as [|e evs1 IH]; intros started; [done|].
  cbn [app lifecycle_scan]. destruct (role e) as [[id|id]|]; [| |apply IH].
  - case_decide; [done|apply IH].
  - case_decide; [apply IH|done].
Qed.

Ltac scan_done :=
  cbn [lifecycle_scan text_role tool_role_of fmap option_fmap option_map];
  repeat (case_decide; try set_solver);
  rewrite ?add_started_again by done; try reflexivity.

Lemma processStreamChunk_text_lifecycle
    (chunk : StreamChunk) (context : StreamProcessorContext) (S : gset string) :
  startedMessages context = Some S →
  is_custom_chunk chunk = false →
  lifecycle_scan text_role S (processStreamChunk chunk context).1
  = startedMessages (processStreamChunk chunk context).2.
Proof.
  intros HS Hcustom.
  destruct chunk as [data md|data md|data md|data md|data md|data md|ev data md];
    try discriminate Hcustom;
    rewrite ?processStreamChunk_events;
    cbn [processStreamChunk fst snd startedMessages table_context with_sets];
    rewrite HS; try reflexivity.
  unfold table_events, table_set, records_message, diverted_to_predict_state,
    has_content, start_message_if_new, start_tool_call_if_new, predict_state_event,
    pass_through_event, lifecycle_id, present_and_lacks, absent_or_lacks.
  destruct (flag_is_false emit_messages_key (default ∅ md));
    destruct (flag_is_false emit_tool_calls_key (default ∅ md));
    case_event data;
    repeat match goal with
           | H : ed_event data = _ |- _ => rewrite H; clear H
           end;
    eval_name_tests; cbn [andb orb negb].
  all: try destruct (toolCallUsedToPredictState (ed_data data) (default ∅ md));
    try destruct (truthy (jfield "content" (jfield "chunk" (ed_data data))));
    try destruct (truthy (jfield "input" (ed_data data)));
    cbn [andb orb negb]; rewrite ?andb_false_r; cbn [andb orb negb].
  all: repeat case_bool_decide; break_ifs; cbn [app]; scan_done.
Qed.

Lemma processStreamChunk_tool_lifecycle
    (chunk : StreamChunk) (context : StreamProcessorContext) (S : gset string) :
  startedToolCalls context = Some S →
  is_custom_chunk chunk = false →
  lifecycle_scan tool_role_of S (processStreamChunk chunk context).1
  = startedToolCalls (processStreamChunk chunk context).2.
Proof.
  intros HS Hcustom.
  destruct chunk as [data md|data md|data md|data md|data md|data md|ev data md];
    try discriminate Hcustom;
    rewrite ?processStreamChunk_events;
    cbn [processStreamChunk fst snd startedToolCalls table_context with_sets];
    rewrite HS; try reflexivity.
  unfold table_events, table_set, records_tool_call, diverted_to_predict_state,
    has_content, start_message_if_new, start_tool_call_if_new, predict_state_event,
    pass_through_event, lifecycle_id, present_and_lacks, absent_or_lacks.
  destruct (flag_is_false emit_messages_key (default ∅ md));
    destruct (flag_is_false emit_tool_calls_key (default ∅ md));
    case_event data;
    repeat match goal with
           | H : ed_event data = _ |- _ => rewrite H; clear H
           end;
    eval_name_tests; cbn [andb orb negb].
  all: try destruct (toolCallUsedToPredictState (ed_data data) (default ∅ md));
    try destruct (truthy (jfield "content" (jfield "chunk" (ed_data data))));
    try destruct (truthy (jfield "input" (ed_data data)));
    cbn [andb orb negb]; rewrite ?andb_false_r; cbn [andb orb negb].
  all: repeat case_bool_decide; break_ifs; cbn [app]; scan_done.
Qed.

(** X5. In a session whose [startedMessages] set is provided, over any stream
    without [custom] chunks, the TEXT_MESSAGE events are well formed from that
    set: no TEXT_MESSAGE_START is sent for an id already started, every
    TEXT_MESSAGE_CONTENT and TEXT_MESSAGE_END comes after the start of its id,
    and the set of the session at the end holds exactly the ids started. *)
Theorem session_text_messages_well_formed
    (chunks : list StreamChunk) (context : StreamProcessorContext) (S : gset string) :
  startedMessages context = Some S →
  Forall (fun chunk => is_custom_chunk chunk = false) chunks →
  ∃ S', lifecycle_scan text_role S (process_chunks chunks context).1 = Some S'
        ∧ startedMessages (process_chunks chunks context).2 = Some S'.
Proof.
  intros HS. induction chunks as [|chunk chunks IH] using rev_ind; intros Hchunks.
  - by exists S.
  - apply Forall_app in Hchunks as [Hchunks Hchunk].
    apply Forall_inv in Hchunk.
    destruct (IH Hchunks) as (S1 & Hscan & HS1).
    rewrite process_chunks_snoc. cbn [fst snd].
    rewrite lifecycle_scan_app, Hscan. cbn [mbind option_bind].
    rewrite (processStreamChunk_text_lifecycle chunk _ S1 HS1 Hchunk).
    destruct (processStreamChunk_started_grows chunk _ S1 HS1) as (S2 & HS2 & _).
    by exists S2.
Qed.

Lemma table_set_grows (records : bool) (id : string) (set : option (gset string)) :
  set_grows set (table_set records id set).
Proof.
  unfold set_grows, table_set. destruct set as [ids|], records; cbn; eauto.
  eexists. split; [done|]. set_solver.
Qed.

Lemma set_grows_refl (set : option (gset string)) : set_grows set set.
Proof. destruct set; cbn; eauto. Qed.

Lemma set_grows_trans (a b c : option (gset string)) :
  set_grows a b → set_grows b c → set_grows a c.
Proof.
  unfold set_grows. destruct a as [ids|].
  - intros (ids1 & -> & H1) (ids2 & -> & H2). exists ids2. split; [done|]. set_solver.
  - by intros ->.
Qed.

Lemma processStreamChunk_sets_grow
    (chunk : StreamChunk) (context : StreamProcessorContext) :
  set_grows (startedMessages context)
    (startedMessages (processStreamChunk chunk context).2)
  ∧ set_grows (startedToolCalls context)
      (startedToolCalls (processStreamChunk chunk context).2).
Proof.
  destruct chunk as [data md|data md|data md|data md|data md|data md|ev data md];
    rewrite ?processStreamChunk_events;
    cbn [processStreamChunk snd startedMessages startedToolCalls table_context
           with_sets];
    auto using set_grows_refl, table_set_grows.
Qed.

(** X6. Over any stream, each of the two sets of a session only grows when it
    is provided, and stays undefined when it is not: [processStreamChunk]
    neither removes an id nor creates a set. *)
Theorem session_sets_only_grow
    (chunks : list StreamChunk) (context : StreamProcessorContext) :
  set_grows (startedMessages context)
    (startedMessages (process_chunks chunks context).2)
  ∧ set_grows (startedToolCalls context)
      (startedToolCalls (process_chunks chunks context).2).
Proof.
  induction chunks as [|chunk chunks [IHm IHt]] using rev_ind.
  - split; apply set_grows_refl.
  - rewrite process_chunks_snoc. cbn [snd].
    destruct (processStreamChunk_sets_grow chunk (process_chunks chunks context).2)
      as [Hm Ht].
    split; eapply set_grows_trans; eauto.
Qed.

(** X7. In a session whose [startedToolCalls] set is provided, over any stream
    without [custom] chunks, the TOOL_CALL events are well formed from that
    set: no TOOL_CALL_START is sent for an id already started, every
    TOOL_CALL_ARGS and TOOL_CALL_END comes after the start of its id, and the
    set of the session at the end holds exactly the ids started. *)
Theorem session_tool_calls_well_formed
    (chunks : list StreamChunk) (context : StreamProcessorContext) (S : gset string) :
  startedToolCalls context = Some S →
  Forall (fun chunk => is_custom_chunk chunk = false) chunks →
  ∃ S', lifecycle_scan tool_role_of S (process_chunks chunks context).1 = Some S'
        ∧ startedToolCalls (process_chunks chunks context).2 = Some S'.
Proof.
  intros HS. induction chunks as [|chunk chunks IH] using rev_ind; intros Hchunks.
  - by exists S.
  - apply Forall_app in Hchunks as [Hchunks Hchunk].
    apply Forall_inv in Hchunk.
    destruct (IH Hchunks) as (S1 & Hscan & HS1).
    rewrite process_chunks_snoc. cbn [fst snd].
    rewrite lifecycle_scan_app, Hscan. cbn [mbind option_bind].
    rewrite (processStreamChunk_tool_lifecycle chunk _ S1 HS1 Hchunk).
    destruct (processStreamChunk_sets_grow chunk (process_chunks chunks context).2)
      as [_ Ht].
    rewrite HS1 in Ht. destruct Ht as (S2 & HS2 & _). by exists S2.
Qed.

Lemma session_text_messages_well_formed_witness :
  startedMessages session = Some ∅
  ∧ Forall (fun chunk => is_custom_chunk chunk = false) sample_stream
  ∧ ∃ S', lifecycle_scan text_role ∅ (process_chunks sample_stream session).1 = Some S'
          ∧ startedMessages (process_chunks sample_stream session).2 = Some S'.
Proof.
  split; [reflexivity|]. split; [repeat constructor|].
  apply (session_text_messages_well_formed sample_stream session ∅);
    [reflexivity|repeat constructor].
Defined.

Lemma session_tool_calls_well_formed_witness :
  startedToolCalls session = Some ∅
  ∧ Forall (fun chunk => is_custom_chunk chunk = false) sample_stream
  ∧ ∃ S', lifecycle_scan tool_role_of ∅ (process_chunks sample_stream session).1 = Some S'
          ∧ startedToolCalls (process_chunks sample_stream session).2 = Some S'.
Proof.
  split; [reflexivity|]. split; [repeat constructor|].
  apply (session_tool_calls_well_formed sample_stream session ∅);
    [reflexivity|repeat constructor].
Defined.

(** The events of the sample stream, by type and run id: the message and the
    tool call are each started once, at the first chunk that concerns them. *)
Example sample_stream_events :
  (fun e => (event_type e, event_runId e)) <$> (process_chunks sample_stream session).1
  = [ (TEXT_MESSAGE_START, "run-7"); (TEXT_MESSAGE_CONTENT, "run-7"); (CUSTOM, "run-7");
      (CUSTOM, "run-8");
      (TOOL_CALL_START, "run-8"); (TOOL_CALL_END, "run-8"); (CUSTOM, "run-8");
      (TOOL_CALL_ARGS, "run-8"); (CUSTOM, "run-8");
      (STATE_SNAPSHOT, "run-8");
      (TEXT_MESSAGE_CONTENT, "run-8"); (CUSTOM, "run-8");
      (TEXT_MESSAGE_END, "run-8"); (CUSTOM, "run-8") ].
Proof. vm_compute. reflexivity. Qed.

(** ** Suppressed chunks and the size of a call *)

(** X8. An [events] chunk that is not diverted into PredictState and whose
    handling is suppressed by a flag sends no event at all, not even the
    pass-through signal, and leaves the context as it was. *)
Theorem suppressed_chunk_is_silent
    (d : EventsData) (md : option (gmap string JValue))
    (context : StreamProcessorContext) :
  diverted_to_predict_state d md = false →
  suppressed_by_flag d md = true →
  processStreamChunk (EventsChunk d md) context = ([], context).
Proof.
  intros Hdiv Hsup. rewrite processStreamChunk_events.
  revert Hdiv Hsup.
  unfold table_context, table_events, table_set, records_message, records_tool_call,
    diverted_to_predict_state, suppressed_by_flag, has_content.
  destruct (flag_is_false emit_messages_key (default ∅ md));
    destruct (flag_is_false emit_tool_calls_key (default ∅ md));
    case_event d;
    repeat match goal with
           | H : ed_event d = _ |- _ => rewrite H; clear H
           end;
    eval_name_tests; cbn [andb orb negb].
  all: try destruct (toolCallUsedToPredictState (ed_data d) (default ∅ md));
    try destruct (truthy (jfield "content" (jfield "chunk" (ed_data d))));
    cbn [andb orb negb]; rewrite ?andb_false_r; cbn [andb orb negb];
    intros Hdiv Hsup; try discriminate; by rewrite with_sets_same.
Qed.

Lemma suppressed_chunk_is_silent_witness :
  diverted_to_predict_state start_chunk (Some messages_off) = false
  ∧ suppressed_by_flag start_chunk (Some messages_off) = true
  ∧ processStreamChunk (EventsChunk start_chunk (Some messages_off)) session
    = ([], session).
Proof.
  split; [reflexivity|]. split; [vm_compute; reflexivity|].
  apply (suppressed_chunk_is_silent start_chunk (Some messages_off) session);
    [reflexivity|vm_compute; reflexivity].
Defined.

(** X9. One call of [processStreamChunk] sends at most three events; a
    [metadata] chunk or a chunk of an unknown category sends none, and an
    [updates], [values] or [error] chunk sends exactly one. *)
Theorem chunk_sends_at_most_three_events
    (chunk : StreamChunk) (context : StreamProcessorContext) :
  let n := length (processStreamChunk chunk context).1 in
  (n ≤ 3)%nat
  ∧ match chunk with
    | MetadataChunk _ _ | OtherChunk _ _ _ => n = 0%nat
    | UpdatesChunk _ _ | ValuesChunk _ _ | ErrorChunk _ _ => n = 1%nat
    | EventsChunk _ _ | CustomChunk _ _ => True
    end.
Proof.
  destruct chunk as [data md|data md|data md|data md|data md|data md|ev data md];
    rewrite ?processStreamChunk_events; cbn [processStreamChunk fst]; cbn zeta.
  1,3,4,6,7: cbn; split; [lia|done].
  - split; [|done]. table_cases; cbn; lia.
  - split; [|done]. custom_cases; cbn; lia.
Qed.

(** ** Further properties of [connect] *)

Section connect_more.
Variable this : Runner.
Variable client : Client.
Variable tid : string.
Variable state0 : JSValue.

Lemma joinAndProcessStream_state (rid : string) (w : World) :
  activeRun_manuallyEmittedState (joinAndProcessStream this client tid rid w).1
  = (if stream_throws (runs_joinStream client tid rid)
     then activeRun_manuallyEmittedState w
     else manuallyEmittedState
            (process_chunks (stream_chunks (runs_joinStream client tid rid))
               (join_context this tid rid (activeRun_manuallyEmittedState w))).2).
Proof.
  unfold joinAndProcessStream, try_catch, bind, joinStream,
    get_activeRun_state, next_events, next_event, set_activeRun_state, throw,
    getState, emit_interrupt_if_any, ret, log_call, join_context.
  cbn [fst snd sub_events sub_completed client_calls activeRun_manuallyEmittedState].
  destruct (stream_throws _); cbn; [done|].
  destruct (threads_getState client tid) as [state|]; cbn; [|done].
  by destruct (pending_interrupt state).
Qed.

Lemma connect_hydrated_state (cp : ThreadState) (cps : list ThreadState) :
  threads_getHistory client tid (fetch_limit this) = Returns (Some (cp :: cps)) →
  activeRun_manuallyEmittedState (connect this client tid state0)
  = state_after_connect this client tid cp state0.
Proof.
  intros Hfetch. unfold connect, hydrate, try_catch, bind, getHistory.
  fold (fetch_limit this). rewrite Hfetch. unfold hydrate_history.
  rewrite latest_after_reverse.
  unfold state_after_connect, active_run.
  monad_simpl.
  destruct (runs_list client 0 tid) as [[[|r0 runs0]|]|]; monad_simpl.
  all: destruct (values cp) as [v|]; monad_simpl.
  all: destruct (pending_interrupt cp) as [iv|]; monad_simpl.
  all: destruct (isThreadBusy cp); monad_simpl.
  all: try (destruct (runs_list client 1 tid) as [runs1|]; monad_simpl).
  all: try (destruct (runs1 ≫= List.find is_active) as [r1|]; monad_simpl).
  all: try (match goal with
            | |- context [joinAndProcessStream this client tid ?rid ?w] =>
                pose proof (joinAndProcessStream_state rid w) as Hjoin;
                destruct (joinAndProcessStream this client tid rid w) as [w' [[]|]];
                cbn [fst snd activeRun_manuallyEmittedState] in Hjoin;
                monad_simpl; rewrite ?Hjoin
            end).
  all: done.
Qed.

Lemma connect_without_history :
  (∀ cp cps,
      threads_getHistory client tid (fetch_limit this) ≠ Returns (Some (cp :: cps))) →
  let w := connect this client tid state0 in
  client_calls w = [CallGetHistory tid (fetch_limit this)]
  ∧ activeRun_manuallyEmittedState w = state0.
Proof.
  intros Hnone. unfold connect, hydrate, try_catch, bind, getHistory.
  fold (fetch_limit this).
  destruct (threads_getHistory client tid (fetch_limit this)) as [[[|cp cps]|]|];
    monad_simpl; try done.
  by destruct (Hnone cp cps).
Qed.

End connect_more.

(** X10. If the history fetch throws, [connect] makes no other call to the
    client, sends exactly RUN_STARTED, a MESSAGES_SNAPSHOT with no message and
    RUN_FINISHED, all three with the same generated id that starts with
    "hydration_error_", completes the subscriber and leaves the runner's
    manual state as it was. *)
Theorem connect_fetch_error_fallback
    (this : Runner) (client : Client) (tid : string) (state0 : JSValue) :
  threads_getHistory client tid (fetch_limit this) = Throws →
  let w := connect this client tid state0 in
  let rid := "hydration_error_" +:+ Math_random_suffix client in
  sub_events w
  = [RunStarted tid rid; MessagesSnapshot [] tid rid; RunFinished tid rid]
  ∧ sub_completed w = true
  ∧ client_calls w = [CallGetHistory tid (fetch_limit this)]
  ∧ activeRun_manuallyEmittedState w = state0.
Proof.
  intros Hfetch w rid.
  destruct (connect_fetch_failed this client tid state0 Hfetch) as [Hev Hc].
  destruct (connect_without_history this client tid state0) as [Hcalls Hst].
  { intros cp cps. rewrite Hfetch. discriminate. }
  subst w. by rewrite Hev, Hc, Hcalls, Hst.
Qed.

Lemma connect_fetch_error_fallback_witness :
  threads_getHistory failing_client "thread-1" (fetch_limit default_runner) = Throws
  ∧ sub_events (connect default_runner failing_client "thread-1" None)
    = [ RunStarted "thread-1" ("hydration_error_" +:+ Math_random_suffix failing_client);
        MessagesSnapshot [] "thread-1"
          ("hydration_error_" +:+ Math_random_suffix failing_client);
        RunFinished "thread-1"
          ("hydration_error_" +:+ Math_random_suffix failing_client) ]
  ∧ sub_completed (connect default_runner failing_client "thread-1" None) = true
  ∧ client_calls (connect default_runner failing_client "thread-1" None)
    = [CallGetHistory "thread-1" (fetch_limit default_runner)]
  ∧ activeRun_manuallyEmittedState (connect default_runner failing_client "thread-1" None)
    = None.
Proof.
  split; [reflexivity|].
  apply (connect_fetch_error_fallback default_runner failing_client "thread-1" None).
  reflexivity.
Defined.

(** ** Events after the two opening events *)

Lemma processStreamChunk_no_messages_snapshot
    (chunk : StreamChunk) (context : StreamProcessorContext) :
  Forall (fun e => is_messages_snapshot e = false)
    (processStreamChunk chunk context).1.
Proof.
  destruct chunk as [data md|data md|data md|data md|data md|data md|ev data md].
  - constructor.
  - rewrite processStreamChunk_events. cbn [fst]. table_cases; repeat constructor.
  - repeat constructor.
  - repeat constructor.
  - cbn [processStreamChunk fst]. custom_cases; repeat constructor.
  - repeat constructor.
  - constructor.
Qed.

Lemma process_chunks_streamed (chunks : list StreamChunk)
    (context : StreamProcessorContext) :
  Forall (fun e => event_threadId e = threadId context
                   ∧ is_messages_snapshot e = false)
    (process_chunks chunks context).1.
Proof.
  induction chunks as [|chunk chunks IH] using rev_ind; [constructor|].
  rewrite process_chunks_snoc. cbn [fst]. apply Forall_app. split; [done|].
  pose proof (process_chunks_fields chunks context) as (Ht & _).
  pose proof (processStreamChunk_stamps chunk (process_chunks chunks context).2) as Hs.
  pose proof (processStreamChunk_no_messages_snapshot chunk
                (process_chunks chunks context).2) as Hn.
  rewrite Forall_forall in Hs, Hn. apply Forall_forall. intros e He.
  destruct (Hs e He) as [Het _]. rewrite Het, Ht. split; [done|]. by apply Hn.
Qed.

Lemma after_snapshot_streamed (this : Runner) (client : Client) (tid : string)
    (cp : ThreadState) (state0 : JSValue) :
  Forall (fun e => event_threadId e = tid ∧ is_messages_snapshot e = false)
    (after_snapshot this client tid cp state0).
Proof.
  unfold after_snapshot, state_snapshot_events, interrupt_events, join_events.
  apply Forall_app; split; [|apply Forall_app; split].
  - destruct (values cp); repeat constructor.
  - destruct (pending_interrupt cp); repeat constructor.
  - destruct (active_run client tid cp) as [r|]; [|repeat constructor].
    cbn zeta. apply Forall_app. split.
    + apply (process_chunks_streamed _ (join_context this tid (run_id r) state0)).
    + destruct (stream_throws _); [repeat constructor|].
      apply Forall_app. split; [|repeat constructor].
      unfold interrupt_events.
      destruct (threads_getState client tid) as [state|];
        [destruct (pending_interrupt state)|]; repeat constructor.
Qed.

(** X11. Whatever the client answers or throws, the second event of a
    [connect] sequence is a MESSAGES_SNAPSHOT with the run id of the
    RUN_STARTED before it, and no later event is a MESSAGES_SNAPSHOT: the
    history is sent once, before any state, interrupt or streamed event. *)
Theorem connect_sends_one_messages_snapshot
    (this : Runner) (client : Client) (tid : string) (state0 : JSValue) :
  ∃ rid msgs rest,
    sub_events (connect this client tid state0)
    = RunStarted tid rid :: MessagesSnapshot msgs tid rid :: rest
    ∧ Forall (fun e => is_messages_snapshot e = false) rest.
Proof.
  destruct (threads_getHistory client tid (fetch_limit this))
    as [[[|cp cps]|]|] eqn:Hfetch.
  - destruct (connect_nothing_fetched this client tid state0 _ Hfetch) as [-> _];
      [by right|].
    eexists _, _, _. split; [done|]. repeat constructor.
  - destruct (connect_hydrated this client tid cp cps state0 Hfetch) as (-> & _ & _).
    eexists _, _, _. split; [done|].
    eapply Forall_impl; [apply after_snapshot_streamed|]. by intros e [_ ?].
  - destruct (connect_nothing_fetched this client tid state0 _ Hfetch) as [-> _];
      [by left|].
    eexists _, _, _. split; [done|]. repeat constructor.
  - destruct (connect_fetch_failed this client tid state0 Hfetch) as [-> _].
    eexists _, _, _. split; [done|]. repeat constructor.
Qed.

(** X12. Every event of a [connect] sequence, hydrated or streamed, carries
    the thread id of the request. *)
Theorem connect_events_carry_thread_id
    (this : Runner) (client : Client) (tid : string) (state0 : JSValue) :
  Forall (fun e => event_threadId e = tid)
    (sub_events (connect this client tid state0)).
Proof.
  destruct (threads_getHistory client tid (fetch_limit this))
    as [[[|cp cps]|]|] eqn:Hfetch.
  - destruct (connect_nothing_fetched this client tid state0 _ Hfetch) as [-> _];
      [by right|].
    repeat constructor.
  - destruct (connect_hydrated this client tid cp cps state0 Hfetch) as (-> & _ & _).
    do 2 (constructor; [done|]).
    eapply Forall_impl; [apply after_snapshot_streamed|]. by intros e [? _].
  - destruct (connect_nothing_fetched this client tid state0 _ Hfetch) as [-> _];
      [by left|].
    repeat constructor.
  - destruct (connect_fetch_failed this client tid state0 Hfetch) as [-> _].
    repeat constructor.
Qed.

(** ** Calls made to the client *)

Lemma fetch_limit_range (config : RunnerConfig) :
  (1 ≤ fetch_limit (new_runner config) ≤ 1000)%Z.
Proof.
  unfold fetch_limit, new_runner, DEFAULT_HISTORY_LIMIT, MAX_HISTORY_LIMIT.
  cbn [historyLimit].
  destruct (Z.gtb_spec (Z.min (default 100%Z (cfg_historyLimit config)) 1000) 0); lia.
Qed.

Lemma calls_after_fetch_no_history (client : Client) (tid : string) (cp : ThreadState) :
  Forall (fun c => is_get_history c = false) (calls_after_fetch client tid cp).
Proof.
  unfold calls_after_fetch. constructor; [done|].
  apply Forall_app. split.
  - destruct (isThreadBusy cp); repeat constructor.
  - destruct (active_run client tid cp) as [r|]; [|constructor].
    constructor; [done|]. destruct (stream_throws _); repeat constructor.
Qed.

(** X13. For a runner built by the constructor from any configuration, the
    first call of [connect] to the client is the history fetch, its limit lies
    between 1 and 1000 whatever integer [historyLimit] was configured (zero,
    negative or above the maximum included), and the history is fetched only
    once. *)
Theorem connect_fetches_history_once
    (config : RunnerConfig) (client : Client) (tid : string) (state0 : JSValue) :
  ∃ limit rest,
    client_calls (connect (new_runner config) client tid state0)
    = CallGetHistory tid limit :: rest
    ∧ (1 ≤ limit ≤ 1000)%Z
    ∧ Forall (fun c => is_get_history c = false) rest.
Proof.
  pose proof (fetch_limit_range config) as Hrange.
  destruct (threads_getHistory client tid (fetch_limit (new_runner config)))
    as [[[|cp cps]|]|] eqn:Hfetch.
  2: { destruct (connect_hydrated _ client tid cp cps state0 Hfetch) as (_ & _ & ->).
       eexists _, _.
       split; [reflexivity|split; [exact Hrange|apply calls_after_fetch_no_history]]. }
  all: destruct (connect_without_history (new_runner config) client tid state0)
         as [-> _]; [intros cp cps; rewrite Hfetch; discriminate|].
  all: eexists _, _; split; [reflexivity|split; [exact Hrange|constructor]].
Qed.

(** ** The message limit *)

Lemma limitMessages_drop (L : Z) (all : list LangGraphMessage) :
  limitMessages L all = drop (trimmed_count L all) all.
Proof.
  unfold limitMessages, trimmed_count, Array_slice.
  destruct (Z.gtb_spec L 0), (Z.ltb_spec 0 L); try lia; [|done].
  destruct (Z.ltb_spec (- L) 0); [|lia].
  f_equal. lia.
Qed.

(** X14. Whatever the limit and the history, the messages taken into the
    MESSAGES_SNAPSHOT are a suffix of the deduplicated history in
    chronological order: the last [historyLimit] of them when the limit is
    positive and there are more, and all of them when the limit is zero or
    negative or when there are no more than [historyLimit]. *)
Theorem limit_keeps_a_suffix (this : Runner) (fetched : list ThreadState) :
  let deduplicated := allMessages (collect_checkpoints (reverse fetched)) in
  let L := historyLimit this in
  limitMessages L deduplicated = drop (trimmed_count L deduplicated) deduplicated
  ∧ snapshot_messages this fetched
    = omap transformMessage (drop (trimmed_count L deduplicated) deduplicated)
  ∧ trimmed_count L deduplicated
    = (if (0 <? L)%Z && (L <? Z.of_nat (length deduplicated))%Z
       then length deduplicated - Z.to_nat L else 0)%nat.
Proof.
  intros deduplicated L. split_and!.
  - apply limitMessages_drop.
  - unfold snapshot_messages. fold deduplicated. fold L.
    by rewrite limitMessages_drop, transformMessages_omap.
  - unfold trimmed_count.
    destruct (Z.ltb_spec 0 L), (Z.ltb_spec L (Z.of_nat (length deduplicated)));
      cbn [andb]; lia.
Qed.

(** ** The paths of [connect] after the history *)

Section connect_paths.
Variable this : Runner.
Variable client : Client.
Variable tid : string.
Variable state0 : JSValue.
Variable cp : ThreadState.
Variable cps : list ThreadState.
Hypothesis Hfetch :
  threads_getHistory client tid (fetch_limit this) = Returns (Some (cp :: cps)).

Lemma connect_not_joined :
  active_run client tid cp = None →
  let w := connect this client tid state0 in
  sub_events w
  = hydration_events this client tid (cp :: cps)
    ++ [RunFinished tid (resolved_run_id client tid)]
  ∧ sub_completed w = true
  ∧ client_calls w
    = CallGetHistory tid (fetch_limit this) :: CallRunsList tid
      :: (if isThreadBusy cp then [CallRunsList tid] else [])
  ∧ activeRun_manuallyEmittedState w = state0.
Proof.
  intros Hnone w. subst w.
  destruct (connect_hydrated this client tid cp cps state0 Hfetch) as (-> & -> & ->).
  rewrite (connect_hydrated_state this client tid state0 cp cps Hfetch).
  unfold after_snapshot, calls_after_fetch, state_after_connect, hydration_events.
  rewrite Hnone. cbn [head]. rewrite app_nil_r.
  split_and!; try done.
  by rewrite !app_comm_cons, <- !app_assoc.
Qed.

Lemma active_run_busy (r : Run) :
  active_run client tid cp = Some r → isThreadBusy cp = true.
Proof. unfold active_run. by destruct (isThreadBusy cp). Qed.

Lemma connect_joined_failed (r : Run) :
  active_run client tid cp = Some r →
  stream_throws (runs_joinStream client tid (run_id r)) = true →
  let w := connect this client tid state0 in
  sub_events w
  = hydration_events this client tid (cp :: cps)
    ++ streamed_events this client tid r state0
    ++ [RunFinished tid (run_id r)]
  ∧ sub_completed w = true
  ∧ client_calls w
    = [ CallGetHistory tid (fetch_limit this); CallRunsList tid; CallRunsList tid;
        CallJoinStream tid (run_id r) ]
  ∧ activeRun_manuallyEmittedState w = state0.
Proof.
  intros Hrun Hthrows w. subst w.
  destruct (connect_hydrated this client tid cp cps state0 Hfetch) as (-> & -> & ->).
  rewrite (connect_hydrated_state this client tid state0 cp cps Hfetch).
  unfold after_snapshot, calls_after_fetch, state_after_connect, hydration_events,
    join_events, streamed_events, joined_chunks.
  rewrite Hrun, (active_run_busy r Hrun). cbn zeta. rewrite Hthrows. cbn [head].
  split_and!; try done.
  by rewrite !app_comm_cons, <- !app_assoc.
Qed.

Lemma connect_joined_completed (r : Run) :
  active_run client tid cp = Some r →
  stream_throws (runs_joinStream client tid (run_id r)) = false →
  let w := connect this client tid state0 in
  let final_rid :=
    default (run_id r) (last (omap announced_run_id (joined_chunks client tid r))) in
  sub_events w
  = hydration_events this client tid (cp :: cps)
    ++ streamed_events this client tid r state0
    ++ interrupt_events tid (threads_getState client tid) final_rid
    ++ [RunFinished tid final_rid]
  ∧ sub_completed w = true
  ∧ client_calls w
    = [ CallGetHistory tid (fetch_limit this); CallRunsList tid; CallRunsList tid;
        CallJoinStream tid (run_id r); CallGetState tid ]
  ∧ activeRun_manuallyEmittedState w
    = default state0 (last (omap stored_manual_state (joined_chunks client tid r))).
Proof.
  intros Hrun Hthrows w final_rid. subst w final_rid.
  destruct (connect_hydrated this client tid cp cps state0 Hfetch) as (-> & -> & ->).
  rewrite (connect_hydrated_state this client tid state0 cp cps Hfetch).
  unfold after_snapshot, calls_after_fetch, state_after_connect, hydration_events,
    join_events, streamed_events, joined_chunks.
  rewrite Hrun, (active_run_busy r Hrun). cbn zeta. rewrite Hthrows. cbn [head].
  destruct (process_chunks_fields
              (stream_chunks (runs_joinStream client tid (run_id r)))
              (join_context this tid (run_id r) state0)) as (_ & _ & -> & ->).
  cbn [runId manuallyEmittedState join_context].
  split_and!; try done.
  by rewrite !app_comm_cons, <- !app_assoc.
Qed.

End connect_paths.

Lemma pending_interrupt_first (state : ThreadState) (before after : list Task)
    (task : Task) (interrupt : Interrupt) (others : list Interrupt) :
  tasks state = Some (before ++ task :: after) →
  Forall (fun t => has_interrupts t = false) before →
  interrupts task = Some (interrupt :: others) →
  pending_interrupt state = Some (interrupt_value interrupt).
Proof.
  intros Htasks Hbefore Htask. unfold pending_interrupt. rewrite Htasks. cbn.
  assert (List.find has_interrupts (before ++ task :: after) = Some task) as ->.
  { clear Htasks. induction Hbefore as [|t before Ht _ IH]; cbn.
    - unfold has_interrupts. by rewrite Htask.
    - by rewrite Ht. }
  by rewrite Htask.
Qed.

Lemma pending_interrupt_none (state : ThreadState) :
  pending_interrupt state = None
  ↔ Forall (fun t => has_interrupts t = false) (default [] (tasks state)).
Proof.
  unfold pending_interrupt. destruct (tasks state) as [ts|]; cbn; [|by split].
  induction ts as [|t ts IH]; cbn; [by split|].
  destruct (has_interrupts t) eqn:Ht.
  - pose proof Ht as Hsome. unfold has_interrupts in Hsome.
    destruct (interrupts t) as [[|i others]|]; try discriminate.
    split; [discriminate|]. intros H. apply Forall_inv in H. congruence.
  - rewrite IH. split; [by constructor|]. intros H. by apply Forall_inv_tail in H.
Qed.

(** X15. When the history is not empty and no run is to be joined (the newest
    checkpoint has nothing next to run, or the second lookup of the runs
    throws, returns nothing or returns no run that is running or pending),
    [connect] sends the hydration events and then one RUN_FINISHED with the
    run id of the RUN_STARTED, completes, never joins a stream nor asks for
    the thread state, and leaves the runner's manual state as it was. *)
Theorem connect_without_active_run
    (this : Runner) (client : Client) (tid : string) (state0 : JSValue)
    (cp : ThreadState) (cps : list ThreadState) :
  threads_getHistory client tid (fetch_limit this) = Returns (Some (cp :: cps)) →
  active_run client tid cp = None →
  let w := connect this client tid state0 in
  sub_events w
  = hydration_events this client tid (cp :: cps)
    ++ [RunFinished tid (resolved_run_id client tid)]
  ∧ sub_completed w = true
  ∧ client_calls w
    = CallGetHistory tid (fetch_limit this) :: CallRunsList tid
      :: (if isThreadBusy cp then [CallRunsList tid] else [])
  ∧ activeRun_manuallyEmittedState w = state0.
Proof. apply connect_not_joined. Qed.

Lemma connect_without_active_run_witness :
  threads_getHistory busy_without_run_client "thread-1" (fetch_limit default_runner)
  = Returns (Some [busy_checkpoint])
  ∧ active_run busy_without_run_client "thread-1" busy_checkpoint = None
  ∧ (let w := connect default_runner busy_without_run_client "thread-1" None in
     sub_events w
     = hydration_events default_runner busy_without_run_client "thread-1" [busy_checkpoint]
       ++ [RunFinished "thread-1" (resolved_run_id busy_without_run_client "thread-1")]
     ∧ sub_completed w = true
     ∧ client_calls w
       = CallGetHistory "thread-1" (fetch_limit default_runner) :: CallRunsList "thread-1"
         :: (if isThreadBusy busy_checkpoint then [CallRunsList "thread-1"] else [])
     ∧ activeRun_manuallyEmittedState w = None).
Proof.
  split; [reflexivity|]. split; [reflexivity|].
  apply (connect_without_active_run default_runner busy_without_run_client
           "thread-1" None busy_checkpoint []);
    reflexivity.
Defined.

(** X16. When the newest checkpoint has a task with interrupts, [connect]
    sends, right after the STATE_SNAPSHOT (or after the MESSAGES_SNAPSHOT when
    the checkpoint has no values) and before anything else, one CUSTOM event
    named "on_interrupt" for the first interrupt of the first such task; the
    later interrupts of that task and those of the later tasks are not
    reported there. *)
Theorem connect_reports_first_interrupt
    (this : Runner) (client : Client) (tid : string) (state0 : JSValue)
    (cp : ThreadState) (cps : list ThreadState)
    (before after : list Task) (task : Task)
    (interrupt : Interrupt) (others : list Interrupt) :
  threads_getHistory client tid (fetch_limit this) = Returns (Some (cp :: cps)) →
  tasks cp = Some (before ++ task :: after) →
  Forall (fun t => has_interrupts t = false) before →
  interrupts task = Some (interrupt :: others) →
  let rid := resolved_run_id client tid in
  hydration_events this client tid (cp :: cps)
  = RunStarted tid rid
    :: MessagesSnapshot (snapshot_messages this (cp :: cps)) tid rid
    :: state_snapshot_events tid cp rid
    ++ [Custom "on_interrupt" (ValText (JSON_stringify (interrupt_value interrupt)))
          (RawInterrupt rid (interrupt_value interrupt)) tid rid]
  ∧ ∃ rest,
      sub_events (connect this client tid state0)
      = hydration_events this client tid (cp :: cps) ++ rest.
Proof.
  intros Hfetch Htasks Hbefore Htask rid. split.
  - unfold hydration_events, interrupt_events. cbn [head].
    by rewrite (pending_interrupt_first cp before after task interrupt others).
  - destruct (connect_hydrated this client tid cp cps state0 Hfetch) as (-> & _ & _).
    unfold after_snapshot, hydration_events. cbn [head].
    eexists. by rewrite !app_comm_cons, <- !app_assoc.
Qed.

Lemma connect_reports_first_interrupt_witness :
  threads_getHistory (live_client false) "thread-1" (fetch_limit default_runner)
  = Returns (Some [interrupted_checkpoint; busy_checkpoint])
  ∧ tasks interrupted_checkpoint
    = Some ([ {| task_id := "t1"; task_name := "plan"; interrupts := Some [] |} ]
            ++ {| task_id := "t2"; task_name := "ask";
                  interrupts := Some [ {| interrupt_value := Some (JStr "confirm?") |};
                                       {| interrupt_value := Some (JStr "later") |} ] |}
            :: [])
  ∧ hydration_events default_runner (live_client false) "thread-1"
      [interrupted_checkpoint; busy_checkpoint]
    = RunStarted "thread-1" (resolved_run_id (live_client false) "thread-1")
      :: MessagesSnapshot
           (snapshot_messages default_runner [interrupted_checkpoint; busy_checkpoint])
           "thread-1" (resolved_run_id (live_client false) "thread-1")
      :: state_snapshot_events "thread-1" interrupted_checkpoint
           (resolved_run_id (live_client false) "thread-1")
      ++ [Custom "on_interrupt" (ValText (JSON_stringify (Some (JStr "confirm?"))))
            (RawInterrupt (resolved_run_id (live_client false) "thread-1")
               (Some (JStr "confirm?")))
            "thread-1" (resolved_run_id (live_client false) "thread-1")].
Proof.
  split; [reflexivity|]. split; [reflexivity|].
  apply (connect_reports_first_interrupt default_runner (live_client false)
           "thread-1" None interrupted_checkpoint [busy_checkpoint]
           [ {| task_id := "t1"; task_name := "plan"; interrupts := Some [] |} ] []
           {| task_id := "t2"; task_name := "ask";
              interrupts := Some [ {| interrupt_value := Some (JStr "confirm?") |};
                                   {| interrupt_value := Some (JStr "later") |} ] |}
           {| interrupt_value := Some (JStr "confirm?") |}
           [ {| interrupt_value := Some (JStr "later") |} ]);
    [reflexivity|reflexivity|repeat constructor|reflexivity].
Defined.

(** X17. When the history is not empty and no task of the newest checkpoint
    has interrupts (or it has no task list), [connect] reports no interrupt
    from the history: after RUN_STARTED, the MESSAGES_SNAPSHOT and the
    STATE_SNAPSHOT it goes on at once with the events of the joined stream, or
    with RUN_FINISHED when no run is joined, and none of the events it sends
    before them is an "on_interrupt" event. *)
Theorem connect_reports_no_interrupt
    (this : Runner) (client : Client) (tid : string) (state0 : JSValue)
    (cp : ThreadState) (cps : list ThreadState) :
  threads_getHistory client tid (fetch_limit this) = Returns (Some (cp :: cps)) →
  Forall (fun t => has_interrupts t = false) (default [] (tasks cp)) →
  let rid := resolved_run_id client tid in
  let hydrated :=
    RunStarted tid rid
    :: MessagesSnapshot (snapshot_messages this (cp :: cps)) tid rid
    :: state_snapshot_events tid cp rid in
  sub_events (connect this client tid state0)
  = hydrated
    ++ match active_run client tid cp with
       | Some r => join_events this client tid (run_id r) state0
       | None => [RunFinished tid rid]
       end
  ∧ Forall (fun e => is_interrupt_event e = false) hydrated.
Proof.
  intros Hfetch Hnone rid hydrated. subst rid hydrated.
  apply pending_interrupt_none in Hnone.
  destruct (connect_hydrated this client tid cp cps state0 Hfetch) as (-> & _ & _).
  unfold after_snapshot, interrupt_events. rewrite Hnone. cbn [app]. split.
  - by rewrite !app_comm_cons.
  - do 2 (constructor; [done|]).
    unfold state_snapshot_events. destruct (values cp); repeat constructor.
Qed.

Lemma connect_reports_no_interrupt_witness :
  threads_getHistory quiet_client "thread-1" (fetch_limit default_runner)
  = Returns (Some [quiet_checkpoint; interrupted_checkpoint])
  ∧ Forall (fun t => has_interrupts t = false) (default [] (tasks quiet_checkpoint))
  ∧ (let rid := resolved_run_id quiet_client "thread-1" in
     let hydrated :=
       RunStarted "thread-1" rid
       :: MessagesSnapshot
            (snapshot_messages default_runner [quiet_checkpoint; interrupted_checkpoint])
            "thread-1" rid
       :: state_snapshot_events "thread-1" quiet_checkpoint rid in
     sub_events (connect default_runner quiet_client "thread-1" None)
     = hydrated
       ++ match active_run quiet_client "thread-1" quiet_checkpoint with
          | Some r => join_events default_runner quiet_client "thread-1" (run_id r) None
          | None => [RunFinished "thread-1" rid]
          end
     ∧ Forall (fun e => is_interrupt_event e = false) hydrated).
Proof.
  split; [reflexivity|]. split; [repeat constructor|].
  apply (connect_reports_no_interrupt default_runner quiet_client "thread-1" None
           quiet_checkpoint [interrupted_checkpoint]);
    [reflexivity|repeat constructor].
Defined.

(** The whole sequence of the thread at rest: the interrupt of the older
    checkpoint is not reported either. *)
Example quiet_thread_events :
  map (fun e => (event_type e, is_interrupt_event e))
    (sub_events (connect default_runner quiet_client "thread-1" None))
  = [ (RUN_STARTED, false); (MESSAGES_SNAPSHOT, false); (STATE_SNAPSHOT, false);
      (RUN_FINISHED, false) ].
Proof. vm_compute. reflexivity. Qed.

(** X18. When the stream of the joined run throws, at the join or after any
    number of chunks, [connect] has sent the hydration events and the events
    of the chunks read so far, and then sends one RUN_FINISHED with the id of
    the joined run (not a run id announced by the stream) and completes; it
    does not ask for the thread state, so no interrupt is reported, and the
    runner's manual state is left as it was even if the stream had sent
    one. *)
Theorem connect_stream_failure
    (this : Runner) (client : Client) (tid : string) (state0 : JSValue)
    (cp : ThreadState) (cps : list ThreadState) (r : Run) :
  threads_getHistory client tid (fetch_limit this) = Returns (Some (cp :: cps)) →
  active_run client tid cp = Some r →
  stream_throws (runs_joinStream client tid (run_id r)) = true →
  let w := connect this client tid state0 in
  sub_events w
  = hydration_events this client tid (cp :: cps)
    ++ streamed_events this client tid r state0
    ++ [RunFinished tid (run_id r)]
  ∧ sub_completed w = true
  ∧ client_calls w
    = [ CallGetHistory tid (fetch_limit this); CallRunsList tid; CallRunsList tid;
        CallJoinStream tid (run_id r) ]
  ∧ activeRun_manuallyEmittedState w = state0.
Proof. intros Hfetch. by apply connect_joined_failed. Qed.

Lemma connect_stream_failure_witness :
  threads_getHistory (live_client true) "thread-1" (fetch_limit default_runner)
  = Returns (Some [interrupted_checkpoint; busy_checkpoint])
  ∧ active_run (live_client true) "thread-1" interrupted_checkpoint
    = Some {| run_id := "run-7"; status := "running" |}
  ∧ stream_throws (runs_joinStream (live_client true) "thread-1" "run-7") = true
  ∧ (let w := connect default_runner (live_client true) "thread-1" None in
     let r := {| run_id := "run-7"; status := "running" |} in
     sub_events w
     = hydration_events default_runner (live_client true) "thread-1"
         [interrupted_checkpoint; busy_checkpoint]
       ++ streamed_events default_runner (live_client true) "thread-1" r None
       ++ [RunFinished "thread-1" (run_id r)]
     ∧ sub_completed w = true
     ∧ client_calls w
       = [ CallGetHistory "thread-1" (fetch_limit default_runner);
           CallRunsList "thread-1"; CallRunsList "thread-1";
           CallJoinStream "thread-1" (run_id r) ]
     ∧ activeRun_manuallyEmittedState w = None).
Proof.
  split; [reflexivity|]. split; [reflexivity|]. split; [reflexivity|].
  apply (connect_stream_failure default_runner (live_client true) "thread-1" None
           interrupted_checkpoint [busy_checkpoint]
           {| run_id := "run-7"; status := "running" |});
    reflexivity.
Defined.

(** X19. When the stream of the joined run ends without throwing, [connect]
    asks for the thread state once, reports its first interrupt if it has one
    (nothing if the call throws), and ends with one RUN_FINISHED; both carry
    the last non-empty run id announced by a [metadata] chunk of the stream,
    or the id of the joined run when none was announced. The runner's manual
    state becomes the value of the last manual intermediate-state chunk of the
    stream, and stays as it was when the stream had none. *)
Theorem connect_stream_completed
    (this : Runner) (client : Client) (tid : string) (state0 : JSValue)
    (cp : ThreadState) (cps : list ThreadState) (r : Run) :
  threads_getHistory client tid (fetch_limit this) = Returns (Some (cp :: cps)) →
  active_run client tid cp = Some r →
  stream_throws (runs_joinStream client tid (run_id r)) = false →
  let w := connect this client tid state0 in
  let final_rid :=
    default (run_id r) (last (omap announced_run_id (joined_chunks client tid r))) in
  sub_events w
  = hydration_events this client tid (cp :: cps)
    ++ streamed_events this client tid r state0
    ++ interrupt_events tid (threads_getState client tid) final_rid
    ++ [RunFinished tid final_rid]
  ∧ sub_completed w = true
  ∧ client_calls w
    = [ CallGetHistory tid (fetch_limit this); CallRunsList tid; CallRunsList tid;
        CallJoinStream tid (run_id r); CallGetState tid ]
  ∧ activeRun_manuallyEmittedState w
    = default state0 (last (omap stored_manual_state (joined_chunks client tid r))).
Proof. intros Hfetch. by apply connect_joined_completed. Qed.

Lemma connect_stream_completed_witness :
  threads_getHistory (live_client false) "thread-1" (fetch_limit default_runner)
  = Returns (Some [interrupted_checkpoint; busy_checkpoint])
  ∧ active_run (live_client false) "thread-1" interrupted_checkpoint
    = Some {| run_id := "run-7"; status := "running" |}
  ∧ stream_throws (runs_joinStream (live_client false) "thread-1" "run-7") = false
  ∧ (let w := connect default_runner (live_client false) "thread-1" None in
     let r := {| run_id := "run-7"; status := "running" |} in
     let final_rid :=
       default (run_id r)
         (last (omap announced_run_id (joined_chunks (live_client false) "thread-1" r))) in
     sub_events w
     = hydration_events default_runner (live_client false) "thread-1"
         [interrupted_checkpoint; busy_checkpoint]
       ++ streamed_events default_runner (live_client false) "thread-1" r None
       ++ interrupt_events "thread-1" (threads_getState (live_client false) "thread-1")
            final_rid
       ++ [RunFinished "thread-1" final_rid]
     ∧ sub_completed w = true
     ∧ client_calls w
       = [ CallGetHistory "thread-1" (fetch_limit default_runner);
           CallRunsList "thread-1"; CallRunsList "thread-1";
           CallJoinStream "thread-1" (run_id r); CallGetState "thread-1" ]
     ∧ activeRun_manuallyEmittedState w
       = default None
           (last (omap stored_manual_state (joined_chunks (live_client false) "thread-1" r)))).
Proof.
  split; [reflexivity|]. split; [reflexivity|]. split; [reflexivity|].
  apply (connect_stream_completed default_runner (live_client false) "thread-1" None
           interrupted_checkpoint [busy_checkpoint]
           {| run_id := "run-7"; status := "running" |});
    reflexivity.
Defined.

(** The whole sequence of the thread with a run in progress: the run id
    announced by the stream is used from the streamed events on, the interrupt
    is reported from the history and again from the final state, and the
    manual state sent by the stream is stored. *)
Example live_thread_events :
  map (fun e => (event_type e, event_runId e))
    (sub_events (connect default_runner (live_client false) "thread-1" None))
  = [ (RUN_STARTED, "run-6"); (MESSAGES_SNAPSHOT, "run-6"); (STATE_SNAPSHOT, "run-6");
      (CUSTOM, "run-6");
      (TEXT_MESSAGE_START, "run-8"); (TEXT_MESSAGE_CONTENT, "run-8");
      (CUSTOM, "run-8"); (STATE_SNAPSHOT, "run-8");
      (CUSTOM, "run-8"); (RUN_FINISHED, "run-8") ]
  ∧ activeRun_manuallyEmittedState
      (connect default_runner (live_client false) "thread-1" None)
    = Some (JObj [("plan", JStr "final")]).
Proof. split; vm_compute; reflexivity. Qed.

(** ** The oldest version of a message is the one kept *)

Lemma keep_first_oldest (l : list LangGraphMessage) :
  Forall (fun m => List.find (fun m' => bool_decide (msg_id m' = msg_id m)) l = Some m)
    (keep_first l).
Proof.
  induction l as [|a l IH]; [constructor|].
  change (keep_first (a :: l))
    with (a :: filter (fun m' => msg_id m' ≠ msg_id a) (keep_first l)).
  constructor.
  - cbn. by rewrite bool_decide_eq_true_2.
  - rewrite Forall_forall in IH. apply Forall_forall. intros m Hm.
    apply list_elem_of_filter in Hm as [Hne Hin]. cbn.
    rewrite bool_decide_eq_false_2 by done. by apply IH.
Qed.

(** X20. When several checkpoints hold a message with the same id, the
    version sent in the history is the oldest one: every deduplicated message
    is the first message with its id in chronological order, so a later
    checkpoint never replaces the content of a message seen before. *)
Theorem dedup_keeps_oldest_version (fetched : list ThreadState) :
  Forall (fun m =>
            List.find (fun m' => bool_decide (msg_id m' = msg_id m))
              (chronological fetched) = Some m)
    (allMessages (collect_checkpoints (reverse fetched))).
Proof.
  rewrite collect_checkpoints_keep_first. apply keep_first_oldest.
Qed.

(** ** The message transformer *)

Lemma transformMessage_table (m : LangGraphMessage) :
  (fun t => (tm_id t, tm_role t, tm_content t)) <$> transformMessage m
  = (fun r => (msg_id m, r, extractContent (msg_content m))) <$> role_of_type (msg_type m).
Proof.
  unfold transformMessage, role_of_type. by break_ifs.
Qed.

Lemma transformMessage_optional_fields (m : LangGraphMessage) (t : TransformedMessage) :
  transformMessage m = Some t →
  match tm_role t with
  | assistant =>
      tm_toolCalls t = List.map transformToolCall <$> msg_tool_calls m
      ∧ tm_toolCallId t = None
  | tool_role => tm_toolCalls t = None ∧ tm_toolCallId t = msg_tool_call_id m
  | _ => tm_toolCalls t = None ∧ tm_toolCallId t = None
  end.
Proof.
  unfold transformMessage. break_ifs; intros [= <-]; done.
Qed.

(** X21. [transformMessages] treats each message on its own and keeps the
    order: the messages of type human, ai, system and tool come out with
    their id, with the role user, assistant, system and tool and with their
    extracted text, and the messages of any other type are left out; a longer
    input only adds to the output. *)
Theorem transformMessages_by_type (msgs more : list LangGraphMessage) :
  (fun t => (tm_id t, tm_role t, tm_content t)) <$> transformMessages msgs
  = omap (fun m => (fun r => (msg_id m, r, extractContent (msg_content m)))
                     <$> role_of_type (msg_type m)) msgs
  ∧ transformMessages (msgs ++ more) = transformMessages msgs ++ transformMessages more.
Proof.
  rewrite !transformMessages_omap. split; [|apply omap_app].
  induction msgs as [|m msgs IH]; [done|]. cbn.
  pose proof (transformMessage_table m) as Hm.
  destruct (transformMessage m) as [t|], (role_of_type (msg_type m)) as [r|];
    cbn in Hm; try discriminate.
  - injection Hm as Hid Hrole Hcontent. cbn. by rewrite IH, Hid, Hrole, Hcontent.
  - exact IH.
Qed.

(** X22. In the output of [transformMessages], tool calls are carried only by
    assistant messages and a tool-call id only by tool messages: a message
    with another role has neither, whatever its source message held. *)
Theorem transformed_optional_fields (msgs : list LangGraphMessage) :
  Forall (fun t =>
            match tm_role t with
            | assistant => tm_toolCallId t = None
            | tool_role => tm_toolCalls t = None
            | _ => tm_toolCalls t = None ∧ tm_toolCallId t = None
            end)
    (transformMessages msgs).
Proof.
  rewrite transformMessages_omap. apply Forall_forall. intros t Ht.
  apply list_elem_of_omap in Ht as (m & _ & Hm).
  pose proof (transformMessage_optional_fields m t Hm) as H.
  destruct (tm_role t); tauto.
Qed.

(** ** Text extraction *)

Lemma block_texts_nonempty (blocks : list ContentBlock) :
  Forall (fun s => s ≠ "") (block_texts blocks).
Proof.
  apply Forall_forall. intros s Hs. apply list_elem_of_In in Hs.
  apply List.filter_In in Hs as [_ Hs]. by destruct s.
Qed.

Lemma concat_nonempty (x : string) (xs : list string) :
  x ≠ "" → String.eqb (String.concat newline (x :: xs)) "" = false.
Proof. destruct x as [|c x]; [done|]. by destruct xs. Qed.

Lemma string_app_assoc (a b c : string) : (a +:+ b) +:+ c = a +:+ (b +:+ c).
Proof.
  induction a as [|x a IH]; [done|].
  change (String x ((a +:+ b) +:+ c) = String x (a +:+ b +:+ c)). by rewrite IH.
Qed.

Lemma concat_app_lines (l1 l2 : list string) :
  Forall (fun s => s ≠ "") l1 → Forall (fun s => s ≠ "") l2 →
  String.concat newline (l1 ++ l2)
  = join_lines (String.concat newline l1) (String.concat newline l2).
Proof.
  intros H1 H2. induction H1 as [|x l1 Hx H1 IH]; [done|].
  unfold join_lines. rewrite (concat_nonempty x l1 Hx).
  destruct l1 as [|y l1].
  - destruct l2 as [|z l2]; [done|]. apply Forall_inv in H2.
    by rewrite (concat_nonempty z l2 H2).
  - change (String.concat newline ((x :: y :: l1) ++ l2))
      with (x +:+ newline +:+ String.concat newline ((y :: l1) ++ l2)).
    rewrite IH. unfold join_lines.
    rewrite (concat_nonempty y l1 (Forall_inv H1)).
    change (String.concat newline (x :: y :: l1))
      with (x +:+ newline +:+ String.concat newline (y :: l1)).
    destruct (String.eqb (String.concat newline l2) ""); [done|].
    by rewrite !string_app_assoc.
Qed.

Lemma block_to_text_cases (block : ContentBlock) :
  (has_text block = true
   ∧ block_to_text block = default "" (block_text block)
   ∧ negb (String.length (block_to_text block) =? 0)%nat = true)
  ∨ (has_text block = false ∧ block_to_text block = "").
Proof.
  unfold has_text, block_to_text.
  destruct (block_text block) as [t|]; cbn [default].
  - destruct (String.eqb (block_type block) "text"); cbn [andb]; [|by right].
    destruct t as [|c t]; [by right|by left].
  - right. by rewrite andb_false_r.
Qed.

Lemma block_texts_has_text (blocks : list ContentBlock) :
  block_texts blocks
  = List.map (fun block => default "" (block_text block)) (List.filter has_text blocks).
Proof.
  unfold block_texts. induction blocks as [|block blocks IH]; [done|].
  cbn [List.map List.filter].
  destruct (block_to_text_cases block) as [(-> & Htext & ->)|[-> ->]].
  - cbn [List.map]. by rewrite IH, Htext.
  - cbn. exact IH.
Qed.

Lemma filter_has_text_twice (blocks : list ContentBlock) :
  List.filter has_text (List.filter has_text blocks) = List.filter has_text blocks.
Proof.
  induction blocks as [|block blocks IH]; [done|]. cbn [List.filter].
  destruct (has_text block) eqn:Hblock; [|exact IH].
  cbn [List.filter]. by rewrite Hblock, IH.
Qed.

(** X23. The text extracted from an array of content blocks is made of the
    texts of the blocks of type ["text"] that have a non-empty text, in order
    and joined by newlines. Every other block (another type, no text, an empty
    text) leaves no trace, not even an empty line: taking those blocks out
    changes nothing. Hence the text of two arrays put end to end is the two
    texts joined by one newline, or the other text alone when one of them is
    empty. *)
Theorem extractContent_joins_lines (blocks more : list ContentBlock) :
  extractContent (ContentBlocks blocks)
  = String.concat newline
      (List.map (fun block => default "" (block_text block))
         (List.filter has_text blocks))
  ∧ extractContent (ContentBlocks (List.filter has_text blocks))
    = extractContent (ContentBlocks blocks)
  ∧ extractContent (ContentBlocks (blocks ++ more))
    = join_lines (extractContent (ContentBlocks blocks))
        (extractContent (ContentBlocks more)).
Proof.
  unfold extractContent. fold (block_texts blocks).
  fold (block_texts (List.filter has_text blocks)). split_and!.
  - by rewrite block_texts_has_text.
  - by rewrite !block_texts_has_text, filter_has_text_twice.
  - rewrite List.map_app, List.filter_app.
    apply concat_app_lines; apply block_texts_nonempty.
Qed.

(** The blocks of [block_message]: the image block, the block without text
    and the block with an empty text are passed over. *)
Example block_message_text :
  extractContent (msg_content block_message) = "first" +:+ newline +:+ "second"
  ∧ List.map block_type
      (List.filter has_text
         [ {| block_type := "text"; block_text := Some "first" |};
           {| block_type := "image"; block_text := Some "ignored" |};
           {| block_type := "text"; block_text := None |};
           {| block_type := "text"; block_text := Some "" |};
           {| block_type := "text"; block_text := Some "second" |} ])
    = ["text"; "text"].
Proof. split; vm_compute; reflexivity. Qed.

Example block_message_transformed :
  transformMessages [block_message]
  = [ {| tm_id := "m1"; tm_role := assistant;
         tm_content := "first" +:+ newline +:+ "second";
         tm_toolCalls :=
           Some [ {| ttc_id := "call-1";
                     ttc_function :=
                       {| fn_name := "search";
                          fn_arguments := JSON_stringify (Some (JObj [("q", JStr "x")])) |} |} ];
         tm_toolCallId := None |} ].
Proof. vm_compute. reflexivity. Qed.

(** ** Custom chunks *)

(** X24. A [custom] chunk always sends something. For the manual message
    name it sends exactly three events, the start, the content and the end of
    one text message, all three with the same message id; for the manual
    tool-call name exactly three events, the start, the arguments and the end
    of one tool call, all three with the same tool-call id; for every other
    payload exactly one event, which belongs to no message and to no tool
    call. None of this depends on what was started before the chunk. *)
Theorem custom_chunk_sends_closed_units
    (data : JSValue) (md : option (gmap string JValue)) (context : StreamProcessorContext) :
  let events := (processStreamChunk (CustomChunk data md) context).1 in
  if bool_decide (custom_event_name data
                  = Some CustomEventNames.CopilotKitManuallyEmitMessage)
  then ∃ id, text_part <$> events = complete_unit id
  else if bool_decide (custom_event_name data
                       = Some CustomEventNames.CopilotKitManuallyEmitToolCall)
       then ∃ id, tool_part <$> events = complete_unit id
       else ∃ e, events = [e] ∧ text_part e = None ∧ tool_part e = None.
Proof.
  cbn [processStreamChunk fst]. unfold handleCustomEvent, custom_event_name.
  repeat case_bool_decide; cbn [fst]; try done; by eexists.
Qed.
